(** * GIT Wizard (GPTBigCode + CLIP vision) : attention-mask composition,
      fused forward pass, loss alignment and configuration serialisation.

    Shallow embedding of [heron/models/git_llm/git_wizard/modeling_git_wizard.py].

    Tensors are modelled by their shape and an index function.  The numeric
    entries of every mask built by the code are the floating-point values
    0.0, 1.0, -1.0 and [torch.finfo(dtype).min]; all of them are integers
    that the float formats represent exactly, and the only arithmetic on them
    is [1 + 0], [1 + (-1)], [1 - 0] and [1 - 1], so they are modelled in [Z].
    Hidden states, logits and embeddings live in an abstract scalar type [F];
    the pretrained collaborators (vision encoder, projection, embeddings,
    decoder blocks, layer norm, LM head, loss) are fields of the model
    record.  Where a property depends on rounding, [F] is instantiated with
    IEEE 754 binary32 as [SpecFloat] specifies it. *)

From Stdlib Require Import ZArith List String Bool Lia Arith.
From Stdlib Require Floats.SpecFloat.
From stdpp Require Import gmap strings.
Import ListNotations.

Set Implicit Arguments.

(* ================================================================== *)
(** ** Exceptions and results *)
(* ================================================================== *)

Inductive error : Type :=
  | ValueError (msg : string)
  | RuntimeError (msg : string)
  | IndexError
  | AssertionError
  | AttributeError
  | ZeroDivisionError.

Inductive result (A : Type) : Type :=
  | Ok (a : A)
  | Err (e : error).
Arguments Ok {A} a.
Arguments Err {A} e.

Definition rbind {A B} (r : result A) (k : A -> result B) : result B :=
  match r with
  | Ok a => k a
  | Err e => Err e
  end.

Declare Scope res_scope.
Delimit Scope res_scope with res.
Notation "'let!' x ':=' c 'in' k" := (rbind c (fun x => k))
  (at level 10, x name, c at level 100, k at level 200) : res_scope.

(* ================================================================== *)
(** ** Tensors: a shape and an index function *)
(* ================================================================== *)

Record T2 (A : Type) : Type := mkT2 {
  rows : nat;
  cols : nat;
  at2 : nat -> nat -> A
}.

Record T4 (A : Type) : Type := mkT4 {
  d0 : nat;
  d1 : nat;
  d2 : nat;
  d3 : nat;
  at4 : nat -> nat -> nat -> nat -> A
}.

(** [torch.dtype] of the floating tensors the model runs in. *)
Inductive float_dtype : Type := float16 | bfloat16 | float32 | float64.

(** [torch.finfo(dtype).min]: the most negative finite value, an integer in
    every format. *)
Definition finfo_min (dt : float_dtype) : Z :=
  match dt with
  | float16 => (-65504)%Z
  | bfloat16 => (- (2 ^ 128 - 2 ^ 120))%Z
  | float32 => (- (2 ^ 128 - 2 ^ 104))%Z
  | float64 => (- (2 ^ 1024 - 2 ^ 971))%Z
  end.

Section FloatTensors.

(** Scalars of hidden states; [F] is never inspected by the mask code. *)
Variable F : Type.

(** A rank-3 floating tensor [[batch, seq, hidden]]. *)
Record T3 : Type := mkT3 {
  dtype3 : float_dtype;
  bsz3 : nat;
  len3 : nat;
  hid3 : nat;
  at3 : nat -> nat -> nat -> F
}.

End FloatTensors.

Arguments mkT3 {F} _ _ _ _ _.
Arguments dtype3 {F} _.
Arguments bsz3 {F} _.
Arguments len3 {F} _.
Arguments hid3 {F} _.
Arguments at3 {F} _ _ _ _.

(** The optional [memory_key_padding_mask]: a rank-2 tensor that is either of
    dtype [torch.bool] or of some other dtype. *)
Inductive pad_tensor : Type :=
  | BoolPad (m : T2 bool)
  | NonBoolPad (m : T2 Z).

(* ------------------------------------------------------------------ *)
(** *** Elementary tensor operations used by the mask code *)
(* ------------------------------------------------------------------ *)

Definition full2 {A} (r c : nat) (v : A) : T2 A := mkT2 r c (fun _ _ => v).

(** [torch.ones((r, c))] *)
Definition ones2 (r c : nat) : T2 Z := full2 r c 1%Z.

(** [torch.tril(t, diagonal=0)] *)
Definition tril (t : T2 Z) : T2 Z :=
  mkT2 (rows t) (cols t) (fun i j => if j <=? i then at2 t i j else 0%Z).

(** [torch.cat((a, b), dim=0)] on rank-2 tensors *)
Definition cat_dim0 {A} (a b : T2 A) : result (T2 A) :=
  if cols a =? cols b
  then Ok (mkT2 (rows a + rows b) (cols a)
             (fun i j => if i <? rows a then at2 a i j else at2 b (i - rows a) j))
  else Err (RuntimeError "Sizes of tensors must match except in dimension 0").

(** [torch.cat((a, b), dim=1)] on rank-2 tensors *)
Definition cat_dim1 {A} (a b : T2 A) : result (T2 A) :=
  if rows a =? rows b
  then Ok (mkT2 (rows a) (cols a + cols b)
             (fun i j => if j <? cols a then at2 a i j else at2 b i (j - cols a)))
  else Err (RuntimeError "Sizes of tensors must match except in dimension 1").

(** [t.bool()] : a float entry converts to [True] iff it is non-zero. *)
Definition nonzero (z : Z) : bool := negb (z =? 0)%Z.

Definition bool4 (t : T4 Z) : T4 bool :=
  mkT4 (d0 t) (d1 t) (d2 t) (d3 t) (fun b h i j => nonzero (at4 t b h i j)).

(** Broadcasting of a value dimension [e] into a slot dimension [slot]:
    allowed when they agree or the value has size 1. *)
Definition bcast_ok (slot e : nat) : bool := (e =? slot) || (e =? 1).

(** Index into the (possibly size-1) value dimension. *)
Definition bidx (slot e i : nat) : nat := if e =? slot then i else 0.

(** Start of the Python slice [-n:] on a dimension of size [len]
    ([-0:] is [0:], the whole dimension). *)
Definition neg_slice_start (n len : nat) : nat :=
  if n =? 0 then 0 else len - n.

(* ================================================================== *)
(** ** [_expand_mask] *)
(* ================================================================== *)

(** Expands [attention_mask] from [[bsz, seq_len]] to
    [[bsz, 1, tgt_seq_len, src_seq_len]].  The user mask holds True/1 at
    valid positions; [.to(dtype)] turns it into 1.0 / 0.0. *)
Definition _expand_mask (mask : T2 bool) (dtype : float_dtype)
    (tgt_len : option nat) : T4 Z :=
  let bsz := rows mask in
  let src_len := cols mask in
  let tgt_len := match tgt_len with Some t => t | None => src_len end in
  let expanded_mask : T4 Z :=
    mkT4 bsz 1 tgt_len src_len (fun b _ _ j => if at2 mask b j then 1%Z else 0%Z) in
  let inverted_mask : T4 Z :=
    mkT4 bsz 1 tgt_len src_len (fun b h i j => (1 - at4 expanded_mask b h i j)%Z) in
  mkT4 bsz 1 tgt_len src_len
    (fun b h i j =>
       if nonzero (at4 inverted_mask b h i j)
       then finfo_min dtype
       else at4 inverted_mask b h i j).

(* ================================================================== *)
(** ** [GitGPTBigCodeModel._generate_future_mask] and
       [GitGPTBigCodeModel.create_attention_mask] *)
(* ================================================================== *)

Definition _generate_future_mask (size : nat) : T2 Z :=
  tril (ones2 size size).

Section CreateAttentionMask.

Variable F : Type.

Definition create_attention_mask (tgt memory : T3 F) (tgt_mask : T2 Z)
    (past_key_values_length : nat)
    (memory_key_padding_mask : option pad_tensor) : result (T4 Z) :=
  let num_tgt := len3 tgt in
  let num_memory := len3 memory in
  let top_left := ones2 num_memory num_memory in
  let top_right := full2 num_memory (num_tgt + past_key_values_length) 0%Z in
  let bottom_left := ones2 num_tgt num_memory in
  let tgt_mask :=
    if 0 <? past_key_values_length
    then ones2 (rows tgt_mask) (rows tgt_mask + past_key_values_length)
    else tgt_mask in
  (let! left := cat_dim0 top_left bottom_left in
   let! right := cat_dim0 top_right tgt_mask in
   (* [None, :] puts a batch axis of size 1 in front *)
   let! full_attention_mask := cat_dim1 left right in
   let memory_key_padding_mask :=
     match memory_key_padding_mask with
     | Some m => m
     | None => BoolPad (full2 (bsz3 memory) (len3 memory) false)
     end in
   (* if it is False, it means valid. That is, it is not a padding *)
   match memory_key_padding_mask with
   | NonBoolPad _ =>
       Err (ValueError "Memory key padding mask must be a boolean tensor.")
   | BoolPad pad =>
       let zero_negative_infinity : T2 Z :=
         mkT2 (rows pad) (cols pad)
           (fun b j => if at2 pad b j then (-1)%Z else 0%Z) in
       (* expand [1, R, C] to (pad.shape[0], M + N, M + past + N) *)
       if negb ((rows full_attention_mask =? num_memory + num_tgt)
                && (cols full_attention_mask
                    =? num_memory + past_key_values_length + num_tgt))
       then Err (RuntimeError "The expanded size of the tensor must match the existing size")
       else
       (* full[:, :, :M] = full[:, :, :M] + zero_negative_infinity[:, None, :] *)
       let left_cols := Nat.min num_memory (cols full_attention_mask) in
       if negb (bcast_ok left_cols (cols zero_negative_infinity))
       then Err (RuntimeError "The size of tensor a must match the size of tensor b")
       else
       (* add axis for multi-head *)
       Ok (mkT4 (rows pad) 1 (num_memory + num_tgt)
             (num_memory + past_key_values_length + num_tgt)
             (fun b _ i j =>
                if j <? left_cols
                then (at2 full_attention_mask i j
                      + at2 zero_negative_infinity b
                          (bidx left_cols (cols zero_negative_infinity) j))%Z
                else at2 full_attention_mask i j))
   end)%res.

End CreateAttentionMask.

(* ================================================================== *)
(** ** The combined mask as [GitGPTBigCodeModel.forward] finishes it *)
(* ================================================================== *)

(** [combined[:, :, -n:, -n:] = torch.logical_and(combined[:, :, -n:, -n:], expanded)] *)
Definition and_into_block (combined : T4 bool) (n : nat) (expanded : T4 bool)
    : result (T4 bool) :=
  let r0 := neg_slice_start n (d2 combined) in
  let c0 := neg_slice_start n (d3 combined) in
  let block_rows := d2 combined - r0 in
  let block_cols := d3 combined - c0 in
  if bcast_ok (d0 combined) (d0 expanded) && bcast_ok (d1 combined) (d1 expanded)
     && bcast_ok block_rows (d2 expanded) && bcast_ok block_cols (d3 expanded)
  then Ok (mkT4 (d0 combined) (d1 combined) (d2 combined) (d3 combined)
             (fun b h i j =>
                if (r0 <=? i) && (c0 <=? j)
                then at4 combined b h i j
                     && at4 expanded
                          (bidx (d0 combined) (d0 expanded) b)
                          (bidx (d1 combined) (d1 expanded) h)
                          (bidx block_rows (d2 expanded) (i - r0))
                          (bidx block_cols (d3 expanded) (j - c0))
                else at4 combined b h i j))
  else Err (RuntimeError "The size of tensor a must match the size of tensor b").

(** [t.transpose(1, 2)] *)
Definition transpose_1_2 {A} (t : T4 A) : T4 A :=
  mkT4 (d0 t) (d2 t) (d1 t) (d3 t) (fun b i h j => at4 t b h i j).

Section CombinedMask.

Variable F : Type.

(** Lines 374-406 of [forward]: the future mask, the composed mask turned
    boolean, the user mask, the multi-query layout.  [query_length] is
    [input_shape[-1]] (also [input_shape[1]], the input being
    [[batch, seq]]). *)
Definition combined_attention_mask (multi_query : bool)
    (inputs_embeds projected_visual_features : T3 F)
    (query_length past_length : nat) (attention_mask : option (T2 bool))
    : result (T4 bool) :=
  let tgt_mask := _generate_future_mask query_length in
  (let! m := create_attention_mask inputs_embeds projected_visual_features
               tgt_mask past_length None in
   let combined := bool4 m in
   let! combined :=
     match attention_mask with
     | Some attention_mask =>
         (* if the user provides an attention mask, we add it to the default one *)
         let expanded_attn_mask :=
           bool4 (_expand_mask attention_mask (dtype3 inputs_embeds)
                    (Some query_length)) in
         if 0 <? past_length
         then Ok combined
         else and_into_block combined query_length expanded_attn_mask
     | None => Ok combined
     end in
   Ok (if multi_query then transpose_1_2 combined else combined))%res.

(** Entry of the mask seen by query row [i] for key column [j] in batch
    element [b], in either layout. *)
Definition mask_at (multi_query : bool) (m : T4 bool) (b i j : nat) : bool :=
  if multi_query then at4 m b i 0 j else at4 m b 0 i j.

(** [(batch, query rows, key columns)] of the mask, in either layout. *)
Definition mask_shape (multi_query : bool) (m : T4 bool) : nat * nat * nat :=
  (d0 m, if multi_query then d1 m else d2 m, d3 m).

End CombinedMask.

(** Materialised views, for reading masks off concrete inputs. *)
Definition list2 {A} (t : T2 A) : list (list A) :=
  map (fun i => map (fun j => at2 t i j) (seq 0 (cols t))) (seq 0 (rows t)).

Definition list4 {A} (t : T4 A) : list (list (list (list A))) :=
  map (fun b => map (fun h => map (fun i => map (fun j => at4 t b h i j)
                                               (seq 0 (d3 t)))
                                  (seq 0 (d2 t)))
                    (seq 0 (d1 t)))
      (seq 0 (d0 t)).

(* ================================================================== *)
(** ** Vocabulary for statements about the composed mask *)
(* ================================================================== *)

Section MaskVocabulary.

Variable F : Type.

(** Is visual position [j] of batch row [b] marked padded? *)
Definition padded (pad : option pad_tensor) (b j : nat) : bool :=
  match pad with
  | Some (BoolPad p) => at2 p b j
  | _ => false
  end.

(** Batch size of the composed mask: the padding mask's, or the memory's
    when no padding mask is passed. *)
Definition pad_batch (memory : T3 F) (pad : option pad_tensor) : nat :=
  match pad with
  | Some (BoolPad p) => rows p
  | Some (NonBoolPad p) => rows p
  | None => bsz3 memory
  end.

(** The padding mask, when given, is boolean of shape [[batch, M]]. *)
Definition pad_well_shaped (memory : T3 F) (pad : option pad_tensor) : Prop :=
  match pad with
  | Some (BoolPad p) => cols p = len3 memory
  | Some (NonBoolPad _) => False
  | None => True
  end.

(** [t] has shape [[b, l, h]]. *)
Definition has_shape (t : T3 F) (b l h : nat) : Prop :=
  bsz3 t = b /\ len3 t = l /\ hid3 t = h.

(** Entry [(i, j)] of the mask before the padding columns are excluded. *)
Definition base_entry (num_memory past : nat) (tgt_mask : T2 Z) (i j : nat) : Z :=
  if j <? num_memory then 1%Z
  else if i <? num_memory then 0%Z
  else if 0 <? past then 1%Z
  else at2 tgt_mask (i - num_memory) (j - num_memory).

(** The text block the specification describes for a first call
    ([pastLen = 0]): the causal mask ANDed with the user mask broadcast
    across rows, a true user-mask entry marking a valid position. *)
Definition spec_text_block (attention_mask : T2 bool) (b i j : nat) : bool :=
  (j <=? i) && at2 attention_mask b j.

(** What line 193 adds to column [j] of batch row [b]. *)
Definition pad_entry (num_memory : nat) (pad : option pad_tensor) (b j : nat) : Z :=
  if (j <? num_memory) && padded pad b j then (-1)%Z else 0%Z.

End MaskVocabulary.

(* ================================================================== *)
(** ** Effects: exceptions, and a log of the collaborators invoked *)
(* ================================================================== *)

(** One entry per call into a pretrained collaborator or per tensor the
    forward pass builds; the log records how far a call got. *)
Inductive event : Type :=
  | EvWarnPadding                 (* warn_if_padding_and_no_attention_mask *)
  | EvImageEncoder (frame : option nat)   (* self.image_encoder(...) *)
  | EvTemporalEmbedding (frame_idx : nat) (* += self.img_temporal_embedding[f] *)
  | EvVisualProjection            (* self.visual_projection(...) *)
  | EvTokenEmbedding              (* self.wte(input_ids) *)
  | EvFuse                        (* torch.cat((visual, text), dim=1) *)
  | EvPositionEmbedding           (* self.wpe(position_ids) *)
  | EvTokenTypeEmbedding          (* self.wte(token_type_ids) *)
  | EvDropout                     (* self.drop(hidden_states) *)
  | EvAttentionMask               (* self.create_attention_mask(...) *)
  | EvBlock (i : nat)             (* self.h[i](...) *)
  | EvLayerNorm                   (* self.ln_f(hidden_states) *)
  | EvLMHead                      (* self.lm_head(sequence_output) *)
  | EvLoss.                       (* CrossEntropyLoss()(...) *)

Definition Eff (A : Type) : Type := (result A * list event)%type.

Definition ret {A} (a : A) : Eff A := (Ok a, []).
Definition raise {A} (e : error) : Eff A := (Err e, []).
Definition lift {A} (r : result A) : Eff A := (r, []).
(** The value [a] obtained by an operation logged as [ev]. *)
Definition call {A} (ev : event) (a : A) : Eff A := (Ok a, [ev]).

Definition bind {A B} (m : Eff A) (k : A -> Eff B) : Eff B :=
  match m with
  | (Ok a, l) => let (r, l') := k a in (r, l ++ l')
  | (Err e, l) => (Err e, l)
  end.

Declare Scope eff_scope.
Delimit Scope eff_scope with eff.
Notation "'let*' x ':=' c 'in' k" := (bind c (fun x => k))
  (at level 10, x name, c at level 100, k at level 200) : eff_scope.

Definition outcome {A} (m : Eff A) : result A := fst m.

(** [post m P]: if [m] returns a value, the value satisfies [P]. *)
Definition post {A} (m : Eff A) (P : A -> Prop) : Prop :=
  match outcome m with
  | Ok a => P a
  | Err _ => True
  end.
Definition trace {A} (m : Eff A) : list event := snd m.

Definition or_default {A} (o : option A) (d : A) : A :=
  match o with Some a => a | None => d end.

(* ------------------------------------------------------------------ *)
(** *** Rank-2 and rank-3 tensor operations of the forward pass *)
(* ------------------------------------------------------------------ *)

(** [t.view(-1, n)] of a rank-2 tensor. *)
Definition view2 {A} (t : T2 A) (n : nat) : result (T2 A) :=
  let numel := rows t * cols t in
  if n =? 0
  then Err (RuntimeError "cannot reshape tensor into shape [-1, 0]")
  else if numel mod n =? 0
  then Ok (mkT2 (numel / n) n
             (fun i j => let k := i * n + j in at2 t (k / cols t) (k mod cols t)))
  else Err (RuntimeError "shape is invalid for input size").

(** [torch.promote_types] on the floating dtypes. *)
Definition promote_types (a b : float_dtype) : float_dtype :=
  match a, b with
  | float64, _ | _, float64 => float64
  | float32, _ | _, float32 => float32
  | float16, float16 => float16
  | bfloat16, bfloat16 => bfloat16
  | float16, bfloat16 | bfloat16, float16 => float32
  end.

(** Size of a broadcast dimension, when the two sizes are compatible. *)
Definition bdim (a b : nat) : option nat :=
  if a =? b then Some a
  else if a =? 1 then Some b
  else if b =? 1 then Some a
  else None.

(** Index into a dimension of size [d] under broadcasting. *)
Definition bsel (d i : nat) : nat := if d =? 1 then 0 else i.

Section Rank3.

Variable F : Type.
Variable fadd : F -> F -> F.
Variable fzero : F.

(** [torch.zeros((b, l, h), dtype=dt)] *)
Definition zeros3 (dt : float_dtype) (b l h : nat) : T3 F :=
  mkT3 dt b l h (fun _ _ _ => fzero).

(** [t.repeat(k, 1, 1)] *)
Definition repeat3 (t : T3 F) (k : nat) : T3 F :=
  mkT3 (dtype3 t) (k * bsz3 t) (len3 t) (hid3 t)
    (fun b i h => at3 t (b mod bsz3 t) i h).

(** [torch.cat((a, b), dim=1)] *)
Definition cat_seq (a b : T3 F) : result (T3 F) :=
  if (bsz3 a =? bsz3 b) && (hid3 a =? hid3 b)
  then Ok (mkT3 (promote_types (dtype3 a) (dtype3 b)) (bsz3 a)
             (len3 a + len3 b) (hid3 a)
             (fun b0 i h => if i <? len3 a then at3 a b0 i h
                            else at3 b b0 (i - len3 a) h))
  else Err (RuntimeError "Sizes of tensors must match except in dimension 1").

(** [torch.cat(ts, dim=1)] of a Python list of rank-3 tensors. *)
Fixpoint cat_seq_list (ts : list (T3 F)) : result (T3 F) :=
  match ts with
  | [] => Err (RuntimeError "torch.cat(): expected a non-empty list of Tensors")
  | [t] => Ok t
  | t :: rest => (let! r := cat_seq_list rest in cat_seq t r)%res
  end.

(** [a + b] with broadcasting. *)
Definition add3 (a b : T3 F) : result (T3 F) :=
  match bdim (bsz3 a) (bsz3 b), bdim (len3 a) (len3 b),
        bdim (hid3 a) (hid3 b) with
  | Some n0, Some n1, Some n2 =>
      Ok (mkT3 (promote_types (dtype3 a) (dtype3 b)) n0 n1 n2
            (fun b0 i h =>
               fadd (at3 a (bsel (bsz3 a) b0) (bsel (len3 a) i) (bsel (hid3 a) h))
                    (at3 b (bsel (bsz3 b) b0) (bsel (len3 b) i) (bsel (hid3 b) h))))
  | _, _, _ => Err (RuntimeError "The size of tensor a must match the size of tensor b")
  end.

(** [x += o]: the in-place sum keeps the shape and dtype of [x]. *)
Definition iadd3 (x o : T3 F) : result (T3 F) :=
  if bcast_ok (bsz3 x) (bsz3 o) && bcast_ok (len3 x) (len3 o)
     && bcast_ok (hid3 x) (hid3 o)
  then Ok (mkT3 (dtype3 x) (bsz3 x) (len3 x) (hid3 x)
             (fun b i h =>
                fadd (at3 x b i h)
                     (at3 o (bidx (bsz3 x) (bsz3 o) b) (bidx (len3 x) (len3 o) i)
                            (bidx (hid3 x) (hid3 o) h))))
  else Err (RuntimeError "output with shape doesn't match the broadcast shape").

(** [t.view(shape)] for a rank-3 [shape]. *)
Definition view3 (t : T3 F) (shape : nat * nat * nat) : result (T3 F) :=
  let '(b, l, h) := shape in
  if bsz3 t * len3 t * hid3 t =? b * l * h
  then Ok (mkT3 (dtype3 t) b l h
             (fun b0 i h0 =>
                let k := (b0 * l + i) * h + h0 in
                at3 t (k / (len3 t * hid3 t)) ((k / hid3 t) mod len3 t)
                      (k mod hid3 t)))
  else Err (RuntimeError "shape is invalid for input size").

(** [t.view(-1, n)] of a rank-3 tensor. *)
Definition view_rows3 (t : T3 F) (n : nat) : result (T2 F) :=
  let numel := bsz3 t * len3 t * hid3 t in
  if n =? 0
  then Err (RuntimeError "cannot reshape tensor into shape [-1, 0]")
  else if numel mod n =? 0
  then Ok (mkT2 (numel / n) n
             (fun r c =>
                let k := r * n + c in
                at3 t (k / (len3 t * hid3 t)) ((k / hid3 t) mod len3 t)
                      (k mod hid3 t)))
  else Err (RuntimeError "shape is invalid for input size").

End Rank3.

(** [t.view(-1)] of a rank-2 tensor, as the list of its entries. *)
Definition flatten2 {A} (t : T2 A) : list A := concat (list2 t).

(* ================================================================== *)
(** ** [GitGPTBigCodeModel] *)
(* ================================================================== *)

Section Model.

(** Scalars of the floating tensors, with their sum and zero. *)
Variable F : Type.
Variable fadd : F -> F -> F.
Variable fzero : F.

(** A batch of images [[batch, channels, height, width]]. *)
Variable Img : Type.

(** By-products of a decoder block: a cache entry or attention weights;
    [kv_len] is [.size(-2)], the cached sequence length. *)
Variable Aux : Type.
Variable kv_len : Aux -> nat.

(** Head masks, and the cross-attention mask with [.dim()] and
    [.bool().unsqueeze(k)]. *)
Variable HM : Type.
Variable EM : Type.
Variable em_dim : EM -> nat.
Variable em_bool_unsqueeze : nat -> EM -> EM.

(** The value of a loss. *)
Variable L : Type.

(** [pixel_values]: rank 4 [[batch, channels, height, width]], rank 5
    [[batch, frames, channels, height, width]] given frame by frame
    ([pixel_values[:, f, :, :]]), or any other rank. *)
Inductive pixel_tensor : Type :=
  | Rank4 (image : Img)
  | Rank5 (frames : list Img)
  | OtherRank (ndim : nat).

(** The fields of the configuration the forward passes read. *)
Record config_fields : Type := {
  config_output_attentions : bool;
  config_output_hidden_states : bool;
  config_use_cache : bool;
  config_use_return_dict : bool;
  config_add_cross_attention : bool;
  config_n_layer : nat;
  config_vocab_size : nat
}.

(** The tuple a decoder block returns: hidden states first, then the
    by-products it was asked for. *)
Definition block_outputs : Type := (T3 F * list Aux)%type.

(** [block(hidden_states, layer_past, attention_mask, head_mask,
           encoder_hidden_states, encoder_attention_mask, use_cache,
           output_attentions)] *)
Definition Block : Type :=
  T3 F -> option Aux -> T4 bool -> option HM -> option (T3 F) -> option EM ->
  bool -> bool -> block_outputs.

Record GitGPTBigCodeModel : Type := {
  config : config_fields;
  image_encoder : Img -> T3 F;              (* (...).last_hidden_state *)
  visual_projection : T3 F -> T3 F;
  img_temporal_embedding : option (list (T3 F)); (* absent unless configured *)
  image_patch_tokens : nat;
  wte : T2 Z -> T3 F;
  wpe : T2 Z -> T3 F;
  drop : T3 F -> T3 F;
  h : list Block;
  ln_f : T3 F -> T3 F;
  multi_query : bool;
  gradient_checkpointing : bool;
  training : bool;
  get_head_mask : option HM -> nat -> list (option HM)
}.

(** Keyword arguments of [GitGPTBigCodeModel.forward]; all default to
    [None]. *)
Record model_inputs : Type := {
  input_ids : option (T2 Z);
  past_key_values : option (list Aux);
  attention_mask : option (T2 bool);
  token_type_ids : option (T2 Z);
  position_ids : option (T2 Z);
  pixel_values : option pixel_tensor;
  head_mask : option HM;
  inputs_embeds : option (T3 F);
  encoder_hidden_states : option (T3 F);
  encoder_attention_mask : option EM;
  use_cache : option bool;
  output_attentions : option bool;
  output_hidden_states : option bool;
  return_dict : option bool
}.

(** Entries of the tuples the forward passes return. *)
Inductive item : Type :=
  | ILoss (l : L)
  | ITensor (t : T3 F)
  | IPresents (p : list Aux)
  | IHiddenStates (hs : list (T3 F))
  | IAttentions (a : list Aux)
  | ICrossAttentions (a : list Aux).

Record BaseModelOutputWithPastAndCrossAttentions : Type := {
  last_hidden_state : T3 F;
  out_past_key_values : option (list Aux);
  out_hidden_states : option (list (T3 F));
  out_attentions : option (list Aux);
  out_cross_attentions : option (list Aux)
}.

Inductive model_output : Type :=
  | ModelTuple (items : list item)
  | ModelDict (o : BaseModelOutputWithPastAndCrossAttentions).

(** [outputs[k]] on a block's tuple. *)
Definition block_get (outputs : block_outputs) (k : nat) : result Aux :=
  match k with
  | 0 => Err IndexError (* position 0 holds the hidden states *)
  | S k' => match nth_error (snd outputs) k' with
            | Some a => Ok a
            | None => Err IndexError
            end
  end.

Definition append {A} (acc : option (list A)) (a : A) : option (list A) :=
  option_map (fun l => l ++ [a]) acc.

(** Lines 270-279: the loop over the frames of a rank-5 input, from
    [frame_idx] on.  Each frame is encoded, its temporal embedding is added
    in place, and the result is appended to the list. *)
Fixpoint encode_frames (self : GitGPTBigCodeModel) (frames : list Img)
    (frame_idx : nat) : Eff (list (T3 F)) :=
  match frames with
  | [] => ret []
  | frame :: rest =>
      (let* visual_features_frame :=
         call (EvImageEncoder (Some frame_idx)) (image_encoder self frame) in
       let* embeddings :=
         match img_temporal_embedding self with
         | Some l => ret l
         | None => raise AttributeError
         end in
       let* offset :=
         match nth_error embeddings frame_idx with
         | Some o => ret o
         | None => raise IndexError
         end in
       let* summed := lift (iadd3 fadd visual_features_frame offset) in
       let* visual_features_frame :=
         call (EvTemporalEmbedding frame_idx) summed in
       let* others := encode_frames self rest (S frame_idx) in
       ret (visual_features_frame :: others))%eff
  end.

(** Lines 268-279: a rank-5 input; the frames' features are concatenated
    along the sequence dimension. *)
Definition encode_video (self : GitGPTBigCodeModel) (frames : list Img)
    : Eff (T3 F) :=
  (let* visual_features := encode_frames self frames 0 in
   (* finally, concatenate all features along sequence dimension *)
   lift (cat_seq_list visual_features))%eff.

(** Lines 261-283: the GIT vision encoder part. *)
Definition encode_visual (self : GitGPTBigCodeModel)
    (pixel_values : option pixel_tensor) (past_key_values : option (list Aux))
    : Eff (option (T3 F)) :=
  match pixel_values, past_key_values with
  | Some pv, None =>
      (let* visual_features :=
         match pv with
         | Rank4 image => call (EvImageEncoder None) (image_encoder self image)
         | Rank5 frames => encode_video self frames
         | OtherRank _ => raise (ValueError "pixel_values must be of rank 4 or 5")
         end in
       let* projected :=
         call EvVisualProjection (visual_projection self visual_features) in
       ret (Some projected))%eff
  | _, _ => ret None
  end.

(** Lines 329-341: the visual block the text embeddings are fused with. *)
Definition visual_block (inputs_embeds : T3 F)
    (projected_visual_features : option (T3 F)) : Eff (T3 F) :=
  let projected_visual_features :=
    match projected_visual_features with
    | Some p => p
    | None => zeros3 fzero (dtype3 inputs_embeds) (bsz3 inputs_embeds) 0
                (hid3 inputs_embeds)
    end in
  (* Repeat visual features to match embedding batch size. *)
  if bsz3 projected_visual_features =? 0
  then raise ZeroDivisionError
  else ret (repeat3 projected_visual_features
              (bsz3 inputs_embeds / bsz3 projected_visual_features)).

Record loop_state : Type := {
  ls_hidden_states : T3 F;
  ls_presents : option (list Aux);
  ls_all_self_attentions : option (list Aux);
  ls_all_cross_attentions : option (list Aux);
  ls_all_hidden_states : option (list (T3 F))
}.

(** Lines 419-460: the loop over [zip(self.h, past_key_values)], from layer
    [i] on. *)
Fixpoint run_blocks (self : GitGPTBigCodeModel)
    (layers : list (Block * option Aux)) (i : nat)
    (combined_attention_mask : T4 bool) (head_mask : list (option HM))
    (encoder_hidden_states : option (T3 F))
    (encoder_attention_mask : option EM)
    (use_cache output_attentions output_hidden_states : bool)
    (st : loop_state) : Eff loop_state :=
  match layers with
  | [] => ret st
  | (block, layer_past) :: rest =>
      let hidden_states := ls_hidden_states st in
      let all_hidden_states :=
        if output_hidden_states
        then append (ls_all_hidden_states st) hidden_states
        else ls_all_hidden_states st in
      (let* head_mask_i :=
         match nth_error head_mask i with
         | Some m => ret m
         | None => raise IndexError
         end in
       let layer_past :=
         (* under checkpointing the block is called with None for the past *)
         if gradient_checkpointing self && training self then None
         else layer_past in
       let* outputs :=
         call (EvBlock i)
           (block hidden_states layer_past combined_attention_mask head_mask_i
              encoder_hidden_states encoder_attention_mask use_cache
              output_attentions) in
       let hidden_states := fst outputs in
       let* presents :=
         if use_cache
         then (let* p := lift (block_get outputs 1) in
               ret (append (ls_presents st) p))
         else ret (ls_presents st) in
       let* attns :=
         if output_attentions
         then (let* a := lift (block_get outputs (if use_cache then 2 else 1)) in
               let all_self_attentions := append (ls_all_self_attentions st) a in
               if config_add_cross_attention (config self)
               then (let* c :=
                       lift (block_get outputs (if use_cache then 3 else 2)) in
                     ret (all_self_attentions,
                          append (ls_all_cross_attentions st) c))
               else ret (all_self_attentions, ls_all_cross_attentions st))
         else ret (ls_all_self_attentions st, ls_all_cross_attentions st) in
       run_blocks self rest (S i) combined_attention_mask head_mask
         encoder_hidden_states encoder_attention_mask use_cache
         output_attentions output_hidden_states
         {| ls_hidden_states := hidden_states;
            ls_presents := presents;
            ls_all_self_attentions := fst attns;
            ls_all_cross_attentions := snd attns;
            ls_all_hidden_states := all_hidden_states |})%eff
  end.

(** The cache entries found in a returned tuple, if any. *)
Definition items_cache (items : list item) : option (list Aux) :=
  fold_right (fun it acc => match it with IPresents p => Some p | _ => acc end)
    None items.

(** The loss found in a returned tuple, if any. *)
Definition items_loss (items : list item) : option L :=
  fold_right (fun it acc => match it with ILoss l => Some l | _ => acc end)
    None items.

(** The cache entries a result of [forward] carries, if any. *)
Definition model_cache (out : model_output) : option (list Aux) :=
  match out with
  | ModelTuple items => items_cache items
  | ModelDict o => out_past_key_values o
  end.

(** Collects what the layers produced, as [return_dict] asks. *)
Definition model_result (return_dict : bool) (hidden_states : T3 F)
    (st : loop_state) (all_hidden_states : option (list (T3 F)))
    : model_output :=
  if negb return_dict
  then
    (* tuple(v for v in [...] if v is not None) *)
    ModelTuple
      ([ITensor hidden_states]
       ++ match ls_presents st with Some p => [IPresents p] | None => [] end
       ++ match all_hidden_states with
          | Some hs => [IHiddenStates hs] | None => [] end
       ++ match ls_all_self_attentions st with
          | Some a => [IAttentions a] | None => [] end
       ++ match ls_all_cross_attentions st with
          | Some a => [ICrossAttentions a] | None => [] end)
  else
    ModelDict
      {| last_hidden_state := hidden_states;
         out_past_key_values := ls_presents st;
         out_hidden_states := all_hidden_states;
         out_attentions := ls_all_self_attentions st;
         out_cross_attentions := ls_all_cross_attentions st |}.

(** Calls that give both token ids and embeddings, or neither. *)
Definition ill_specified (args : model_inputs) : Prop :=
  (input_ids args <> None /\ inputs_embeds args <> None)
  \/ (input_ids args = None /\ inputs_embeds args = None).

(** [torch.arange(lo, hi).unsqueeze(0)] *)
Definition arange_row (lo hi : nat) : T2 Z :=
  mkT2 1 (hi - lo) (fun _ j => Z.of_nat (lo + j)).

Definition view2_opt (t : option (T2 Z)) (n : nat) : Eff (option (T2 Z)) :=
  match t with
  | Some t => (let* v := lift (view2 t n) in ret (Some v))%eff
  | None => ret None
  end.

(** [GitGPTBigCodeModel.forward], for [input_ids] of shape [[batch, seq]]
    and [inputs_embeds] of shape [[batch, seq, hidden]]. *)
Definition forward (self : GitGPTBigCodeModel) (args : model_inputs)
    : Eff model_output :=
  let output_attentions :=
    or_default (output_attentions args) (config_output_attentions (config self)) in
  let output_hidden_states :=
    or_default (output_hidden_states args)
      (config_output_hidden_states (config self)) in
  let use_cache := or_default (use_cache args) (config_use_cache (config self)) in
  let return_dict :=
    or_default (return_dict args) (config_use_return_dict (config self)) in
  (let* checked :=
     match input_ids args, inputs_embeds args with
     | Some _, Some _ =>
         raise (ValueError
           "You cannot specify both input_ids and inputs_embeds at the same time")
     | Some ids, None =>
         let* _w := call EvWarnPadding tt in
         let input_shape := (rows ids, cols ids) in
         let* ids := lift (view2 ids (snd input_shape)) in
         ret (Some ids, input_shape, rows ids)
     | None, Some embeds =>
         ret (None, (bsz3 embeds, len3 embeds), bsz3 embeds)
     | None, None =>
         raise (ValueError "You have to specify either input_ids or inputs_embeds")
     end in
   let '(input_ids, input_shape, batch_size) := checked in
   let* _b :=
     if batch_size <=? 0
     then raise (ValueError "batch_size has to be defined and > 0")
     else ret tt in
   let* token_type_ids := view2_opt (token_type_ids args) (snd input_shape) in
   let* position_ids := view2_opt (position_ids args) (snd input_shape) in
   let* past_length :=
     match past_key_values args with
     | None => ret 0
     | Some [] => raise IndexError
     | Some (layer0 :: _) => ret (kv_len layer0)
     end in
   (* GIT Vision Encoder part *)
   let* projected_visual_features :=
     encode_visual self (pixel_values args) (past_key_values args) in
   let* inputs_embeds :=
     match inputs_embeds args, input_ids with
     | Some e, _ => ret e
     | None, Some ids => call EvTokenEmbedding (wte self ids)
     | None, None => raise AttributeError (* excluded by the check above *)
     end in
   (* Self-attention mask. *)
   let query_length := snd input_shape in
   let* encoder_attention_mask :=
     match encoder_hidden_states args, encoder_attention_mask args with
     | Some _, Some em =>
         if config_add_cross_attention (config self)
         then if em_dim em =? 3
              then ret (Some (em_bool_unsqueeze
                                (if multi_query self then 2 else 1) em))
              else raise AssertionError
         else ret None
     | _, _ => ret None
     end in
   let* projected_visual_features :=
     visual_block inputs_embeds projected_visual_features in
   let* fused := lift (cat_seq projected_visual_features inputs_embeds) in
   let* hidden_states := call EvFuse fused in
   let* position_ids :=
     lift (view2
             (match position_ids with
              | None => arange_row past_length
                          (query_length + len3 projected_visual_features
                           + past_length)
              | Some p => p
              end)
             (query_length + len3 projected_visual_features)) in
   (* Prepare head mask if needed *)
   let head_mask := get_head_mask self (head_mask args)
                      (config_n_layer (config self)) in
   let* position_embeds := call EvPositionEmbedding (wpe self position_ids) in
   let* hidden_states := lift (add3 fadd hidden_states position_embeds) in
   let* hidden_states :=
     match token_type_ids with
     | Some tt_ids =>
         let* token_type_embeds := call EvTokenTypeEmbedding (wte self tt_ids) in
         lift (add3 fadd hidden_states token_type_embeds)
     | None => ret hidden_states
     end in
   let* hidden_states := call EvDropout (drop self hidden_states) in
   (* By default, an additive causal mask is created
      for masking the future (one direction). *)
   let* _m := call EvAttentionMask tt in
   let* combined_attention_mask :=
     lift (combined_attention_mask (multi_query self) inputs_embeds
             projected_visual_features query_length past_length
             (attention_mask args)) in
   let past_key_values :=
     match past_key_values args with
     | None => repeat None (length (h self))
     | Some pkv => map Some pkv
     end in
   let output_shape :=
     (bsz3 hidden_states, len3 hidden_states, hid3 hidden_states) in
   let* st :=
     run_blocks self (combine (h self) past_key_values) 0
       combined_attention_mask head_mask (encoder_hidden_states args)
       encoder_attention_mask use_cache output_attentions output_hidden_states
       {| ls_hidden_states := hidden_states;
          ls_presents := if use_cache then Some [] else None;
          ls_all_self_attentions := if output_attentions then Some [] else None;
          ls_all_cross_attentions :=
            if output_attentions && config_add_cross_attention (config self)
            then Some [] else None;
          ls_all_hidden_states :=
            if output_hidden_states then Some [] else None |} in
   let* hidden_states := call EvLayerNorm (ln_f self (ls_hidden_states st)) in
   let* hidden_states := lift (view3 hidden_states output_shape) in
   (* Add last hidden state *)
   let all_hidden_states :=
     if output_hidden_states
     then append (ls_all_hidden_states st) hidden_states
     else ls_all_hidden_states st in
   ret (model_result return_dict hidden_states st all_hidden_states))%eff.

(* ================================================================== *)
(** ** [GitGPTBigCodeForCausalLM] *)
(* ================================================================== *)

Record GitGPTBigCodeForCausalLM : Type := {
  model : GitGPTBigCodeModel;
  lm_head : T3 F -> T3 F;
  (** [CrossEntropyLoss()(input, target)] on the rows of [input] and the
      entries of [target] *)
  loss_fct : list (list F) -> list Z -> result L
}.

(** Keyword arguments of [GitGPTBigCodeForCausalLM.forward]. *)
Record lm_inputs : Type := {
  lm_input_ids : option (T2 Z);
  lm_attention_mask : option (T2 bool);
  lm_position_ids : option (T2 Z);
  lm_pixel_values : option pixel_tensor;
  lm_inputs_embeds : option (T3 F);
  lm_labels : option (T2 Z);
  lm_past_key_values : option (list Aux);
  lm_use_cache : option bool;
  lm_output_attentions : option bool;
  lm_output_hidden_states : option bool;
  lm_return_dict : option bool
}.

Record CausalLMOutputWithPast : Type := {
  lm_loss : option L;
  lm_logits : T3 F;
  lm_out_past_key_values : option (list Aux);
  lm_out_hidden_states : option (list (T3 F));
  lm_out_attentions : option (list Aux)
}.

Inductive lm_output : Type :=
  | LMTuple (items : list item)
  | LMDict (o : CausalLMOutputWithPast).

(** [logits[:, num_image_tokens:-1, :]] *)
Definition shift_logits (logits : T3 F) (num_image_tokens : nat) : T3 F :=
  let start := Nat.min num_image_tokens (len3 logits) in
  let stop := len3 logits - 1 in
  mkT3 (dtype3 logits) (bsz3 logits) (stop - start) (hid3 logits)
    (fun b i v => at3 logits b (start + i) v).

(** [labels[:, 1:]] *)
Definition shift_labels (labels : T2 Z) : T2 Z :=
  mkT2 (rows labels) (cols labels - 1) (fun b j => at2 labels b (1 + j)).

(** Lines 555-562: the next-token loss. *)
Definition compute_loss (self : GitGPTBigCodeForCausalLM) (logits : T3 F)
    (labels : option (T2 Z)) : Eff (option L) :=
  match labels with
  | None => ret None
  | Some labels =>
      (* we are doing next-token prediction; shift prediction scores and
         input ids by one *)
      let num_image_tokens := image_patch_tokens (model self) in
      let shifted_logits := shift_logits logits num_image_tokens in
      let labels := shift_labels labels in
      (let* input :=
         lift (view_rows3 shifted_logits
                 (config_vocab_size (config (model self)))) in
       let* loss := lift (loss_fct self (list2 input) (flatten2 labels)) in
       let* loss := call EvLoss loss in
       ret (Some loss))%eff
  end.

(** [ModelOutput.to_tuple()]: the fields that are not [None], in order. *)
Definition to_tuple (o : BaseModelOutputWithPastAndCrossAttentions)
    : list item :=
  [ITensor (last_hidden_state o)]
  ++ match out_past_key_values o with Some p => [IPresents p] | None => [] end
  ++ match out_hidden_states o with Some hs => [IHiddenStates hs] | None => [] end
  ++ match out_attentions o with Some a => [IAttentions a] | None => [] end
  ++ match out_cross_attentions o with
     | Some a => [ICrossAttentions a] | None => [] end.

Definition output_items (outputs : model_output) : list item :=
  match outputs with
  | ModelTuple items => items
  | ModelDict o => to_tuple o
  end.

(** [outputs[0]], the hidden states. *)
Definition output_first (outputs : model_output) : result (T3 F) :=
  match output_items outputs with
  | ITensor t :: _ => Ok t
  | _ => Err IndexError
  end.

(** [outputs.past_key_values], [outputs.hidden_states],
    [outputs.attentions]: attributes of the dictionary form only. *)
Definition output_fields (outputs : model_output)
    : result BaseModelOutputWithPastAndCrossAttentions :=
  match outputs with
  | ModelDict o => Ok o
  | ModelTuple _ => Err AttributeError
  end.

(** [GitGPTBigCodeForCausalLM.forward] *)
Definition lm_forward (self : GitGPTBigCodeForCausalLM) (args : lm_inputs)
    : Eff lm_output :=
  let return_dict :=
    or_default (lm_return_dict args)
      (config_use_return_dict (config (model self))) in
  let use_cache :=
    match lm_labels args with
    | Some _ => Some false
    | None => lm_use_cache args
    end in
  (let* outputs :=
     forward (model self)
       {| input_ids := lm_input_ids args;
          past_key_values := lm_past_key_values args;
          attention_mask := lm_attention_mask args;
          token_type_ids := None;
          position_ids := lm_position_ids args;
          pixel_values := lm_pixel_values args;
          head_mask := None;
          inputs_embeds := lm_inputs_embeds args;
          encoder_hidden_states := None;
          encoder_attention_mask := None;
          use_cache := use_cache;
          output_attentions := lm_output_attentions args;
          output_hidden_states := lm_output_hidden_states args;
          return_dict := Some return_dict |} in
   let* sequence_output := lift (output_first outputs) in
   let* logits := call EvLMHead (lm_head self sequence_output) in
   let* loss := compute_loss self logits (lm_labels args) in
   if negb return_dict
   then
     let output := ITensor logits :: tl (output_items outputs) in
     ret (LMTuple (match loss with
                   | Some l => ILoss l :: output
                   | None => output
                   end))
   else
     let* o := lift (output_fields outputs) in
     ret (LMDict {| lm_loss := loss;
                    lm_logits := logits;
                    lm_out_past_key_values := out_past_key_values o;
                    lm_out_hidden_states := out_hidden_states o;
                    lm_out_attentions := out_attentions o |}))%eff.

(** The same call with another [pixel_values] argument. *)
Definition with_pixel_values (args : lm_inputs)
    (pixel_values : option pixel_tensor) : lm_inputs :=
  {| lm_input_ids := lm_input_ids args;
     lm_attention_mask := lm_attention_mask args;
     lm_position_ids := lm_position_ids args;
     lm_pixel_values := pixel_values;
     lm_inputs_embeds := lm_inputs_embeds args;
     lm_labels := lm_labels args;
     lm_past_key_values := lm_past_key_values args;
     lm_use_cache := lm_use_cache args;
     lm_output_attentions := lm_output_attentions args;
     lm_output_hidden_states := lm_output_hidden_states args;
     lm_return_dict := lm_return_dict args |}.

(** The cache entries a result of [lm_forward] carries, if any. *)
Definition returned_cache (out : lm_output) : option (list Aux) :=
  match out with
  | LMTuple items => items_cache items
  | LMDict o => lm_out_past_key_values o
  end.

(** The loss a result of [lm_forward] carries, if any. *)
Definition returned_loss (out : lm_output) : option L :=
  match out with
  | LMTuple items => items_loss items
  | LMDict o => lm_loss o
  end.

End Model.

(* ================================================================== *)
(** ** [GitGPTBigCodeConfig] *)
(* ================================================================== *)

Section Config.

Local Open Scope string_scope.

(** [CLIPVisionConfig] objects, with their own [to_dict]. *)
Variable VisionConfig : Type.

(** Values an attribute of a configuration can hold. *)
#[warnings="-register-all"] Inductive value : Type :=
  | VNone
  | VBool (b : bool)
  | VInt (z : Z)
  | VStr (s : string)
  | VList (l : list value)
  | VVisionConfig (c : VisionConfig)
  | VDict (d : gmap string value).

Variable vision_to_dict : VisionConfig -> gmap string value.

(** [CLIPVisionConfig()] and [CLIPVisionConfig.from_pretrained(name)]. *)
Variable default_vision_config : VisionConfig.
Variable from_pretrained : value -> result VisionConfig.

(** [GPTBigCodeConfig.__init__] on the keyword arguments: the attributes it
    leaves in [self.__dict__]. *)
Variable super_init : gmap string value -> gmap string value.

(** A configuration class, with its class attribute [model_type]. *)
Record config_class : Type := { model_type : string }.

Definition GitGPTBigCodeConfig : config_class := {| model_type := "git_llama" |}.

(** An instance: its class ([self.__class__]) and its [__dict__]. *)
Record config_instance : Type := {
  class_of : config_class;
  dict_of : gmap string value
}.

(** [x == 1] in Python, on the values modelled. *)
Definition equals_one (v : value) : bool :=
  match v with
  | VInt 1 => true
  | VBool true => true
  | _ => false
  end.

Definition set_vision_configs (self : config_instance)
    (num_image_with_embedding vision_model_name : value)
    : result config_instance :=
  let d := <["num_image_with_embedding" :=
               if equals_one num_image_with_embedding then VNone
               else num_image_with_embedding]> (dict_of self) in
  let d := <["vision_model_name" := vision_model_name]> d in
  (let! vc := from_pretrained vision_model_name in
   Ok {| class_of := class_of self;
         dict_of := <["vision_config" := VVisionConfig vc]> d |})%res.

(** [__init__] of the class, on the keyword arguments [kwargs]. *)
Definition config_init (cls : config_class) (kwargs : gmap string value)
    : result config_instance :=
  let self := {| class_of := cls; dict_of := super_init kwargs |} in
  match dict_of self !! "vision_model_name" with
  | Some vision_model_name =>
      match dict_of self !! "num_image_with_embedding" with
      | Some n => set_vision_configs self n vision_model_name
      | None => Err AttributeError
      end
  | None =>
      Ok {| class_of := cls;
            dict_of :=
              <["num_image_with_embedding" := VNone]>
                (<["vision_config" := VVisionConfig default_vision_config]>
                   (dict_of self)) |}
  end.

(** [copy.deepcopy] yields an equal value. *)
Definition deepcopy (d : gmap string value) : gmap string value := d.

(** Serializes this instance to a Python dictionary. *)
Definition to_dict (self : config_instance) : result (gmap string value) :=
  let output := deepcopy (dict_of self) in
  match dict_of self !! "vision_config" with
  | Some (VVisionConfig vision_config) =>
      let output := <["vision_config" := VDict (vision_to_dict vision_config)]> output in
      let output := <["model_type" := VStr (model_type (class_of self))]> output in
      Ok output
  | _ => Err AttributeError
  end.

End Config.

Arguments VNone {VisionConfig}.
Arguments VBool {VisionConfig} b.
Arguments VInt {VisionConfig} z.
Arguments VStr {VisionConfig} s.
Arguments VList {VisionConfig} l.
Arguments VVisionConfig {VisionConfig} c.
Arguments VDict {VisionConfig} d.

(* ================================================================== *)
(** ** A small concrete model, to run the definitions *)
(* ================================================================== *)

Module Toy.

(** An image is described by its number of patches and a base value; the
    encoder turns it into [[1, patches, 2]] features. *)
Definition image : Type := (nat * Z)%type.

Definition encoder (img : image) : T3 Z :=
  mkT3 float32 1 (fst img) 2
    (fun _ p h => (snd img + 10 * Z.of_nat p + Z.of_nat h)%Z).

Definition embed (ids : T2 Z) : T3 Z :=
  mkT3 float32 (rows ids) (cols ids) 2
    (fun b i h => (at2 ids b i + Z.of_nat h)%Z).

(** A block that passes the hidden states on and reports, when asked, a
    cache entry (the sequence length it saw) and an attention entry. *)
Definition block : Block Z nat unit unit :=
  fun hidden_states layer_past _ _ _ _ use_cache output_attentions =>
    (hidden_states,
     (if use_cache
      then [len3 hidden_states + or_default layer_past 0] else [])
     ++ (if output_attentions then [0] else [])).

Definition cfg : config_fields :=
  {| config_output_attentions := false;
     config_output_hidden_states := false;
     config_use_cache := true;
     config_use_return_dict := true;
     config_add_cross_attention := false;
     config_n_layer := 2;
     config_vocab_size := 2 |}.

Definition offsets : list (T3 Z) :=
  [ mkT3 float32 1 1 2 (fun _ _ h => (100 + Z.of_nat h)%Z);
    mkT3 float32 1 1 2 (fun _ _ h => (200 + 2 * Z.of_nat h)%Z) ].

Definition git_model (temporal : option (list (T3 Z))) (patch_tokens : nat)
    : GitGPTBigCodeModel Z image nat unit unit :=
  {| config := cfg;
     image_encoder := encoder;
     visual_projection := fun t => t;
     img_temporal_embedding := temporal;
     image_patch_tokens := patch_tokens;
     wte := embed;
     wpe := embed;
     drop := fun t => t;
     h := [block; block];
     ln_f := fun t => t;
     multi_query := true;
     gradient_checkpointing := false;
     training := false;
     get_head_mask := fun _ n => repeat None n |}.

Definition causal_lm (temporal : option (list (T3 Z))) (patch_tokens : nat)
    : GitGPTBigCodeForCausalLM Z image nat unit unit Z :=
  {| model := git_model temporal patch_tokens;
     lm_head := fun t => t;
     loss_fct := fun input target =>
       if length input =? length target
       then Ok (fold_right Z.add 0%Z target)
       else Err (ValueError "Expected input batch_size to match target batch_size") |}.

Definition run_model (self : GitGPTBigCodeModel Z image nat unit unit)
    (args : model_inputs Z image nat unit unit) : Eff (model_output Z nat Z) :=
  forward Z.add 0%Z (fun n : nat => n) (fun _ : unit => 3)
    (fun _ (m : unit) => m) Z self args.

Definition run_causal_lm
    (self : GitGPTBigCodeForCausalLM Z image nat unit unit Z)
    (args : lm_inputs Z image nat) : Eff (lm_output Z nat Z) :=
  lm_forward Z.add 0%Z (fun n : nat => n) (fun _ : unit => 3)
    (fun _ (m : unit) => m) self args.

(** Token ids [[[1, 2, ..., n]]]. *)
Definition tokens (n : nat) : T2 Z := mkT2 1 n (fun _ j => Z.of_nat (1 + j)).

Definition no_model_inputs : model_inputs Z image nat unit unit :=
  {| input_ids := None; past_key_values := None; attention_mask := None;
     token_type_ids := None; position_ids := None; pixel_values := None;
     head_mask := None; inputs_embeds := None; encoder_hidden_states := None;
     encoder_attention_mask := None; use_cache := None;
     output_attentions := None; output_hidden_states := None;
     return_dict := None |}.

Definition lm_call (input_ids : option (T2 Z))
    (pixel_values : option (pixel_tensor image)) (labels : option (T2 Z))
    (past_key_values : option (list nat)) (use_cache return_dict : option bool)
    : lm_inputs Z image nat :=
  {| lm_input_ids := input_ids; lm_attention_mask := None;
     lm_position_ids := None; lm_pixel_values := pixel_values;
     lm_inputs_embeds := None; lm_labels := labels;
     lm_past_key_values := past_key_values; lm_use_cache := use_cache;
     lm_output_attentions := None; lm_output_hidden_states := None;
     lm_return_dict := return_dict |}.

(** Logits [[1, n, 2]] whose entry tells its position. *)
Definition logits_of (n : nat) : T3 Z :=
  mkT3 float32 1 n 2 (fun _ i v => (10 * Z.of_nat i + Z.of_nat v)%Z).

(** A vision configuration is described by its hidden size. *)
Definition vision_dict (hidden_size : Z) : gmap string (value Z) :=
  {[ "hidden_size"%string := VInt hidden_size ]}.

Definition config_object : config_instance Z :=
  {| class_of := GitGPTBigCodeConfig;
     dict_of := {[ "vision_config"%string := VVisionConfig 768%Z;
                   "model_type"%string := VStr "gpt_bigcode";
                   "n_layer"%string := VInt 2 ]} |}.

End Toy.

(* ================================================================== *)
(** ** Vocabulary for statements about effectful calls *)
(* ================================================================== *)

(** The call raises. *)
Definition fails {A} (m : Eff A) : Prop := exists e, outcome m = Err e.

(** Every logged event satisfies [P]. *)
Definition logs_only {A} (P : event -> bool) (m : Eff A) : Prop :=
  Forall (fun ev => P ev = true) (trace m).

(** Events of the vision encoder part. *)
Definition vision_event (ev : event) : bool :=
  match ev with
  | EvImageEncoder _ | EvTemporalEmbedding _ | EvVisualProjection => true
  | _ => false
  end.

Definition block_event (ev : event) : bool :=
  match ev with
  | EvBlock _ => true
  | _ => false
  end.

(* ================================================================== *)
(** ** [GitGPTBigCodeForCausalLM.prepare_inputs_for_generation] *)
(* ================================================================== *)

(** [t[:, -1:]] *)
Definition last_column {A} (t : T2 A) : T2 A :=
  let start := neg_slice_start 1 (cols t) in
  mkT2 (rows t) (cols t - start) (fun b j => at2 t b (start + j)).

(** [input_ids.new_ones(shape)]: a mask that marks every position valid. *)
Definition new_ones (shape : nat * nat) : T2 bool :=
  mkT2 (fst shape) (snd shape) (fun _ _ => true).

Section Generation.

Variable Img : Type.
Variable Aux : Type.

(** The dictionary the function returns. *)
Record generation_inputs : Type := {
  gen_input_ids : T2 Z;
  gen_attention_mask : T2 bool;
  gen_pixel_values : option (pixel_tensor Img);
  gen_past_key_values : option (list Aux);
  gen_use_cache : option bool
}.

(** [kwargs] holds, under each keyword, a pixel tensor or [None]; only the
    keyword [pixel_values] is read. *)
Definition prepare_inputs_for_generation (input_ids : T2 Z)
    (past_key_values : option (list Aux)) (attention_mask : option (T2 bool))
    (use_cache : option bool)
    (kwargs : gmap string (option (pixel_tensor Img))) : generation_inputs :=
  (* cut decoder_input_ids if past_key_values is used *)
  let input_ids :=
    match past_key_values with
    | Some _ => last_column input_ids
    | None => input_ids
    end in
  let input_shape := (rows input_ids, cols input_ids) in
  let attention_mask :=
    match attention_mask with
    | Some m => m
    | None => new_ones input_shape
    end in
  {| gen_input_ids := input_ids;
     gen_attention_mask := attention_mask;
     gen_pixel_values :=
       match kwargs !! "pixel_values"%string with
       | Some v => v
       | None => None
       end;
     gen_past_key_values := past_key_values;
     gen_use_cache := use_cache |}.

End Generation.

(* ================================================================== *)
(** ** [GitGPTBigCodeForCausalLM._reorder_cache] *)
(* ================================================================== *)

Section ReorderCache.

(** What a cached tensor holds at one index of its first dimension. *)
Variable Row : Type.

(** A cached tensor, as the list of its entries along dimension 0. *)
Definition past_state : Type := list Row.

(** [t.index_select(0, index)]: every index must lie in [0, len(t)). *)
Fixpoint index_select (t : past_state) (index : list Z) : result past_state :=
  match index with
  | [] => Ok []
  | i :: rest =>
      if (i <? 0)%Z then Err IndexError
      else match nth_error t (Z.to_nat i) with
           | None => Err IndexError
           | Some r =>
               (let! others := index_select t rest in Ok (r :: others))%res
           end
  end.

(** [tuple(past_state.index_select(0, beam_idx) for past_state in layer_past)] *)
Fixpoint reorder_layer (layer_past : list past_state) (beam_idx : list Z)
    : result (list past_state) :=
  match layer_past with
  | [] => Ok []
  | state :: rest =>
      (let! s := index_select state beam_idx in
       let! others := reorder_layer rest beam_idx in
       Ok (s :: others))%res
  end.

Fixpoint _reorder_cache (past_key_values : list (list past_state))
    (beam_idx : list Z) : result (list (list past_state)) :=
  match past_key_values with
  | [] => Ok []
  | layer_past :: rest =>
      (let! l := reorder_layer layer_past beam_idx in
       let! others := _reorder_cache rest beam_idx in
       Ok (l :: others))%res
  end.

(** Every index of [beam_idx] addresses an entry of a tensor of length [n]. *)
Definition in_range (n : nat) (beam_idx : list Z) : Prop :=
  Forall (fun i => (0 <= i < Z.of_nat n)%Z) beam_idx.

End ReorderCache.

Section ReorderVocabulary.

Variable Row : Type.

(** [s'] holds, at each position [k], the entry of [s] that [index[k]]
    names. *)
Definition selects (index : list Z) (s s' : past_state Row) : Prop :=
  length s' = length index
  /\ forall k i, nth_error index k = Some i ->
       nth_error s' k = nth_error s (Z.to_nat i).

(** The index [0, 1, ..., n-1]. *)
Definition arange (n : nat) : list Z := map Z.of_nat (seq 0 n).

End ReorderVocabulary.

(** Events logged by the wrapper after the model has returned. *)
Definition wrapper_event (ev : event) : bool :=
  match ev with
  | EvLMHead | EvLoss => true
  | _ => false
  end.

Definition loss_event (ev : event) : bool :=
  match ev with
  | EvLoss => true
  | _ => false
  end.

(** The number of decoder layers a call runs: [zip(self.h, past_key_values)]
    stops at the shorter of the two. *)
Definition layers_run {Blk Aux} (h : list Blk) (past_key_values : option (list Aux))
    : nat :=
  match past_key_values with
  | None => length h
  | Some pkv => Nat.min (length h) (length pkv)
  end.

Section OutputVocabulary.

Variable F : Type.
Variable Aux : Type.
Variable L : Type.

(** The per-layer hidden states found in a returned tuple, if any. *)
Definition items_hidden_states (items : list (item F Aux L))
    : option (list (T3 F)) :=
  fold_right
    (fun it acc => match it with IHiddenStates _ _ hs => Some hs | _ => acc end)
    None items.

(** The per-layer hidden states a result of [forward] carries, if any. *)
Definition model_hidden_states (out : model_output F Aux L)
    : option (list (T3 F)) :=
  match out with
  | ModelTuple items => items_hidden_states items
  | ModelDict _ o => out_hidden_states o
  end.

End OutputVocabulary.

Module ToyCalls.

Definition model_call (input_ids : option (T2 Z))
    (pixel_values : option (pixel_tensor Toy.image))
    (past_key_values : option (list nat))
    (use_cache output_hidden_states return_dict : option bool)
    : model_inputs Z Toy.image nat unit unit :=
  {| input_ids := input_ids; past_key_values := past_key_values;
     attention_mask := None; token_type_ids := None; position_ids := None;
     pixel_values := pixel_values; head_mask := None; inputs_embeds := None;
     encoder_hidden_states := None; encoder_attention_mask := None;
     use_cache := use_cache; output_attentions := None;
     output_hidden_states := output_hidden_states;
     return_dict := return_dict |}.

(** A call that passes embeddings instead of token ids. *)
Definition embeds_call (inputs_embeds : T3 Z)
    (pixel_values : option (pixel_tensor Toy.image))
    (past_key_values : option (list nat))
    : model_inputs Z Toy.image nat unit unit :=
  {| input_ids := None; past_key_values := past_key_values;
     attention_mask := None; token_type_ids := None; position_ids := None;
     pixel_values := pixel_values; head_mask := None;
     inputs_embeds := Some inputs_embeds;
     encoder_hidden_states := None; encoder_attention_mask := None;
     use_cache := None; output_attentions := None;
     output_hidden_states := None; return_dict := None |}.

(** A call with encoder states and an encoder attention mask. *)
Definition cross_call (inputs_embeds encoder_hidden_states : T3 Z)
    : model_inputs Z Toy.image nat unit unit :=
  {| input_ids := None; past_key_values := None;
     attention_mask := None; token_type_ids := None; position_ids := None;
     pixel_values := None; head_mask := None;
     inputs_embeds := Some inputs_embeds;
     encoder_hidden_states := Some encoder_hidden_states;
     encoder_attention_mask := Some tt;
     use_cache := None; output_attentions := None;
     output_hidden_states := None; return_dict := None |}.

(** The toy model with cross-attention configured. *)
Definition cross_model : GitGPTBigCodeModel Z Toy.image nat unit unit :=
  {| config :=
       {| config_output_attentions := false;
          config_output_hidden_states := false;
          config_use_cache := true;
          config_use_return_dict := true;
          config_add_cross_attention := true;
          config_n_layer := 2;
          config_vocab_size := 2 |};
     image_encoder := Toy.encoder;
     visual_projection := fun t => t;
     img_temporal_embedding := None;
     image_patch_tokens := 3;
     wte := Toy.embed;
     wpe := Toy.embed;
     drop := fun t => t;
     h := [Toy.block; Toy.block];
     ln_f := fun t => t;
     multi_query := true;
     gradient_checkpointing := false;
     training := false;
     get_head_mask := fun _ n => repeat None n |}.

(** A cache of two layers, each with a key and a value tensor over three
    beams. *)
Definition beam_cache : list (list (past_state nat)) :=
  [[[10; 11; 12]; [20; 21; 22]]; [[30; 31; 32]; [40; 41; 42]]].

(** Keyword arguments of a generation call with an image. *)
Definition generation_kwargs : gmap string (option (pixel_tensor Toy.image)) :=
  {[ "pixel_values"%string := Some (Rank4 (3, 0%Z)) ]}.

(** The attributes [GPTBigCodeConfig.__init__] leaves: the keyword
    arguments and the number of layers. *)
Definition toy_super_init (kwargs : gmap string (value Z))
    : gmap string (value Z) :=
  <[ "n_layer"%string := VInt 2 ]> kwargs.

(** Loading a vision configuration: known by the length of its name. *)
Definition toy_from_pretrained (name : value Z) : result Z :=
  match name with
  | VStr s => Ok (Z.of_nat (String.length s))
  | _ => Err (ValueError "not a model name")
  end.

End ToyCalls.

Section LossVocabulary.

Variable F : Type.

(** The vocabulary scores at position [i] of batch element [b]. *)
Definition logit_row (logits : T3 F) (b i : nat) : list F :=
  map (fun v => at3 logits b i v) (seq 0 (hid3 logits)).

(** For each batch element in turn, the score rows at positions
    [start, start + n). *)
Definition loss_rows (logits : T3 F) (start n : nat) : list (list F) :=
  flat_map (fun b => map (fun i => logit_row logits b (start + i)) (seq 0 n))
    (seq 0 (bsz3 logits)).

(** For each batch element in turn, its labels from the second one on. *)
Definition loss_targets (labels : T2 Z) : list Z :=
  flat_map (fun b => map (fun j => at2 labels b (1 + j)) (seq 0 (cols labels - 1)))
    (seq 0 (rows labels)).

(** For each batch element in turn, the score row at position [start + i]
    paired with label [i + 1], for [i] in [0, n). *)
Definition loss_pairs (logits : T3 F) (labels : T2 Z) (start n : nat)
    : list (list F * Z) :=
  flat_map (fun b => map (fun i => (logit_row logits b (start + i),
                                    at2 labels b (1 + i)))
                         (seq 0 n))
    (seq 0 (bsz3 logits)).

End LossVocabulary.

(* ================================================================== *)
(** ** The plain causal mask of a text-only decoder *)
(* ================================================================== *)

(** The mask the specification compares with: over [n] text positions, row
    [i] sees the columns [0..i] inclusive (1.0) and no later column (0.0).
    It is written from these words, not from [_generate_future_mask]. *)
Definition plain_causal_mask (n : nat) : list (list Z) :=
  map (fun i => map (fun j => if j <=? i then 1%Z else 0%Z) (seq 0 n)) (seq 0 n).

(* ================================================================== *)
(** ** The logits a result of the wrapper carries *)
(* ================================================================== *)

Section WrapperVocabulary.

Variable F : Type.
Variable Aux : Type.
Variable L : Type.

(** The tuple form is [(loss, logits, ...)] or [(logits, ...)]. *)
Definition items_logits (items : list (item F Aux L)) : option (T3 F) :=
  match items with
  | ILoss _ _ _ :: ITensor _ _ t :: _ => Some t
  | ITensor _ _ t :: _ => Some t
  | _ => None
  end.

Definition returned_logits (out : lm_output F Aux L) : option (T3 F) :=
  match out with
  | LMTuple items => items_logits items
  | LMDict o => Some (lm_logits o)
  end.

End WrapperVocabulary.

(* ================================================================== *)
(** ** Single-precision tensors *)
(* ================================================================== *)

(** [torch.float32] scalars with IEEE 754 binary32 addition and subtraction
    (24 bits of precision, round to nearest, ties to even), and a video model
    over them: every frame is encoded to the same features, 16777216.0
    everywhere, and the two learned temporal offsets are 0.0 and 1.0. *)
Module Float32.

Definition float : Type := SpecFloat.spec_float.

Definition prec : Z := 24.
Definition emax : Z := 128.

Definition add (x y : float) : float := SpecFloat.SFadd prec emax x y.
Definition sub (x y : float) : float := SpecFloat.SFsub prec emax x y.

(** 0.0, 1.0 = 2^23 * 2^-23 and 16777216.0 = 2^23 * 2^1. *)
Definition zero : float := SpecFloat.S754_zero false.
Definition one : float := SpecFloat.S754_finite false 8388608 (-23).
Definition two_pow_24 : float := SpecFloat.S754_finite false 8388608 1.

(** Features [[1, 4, 1]], the same for every frame. *)
Definition encoder (frame : nat) : T3 float :=
  mkT3 float32 1 4 1 (fun _ _ _ => two_pow_24).

Definition embed (ids : T2 Z) : T3 float :=
  mkT3 float32 (rows ids) (cols ids) 1 (fun _ _ _ => zero).

Definition offsets : list (T3 float) :=
  [ mkT3 float32 1 1 1 (fun _ _ _ => zero);
    mkT3 float32 1 1 1 (fun _ _ _ => one) ].

Definition block : Block float nat unit unit :=
  fun hidden_states _ _ _ _ _ _ _ => (hidden_states, []).

Definition video_model : GitGPTBigCodeModel float nat nat unit unit :=
  {| config := Toy.cfg;
     image_encoder := encoder;
     visual_projection := fun t => t;
     img_temporal_embedding := Some offsets;
     image_patch_tokens := 8;
     wte := embed;
     wpe := embed;
     drop := fun t => t;
     h := [block; block];
     ln_f := fun t => t;
     multi_query := true;
     gradient_checkpointing := false;
     training := false;
     get_head_mask := fun _ n => repeat None n |}.

End Float32.

(* ================================================================== *)
(** ** A small language model whose loss depends on the scores *)
(* ================================================================== *)

(** The toy decoder with a vocabulary of eight tokens: the LM head scores
    token [v] at a position by [100 * (first hidden entry) + v], and the loss
    adds up, over the rows it is given, the score of each row's target; it
    rejects rows and targets of different number and targets outside the
    vocabulary, as [CrossEntropyLoss] does. *)
Module ToyLM.

Definition vocab_size : nat := 8.

Definition cfg : config_fields :=
  {| config_output_attentions := false;
     config_output_hidden_states := false;
     config_use_cache := true;
     config_use_return_dict := true;
     config_add_cross_attention := false;
     config_n_layer := 2;
     config_vocab_size := vocab_size |}.

Definition git_model : GitGPTBigCodeModel Z Toy.image nat unit unit :=
  {| config := cfg;
     image_encoder := Toy.encoder;
     visual_projection := fun t => t;
     img_temporal_embedding := None;
     image_patch_tokens := 3;
     wte := Toy.embed;
     wpe := Toy.embed;
     drop := fun t => t;
     h := [Toy.block; Toy.block];
     ln_f := fun t => t;
     multi_query := true;
     gradient_checkpointing := false;
     training := false;
     get_head_mask := fun _ n => repeat None n |}.

Definition head (t : T3 Z) : T3 Z :=
  mkT3 (dtype3 t) (bsz3 t) (len3 t) vocab_size
    (fun b i v => (100 * at3 t b i 0 + Z.of_nat v)%Z).

Fixpoint target_scores (input : list (list Z)) (target : list Z) : Z :=
  match input, target with
  | row :: input, t :: target =>
      (nth (Z.to_nat t) row 0 + target_scores input target)%Z
  | _, _ => 0%Z
  end.

Definition loss (input : list (list Z)) (target : list Z) : result Z :=
  if negb (length input =? length target)
  then Err (ValueError "Expected input batch_size to match target batch_size")
  else if forallb (fun t => (0 <=? t)%Z && (t <? Z.of_nat vocab_size)%Z) target
  then Ok (target_scores input target)
  else Err IndexError.

Definition causal_lm : GitGPTBigCodeForCausalLM Z Toy.image nat unit unit Z :=
  {| model := git_model; lm_head := head; loss_fct := loss |}.

(** A training call: an image of three patches, the five tokens
    [1, 2, 3, 4, 5] and the same five as labels, tuple output. *)
Definition training_call : lm_inputs Z Toy.image nat :=
  Toy.lm_call (Some (Toy.tokens 5)) (Some (Rank4 (3, 0%Z)))
    (Some (Toy.tokens 5)) None (Some true) (Some false).

End ToyLM.
(* ================================================================== *)
(** * Properties *)
(* ================================================================== *)

Unset Implicit Arguments.

Lemma finfo_min_nonzero (dt : float_dtype) : nonzero (finfo_min dt) = true.
Proof. destruct dt; vm_compute; reflexivity. Qed.

Section MaskFacts.

Variable F : Type.

Lemma create_attention_mask_spec (tgt memory : T3 F) (tgt_mask : T2 Z)
    (past : nat) (pad : option pad_tensor) :
  rows tgt_mask = len3 tgt ->
  (past = 0 -> cols tgt_mask = len3 tgt) ->
  pad_well_shaped memory pad ->
  exists m,
    create_attention_mask tgt memory tgt_mask past pad = Ok m
    /\ d0 m = pad_batch memory pad
    /\ d1 m = 1
    /\ d2 m = len3 memory + len3 tgt
    /\ d3 m = len3 memory + past + len3 tgt
    /\ forall b h i j,
         at4 m b h i j
         = (base_entry (len3 memory) past tgt_mask i j
            + pad_entry (len3 memory) pad b j)%Z.
Proof.
  intros Hrows Hcols Hpad.
  unfold create_attention_mask, cat_dim0, cat_dim1, ones2, full2,
    bcast_ok, bidx.
  destruct (Nat.ltb_spec 0 past) as [Hp|Hp]; cbn [rows cols at2 rbind];
    repeat (rewrite (proj2 (Nat.eqb_eq _ _)) by lia; cbn [rows cols at2 rbind]);
    destruct pad as [[p|p]|]; cbn in Hpad; try contradiction;
    cbn [rows cols at2 rbind negb andb orb];
    repeat (rewrite (proj2 (Nat.eqb_eq _ _)) by lia;
            cbn [rows cols at2 rbind negb andb orb]);
    rewrite Nat.min_l by lia;
    repeat (rewrite (proj2 (Nat.eqb_eq _ _)) by lia;
            cbn [rows cols at2 rbind negb andb orb]);
    (eexists; split; [reflexivity|]; cbn [d0 d1 d2 d3 at4 pad_batch];
     repeat split; try lia;
     intros b h i j; unfold base_entry, pad_entry, padded;
     rewrite ?(proj2 (Nat.ltb_lt 0 past)) by lia;
     rewrite ?(proj2 (Nat.ltb_ge 0 past)) by lia;
     destruct (j <? len3 memory) eqn:Hj; destruct (i <? len3 memory) eqn:Hi;
     cbn [andb]; try destruct (at2 p b j); lia).
Qed.

(** C3.  Visual columns of the composed mask.  For a call of the composer
    with [M > 0] visual tokens and a well-shaped boolean padding mask (or
    none): the call succeeds with a mask of shape
    [[batch, 1, M+N, M+past+N]]; in a batch row where no visual position is
    marked padded the top-left [M x M] block is entirely true (every entry is
    1.0); and where visual position [j] is marked padded, column [j] is false
    (0.0) for every one of the [M+N] rows, visual and text alike. *)
Theorem C3_visual_block_and_padded_columns (tgt memory : T3 F)
    (tgt_mask : T2 Z) (past : nat) (pad : option pad_tensor) :
  0 < len3 memory ->
  rows tgt_mask = len3 tgt ->
  (past = 0 -> cols tgt_mask = len3 tgt) ->
  pad_well_shaped memory pad ->
  exists m,
    create_attention_mask tgt memory tgt_mask past pad = Ok m
    /\ (d0 m = pad_batch memory pad /\ d1 m = 1
        /\ d2 m = len3 memory + len3 tgt
        /\ d3 m = len3 memory + past + len3 tgt)
    /\ (forall b, b < d0 m ->
          (forall j, j < len3 memory -> padded pad b j = false) ->
          forall i j, i < len3 memory -> j < len3 memory ->
            at4 m b 0 i j = 1%Z /\ nonzero (at4 m b 0 i j) = true)
    /\ (forall b j, b < d0 m -> j < len3 memory -> padded pad b j = true ->
          forall i, i < len3 memory + len3 tgt ->
            at4 m b 0 i j = 0%Z /\ nonzero (at4 m b 0 i j) = false).
Proof.
  intros HM Hrows Hcols Hpad.
  destruct (create_attention_mask_spec tgt memory tgt_mask past pad
              Hrows Hcols Hpad) as (m & Hm & H0 & H1 & H2 & H3 & Hat).
  exists m. split; [exact Hm|]. split; [tauto|]. split.
  - intros b Hb Hnone i j Hi Hj.
    rewrite Hat. unfold base_entry, pad_entry.
    rewrite (proj2 (Nat.ltb_lt j (len3 memory)) Hj), (Hnone j Hj).
    split; reflexivity.
  - intros b j Hb Hj Hp i Hi.
    rewrite Hat. unfold base_entry, pad_entry.
    rewrite (proj2 (Nat.ltb_lt j (len3 memory)) Hj), Hp.
    split; reflexivity.
Qed.

Lemma map_seq_const {A} (f : nat -> A) (a : A) (n s : nat) :
  (forall i, s <= i < s + n -> f i = a) -> map f (seq s n) = repeat a n.
Proof.
  revert s. induction n as [|n IH]; intros s Hf; cbn; [reflexivity|].
  rewrite Hf by lia. f_equal. apply IH. intros i Hi. apply Hf. lia.
Qed.

Lemma map_seq_ext {A} (f g : nat -> A) (n s : nat) :
  (forall i, s <= i < s + n -> f i = g i) -> map f (seq s n) = map g (seq s n).
Proof.
  intros Hfg. apply map_ext_in. intros i Hi. apply in_seq in Hi. auto.
Qed.

(** C4.  With [M = 0] visual tokens and no cached past, the composer given
    the future mask of [N] text positions returns a mask of shape
    [[batch, 1, N, N]] that is, for every batch element, the plain causal
    mask of a text-only decoder: entry [(i, j)] is 1.0 (true) when [j <= i]
    and 0.0 (false) otherwise.  It is also, entry by entry, the tensor
    [_generate_future_mask N]. *)
Theorem C4_no_image_is_plain_causal (tgt memory : T3 F) (N : nat)
    (pad : option pad_tensor) :
  len3 tgt = N ->
  len3 memory = 0 ->
  pad_well_shaped memory pad ->
  exists m,
    create_attention_mask tgt memory (_generate_future_mask N) 0 pad = Ok m
    /\ (d0 m = pad_batch memory pad /\ d1 m = 1 /\ d2 m = N /\ d3 m = N)
    /\ (forall b h i j, i < N -> j < N ->
          at4 m b h i j = (if j <=? i then 1%Z else 0%Z)
          /\ nonzero (at4 m b h i j) = (j <=? i))
    /\ list4 m = repeat [plain_causal_mask N] (pad_batch memory pad)
    /\ list4 m = repeat [list2 (_generate_future_mask N)] (pad_batch memory pad).
Proof.
  intros HN HM Hpad.
  destruct (create_attention_mask_spec tgt memory (_generate_future_mask N) 0
              pad) as (m & Hm & H0 & H1 & H2 & H3 & Hat);
    [cbn; lia | cbn; lia | exact Hpad |].
  assert (Hentry : forall b h i j,
            at4 m b h i j = (if j <=? i then 1%Z else 0%Z)).
  { intros b h i j. rewrite Hat. unfold base_entry, pad_entry. rewrite HM.
    cbn. rewrite !Nat.sub_0_r. destruct (j <=? i); reflexivity. }
  exists m. split; [exact Hm|]. split; [repeat split; lia|]. split; [|split].
  - intros b h i j _ _. rewrite Hentry.
    destruct (j <=? i); split; reflexivity.
  - unfold list4. rewrite H0, H1, H2, H3, HM, HN. cbn [seq map Nat.add].
    apply map_seq_const. intros b _. f_equal.
    unfold plain_causal_mask.
    apply map_seq_ext. intros i _. apply map_seq_ext. intros j _.
    apply Hentry.
  - unfold list4. rewrite H0, H1, H2, H3, HM, HN. cbn [seq map Nat.add].
    apply map_seq_const. intros b _. f_equal.
    unfold list2. cbn [rows cols _generate_future_mask tril ones2 full2].
    apply map_seq_ext. intros i _. apply map_seq_ext. intros j _.
    rewrite Hentry. cbn. reflexivity.
Qed.

(** With cached past the text rows see every cached and current column. *)
Lemma combined_attention_mask_past (multi_query : bool)
    (inputs_embeds memory : T3 F) (query_length past : nat)
    (attention_mask : option (T2 bool)) :
  0 < past ->
  len3 inputs_embeds = query_length ->
  exists m,
    combined_attention_mask multi_query inputs_embeds memory query_length past
      attention_mask = Ok m
    /\ mask_shape multi_query m
       = (bsz3 memory, len3 memory + query_length,
          len3 memory + past + query_length)
    /\ forall b i j,
         mask_at multi_query m b i j
         = nonzero (base_entry (len3 memory) past
                      (_generate_future_mask query_length) i j).
Proof.
  intros Hp HN. unfold combined_attention_mask.
  destruct (create_attention_mask_spec inputs_embeds memory
              (_generate_future_mask query_length) past None)
    as (m & Hm & H0 & H1 & H2 & H3 & Hat);
    [cbn; lia | intros; lia | exact I |].
  rewrite Hm. cbn [rbind].
  rewrite (proj2 (Nat.ltb_lt 0 past) Hp).
  assert (Hentry : forall b h i j,
             nonzero (at4 m b h i j)
             = nonzero (base_entry (len3 memory) past
                          (_generate_future_mask query_length) i j)).
  { intros. rewrite Hat. unfold pad_entry, padded.
    rewrite andb_false_r, Z.add_0_r. reflexivity. }
  destruct attention_mask as [am|]; cbn [rbind];
    (eexists; split; [reflexivity|]);
    (split;
     [ unfold mask_shape; destruct multi_query; cbn; rewrite ?H0, ?H1, ?H2, ?H3, ?HN;
       cbn; reflexivity
     | intros b i j; unfold mask_at; destruct multi_query; cbn; apply Hentry ]).
Qed.

(** On a first call ([past = 0]) with a user mask of shape [[batch, N]], the
    text block keeps an entry only where the causal mask allows it and the
    user mask is false there: [.bool()] of the additive mask returned by
    [_expand_mask] is true exactly at the positions the user marked 0. *)
Lemma combined_attention_mask_first_call (multi_query : bool)
    (inputs_embeds memory : T3 F) (query_length : nat)
    (attention_mask : T2 bool) :
  0 < query_length ->
  len3 inputs_embeds = query_length ->
  rows attention_mask = bsz3 memory ->
  cols attention_mask = query_length ->
  exists m,
    combined_attention_mask multi_query inputs_embeds memory query_length 0
      (Some attention_mask) = Ok m
    /\ mask_shape multi_query m
       = (bsz3 memory, len3 memory + query_length,
          len3 memory + 0 + query_length)
    /\ forall b i j,
         i < query_length -> j < query_length ->
         mask_at multi_query m b (len3 memory + i) (len3 memory + j)
         = (j <=? i) && negb (at2 attention_mask b j).
Proof.
  intros HN0 HN Hr Hc. unfold combined_attention_mask.
  destruct (create_attention_mask_spec inputs_embeds memory
              (_generate_future_mask query_length) 0 None)
    as (m & Hm & H0 & H1 & H2 & H3 & Hat);
    [cbn; lia | intros; cbn; lia | exact I |].
  rewrite Hm. cbn [rbind Nat.ltb Nat.leb].
  unfold and_into_block, neg_slice_start, bcast_ok, bidx.
  cbn [d0 d1 d2 d3 at4 bool4 _expand_mask].
  cbn [pad_batch] in H0. rewrite H0, H1, H2, H3, HN, Hr, Hc.
  rewrite (proj2 (Nat.eqb_neq query_length 0)) by lia.
  replace (len3 memory + query_length - query_length) with (len3 memory) by lia.
  replace (len3 memory + 0 + query_length - query_length)
    with (len3 memory) by lia.
  replace (len3 memory + query_length - len3 memory)
    with query_length by lia.
  replace (len3 memory + 0 + query_length - len3 memory)
    with query_length by lia.
  rewrite !Nat.eqb_refl. cbn [andb orb rbind].
  eexists; split; [reflexivity|]. split.
  - unfold mask_shape; destruct multi_query; cbn; reflexivity.
  - intros b i j Hi Hj.
    assert (Hcell :
      nonzero (at4 m b 0 (len3 memory + i) (len3 memory + j)) = (j <=? i)).
    { rewrite Hat. unfold base_entry, pad_entry, padded.
      rewrite andb_false_r, Z.add_0_r.
      rewrite (proj2 (Nat.ltb_ge (len3 memory + j) (len3 memory))) by lia.
      rewrite (proj2 (Nat.ltb_ge (len3 memory + i) (len3 memory))) by lia.
      cbn [Nat.ltb Nat.leb _generate_future_mask tril ones2 full2 at2 rows cols].
      replace (len3 memory + j - len3 memory) with j by lia.
      replace (len3 memory + i - len3 memory) with i by lia.
      destruct (j <=? i); reflexivity. }
    unfold mask_at; destruct multi_query; cbn [transpose_1_2 at4];
      rewrite (proj2 (Nat.leb_le (len3 memory) (len3 memory + i))) by lia;
      rewrite (proj2 (Nat.leb_le (len3 memory) (len3 memory + j))) by lia;
      cbn [andb]; rewrite Hcell;
      replace (len3 memory + j - len3 memory) with j by lia;
      (destruct (at2 attention_mask b j); cbn [negb];
       [ rewrite !andb_false_r; reflexivity
       | change (nonzero (1 - 0)) with true; cbv iota;
         rewrite finfo_min_nonzero, !andb_true_r; reflexivity ]).
Qed.

(** C2.  With cached past ([pastLen > 0]) the forward pass yields a mask of
    shape [[batch, M+N, M+pastLen+N]] whose bottom-right [N x (pastLen+N)]
    block (text rows against cached and current text columns) is true
    everywhere, whatever the user attention mask is, given or not, in both
    attention layouts. *)
Theorem C2_cached_text_block_all_true (multi_query : bool)
    (inputs_embeds memory : T3 F) (query_length past : nat)
    (attention_mask : option (T2 bool)) :
  0 < past ->
  len3 inputs_embeds = query_length ->
  exists m,
    combined_attention_mask multi_query inputs_embeds memory query_length past
      attention_mask = Ok m
    /\ mask_shape multi_query m
       = (bsz3 memory, len3 memory + query_length,
          len3 memory + past + query_length)
    /\ forall b i j,
         b < bsz3 memory -> i < query_length -> j < past + query_length ->
         mask_at multi_query m b (len3 memory + i) (len3 memory + j) = true.
Proof.
  intros Hp HN.
  destruct (combined_attention_mask_past multi_query inputs_embeds memory
              query_length past attention_mask Hp HN) as (m & Hm & Hs & Hat).
  exists m. split; [exact Hm|]. split; [exact Hs|].
  intros b i j _ _ _. rewrite Hat. unfold base_entry.
  rewrite (proj2 (Nat.ltb_ge (len3 memory + j) (len3 memory))) by lia.
  rewrite (proj2 (Nat.ltb_ge (len3 memory + i) (len3 memory))) by lia.
  rewrite (proj2 (Nat.ltb_lt 0 past) Hp). reflexivity.
Qed.

End MaskFacts.

(** C1.  On the first call of generation for a text-only prompt of two
    tokens, with the all-valid user mask [[1, 1]], the composed mask has no
    true entry in its text block, while the causal mask ANDed with the user
    mask has three: the code turns the additive mask of [_expand_mask] into
    booleans, which are true at the positions the user marked padded. *)
Theorem C1_valid_user_mask_blanks_text_block :
  let inputs_embeds := mkT3 float32 1 2 1 (fun _ _ _ => tt) in
  let memory := mkT3 float32 1 0 1 (fun _ _ _ => tt) in
  let attention_mask := mkT2 1 2 (fun _ _ => true) in
  exists m,
    combined_attention_mask false inputs_embeds memory 2 0
      (Some attention_mask) = Ok m
    /\ list4 m = [[[[false; false]; [false; false]]]]
    /\ map (fun i => map (fun j => spec_text_block attention_mask 0 i j)
                       (seq 0 2)) (seq 0 2)
       = [[true; false]; [true; true]].
Proof.
  cbv zeta. eexists. split; [reflexivity|]. split; reflexivity.
Qed.

(** A text-only prompt without user mask gets the plain causal mask. *)
Example text_only_mask_is_causal :
  exists m,
    combined_attention_mask false (mkT3 float32 1 3 2 (fun _ _ _ => tt))
      (mkT3 float32 1 0 2 (fun _ _ _ => tt)) 3 0 None = Ok m
    /\ list4 m
       = [[[[true; false; false]; [true; true; false]; [true; true; true]]]].
Proof. eexists. split; reflexivity. Qed.

(** With an image of two tokens and the user mask [[1, 1, 0]]: visual
    columns visible to all rows, visual rows blind to text, and in the text
    block only the position marked 0 survives, on the last row. *)
Example image_and_user_mask :
  exists m,
    combined_attention_mask false (mkT3 float32 1 3 2 (fun _ _ _ => tt))
      (mkT3 float32 1 2 2 (fun _ _ _ => tt)) 3 0
      (Some (mkT2 1 3 (fun _ j => j <? 2))) = Ok m
    /\ list4 m
       = [[[[true; true; false; false; false];
            [true; true; false; false; false];
            [true; true; false; false; false];
            [true; true; false; false; false];
            [true; true; false; false; true]]]].
Proof. eexists. split; reflexivity. Qed.

Lemma C2_witness :
  exists m,
    combined_attention_mask true (mkT3 float16 2 1 4 (fun _ _ _ => tt))
      (mkT3 float16 2 0 4 (fun _ _ _ => tt)) 1 3
      (Some (mkT2 2 4 (fun _ j => j <? 2))) = Ok m
    /\ mask_shape true m = (2, 0 + 1, 0 + 3 + 1)
    /\ forall b i j,
         b < 2 -> i < 1 -> j < 3 + 1 ->
         mask_at true m b (0 + i) (0 + j) = true.
Proof.
  apply (C2_cached_text_block_all_true unit true
           (mkT3 float16 2 1 4 (fun _ _ _ => tt))
           (mkT3 float16 2 0 4 (fun _ _ _ => tt)) 1 3
           (Some (mkT2 2 4 (fun _ j => j <? 2)))); [lia | reflexivity].
Defined.

Lemma C3_witness :
  exists m,
    create_attention_mask (mkT3 float32 2 2 4 (fun _ _ _ => tt))
      (mkT3 float32 2 3 4 (fun _ _ _ => tt)) (_generate_future_mask 2) 0
      (Some (BoolPad (mkT2 2 3 (fun b j => (b =? 1) && (j =? 2))))) = Ok m
    /\ (d0 m = 2 /\ d1 m = 1 /\ d2 m = 3 + 2 /\ d3 m = 3 + 0 + 2)
    /\ (forall b, b < d0 m ->
          (forall j, j < 3 -> (b =? 1) && (j =? 2) = false) ->
          forall i j, i < 3 -> j < 3 ->
            at4 m b 0 i j = 1%Z /\ nonzero (at4 m b 0 i j) = true)
    /\ (forall b j, b < d0 m -> j < 3 -> (b =? 1) && (j =? 2) = true ->
          forall i, i < 3 + 2 ->
            at4 m b 0 i j = 0%Z /\ nonzero (at4 m b 0 i j) = false).
Proof.
  apply (C3_visual_block_and_padded_columns unit
           (mkT3 float32 2 2 4 (fun _ _ _ => tt))
           (mkT3 float32 2 3 4 (fun _ _ _ => tt)) (_generate_future_mask 2) 0
           (Some (BoolPad (mkT2 2 3 (fun b j => (b =? 1) && (j =? 2))))));
    cbn; [lia | reflexivity | reflexivity | reflexivity].
Defined.

Lemma C4_witness :
  exists m,
    create_attention_mask (mkT3 float32 2 3 4 (fun _ _ _ => tt))
      (mkT3 float32 2 0 4 (fun _ _ _ => tt)) (_generate_future_mask 3) 0
      None = Ok m
    /\ (d0 m = pad_batch (mkT3 float32 2 0 4 (fun _ _ _ => tt)) None
        /\ d1 m = 1 /\ d2 m = 3 /\ d3 m = 3)
    /\ (forall b h i j, i < 3 -> j < 3 ->
          at4 m b h i j = (if j <=? i then 1%Z else 0%Z)
          /\ nonzero (at4 m b h i j) = (j <=? i))
    /\ list4 m
       = repeat [plain_causal_mask 3]
           (pad_batch (mkT3 float32 2 0 4 (fun _ _ _ => tt)) None)
    /\ list4 m
       = repeat [list2 (_generate_future_mask 3)]
           (pad_batch (mkT3 float32 2 0 4 (fun _ _ _ => tt)) None).
Proof.
  apply (C4_no_image_is_plain_causal unit
           (mkT3 float32 2 3 4 (fun _ _ _ => tt))
           (mkT3 float32 2 0 4 (fun _ _ _ => tt)) 3 None);
    [reflexivity | reflexivity | exact I].
Defined.

(** The mask of a text-only call of three tokens, written out. *)
Example plain_causal_mask_of_three :
  plain_causal_mask 3 = [[1; 0; 0]; [1; 1; 0]; [1; 1; 1]]%Z.
Proof. reflexivity. Qed.

(* ================================================================== *)
(** ** Reasoning about effectful code *)
(* ================================================================== *)

Lemma post_bind {A B} (m : Eff A) (k : A -> Eff B) (R : A -> Prop)
    (P : B -> Prop) :
  post m R -> (forall a, R a -> post (k a) P) -> post (bind m k) P.
Proof.
  unfold post, outcome, bind. destruct m as [[a|e] l]; cbn; [|trivial].
  intros HR Hk. specialize (Hk a HR). destruct (k a) as [r l']. exact Hk.
Qed.

Lemma post_always {A} (m : Eff A) (P : A -> Prop) : (forall a, P a) -> post m P.
Proof. unfold post. destruct (outcome m); auto. Qed.

Lemma post_bind_any {A B} (m : Eff A) (k : A -> Eff B) (P : B -> Prop) :
  (forall a, post (k a) P) -> post (bind m k) P.
Proof.
  intros Hk. apply post_bind with (R := fun _ => True); [|auto].
  apply post_always; trivial.
Qed.

Lemma post_ret {A} (a : A) (P : A -> Prop) : P a -> post (ret a) P.
Proof. exact (fun H => H). Qed.

Lemma post_raise {A} (e : error) (P : A -> Prop) : post (raise e) P.
Proof. exact I. Qed.

Lemma bind_ret_l {A B} (a : A) (k : A -> Eff B) : bind (ret a) k = k a.
Proof. unfold bind, ret. destruct (k a); reflexivity. Qed.

Lemma bind_raise {A B} (e : error) (k : A -> Eff B) :
  bind (raise e) k = raise e.
Proof. reflexivity. Qed.

(* ================================================================== *)
(** ** Properties of the forward passes *)
(* ================================================================== *)

Section ModelFacts.

Variable F : Type.
Variable fadd : F -> F -> F.
Variable fzero : F.
Variable Img : Type.
Variable Aux : Type.
Variable kv_len : Aux -> nat.
Variable HM : Type.
Variable EM : Type.
Variable em_dim : EM -> nat.
Variable em_bool_unsqueeze : nat -> EM -> EM.
Variable L : Type.

Local Abbreviation Model := (GitGPTBigCodeModel F Img Aux HM EM).
Local Abbreviation CausalLM := (GitGPTBigCodeForCausalLM F Img Aux HM EM L).
Local Abbreviation model_forward :=
  (forward fadd fzero kv_len em_dim em_bool_unsqueeze L).
Local Abbreviation causal_lm_forward :=
  (lm_forward fadd fzero kv_len em_dim em_bool_unsqueeze).

Lemma forward_ill_specified (self : Model)
    (args : model_inputs F Img Aux HM EM) :
  ill_specified args ->
  exists msg, model_forward self args = (Err (ValueError msg), []).
Proof.
  intros [[Hids Hemb]|[Hids Hemb]]; unfold forward.
  - destruct (input_ids args) as [ids|]; [|congruence].
    destruct (inputs_embeds args) as [e|]; [|congruence].
    eexists. reflexivity.
  - rewrite Hids, Hemb. eexists. reflexivity.
Qed.

(** C7.  A forward call that supplies both [input_ids] and [inputs_embeds],
    or neither of them, raises [ValueError] with an empty log: no collaborator
    has been invoked (no visual encoding, no embedding, no fusion, no mask)
    and no result is produced. *)
Theorem C7_ill_specified_inputs_rejected (self : Model)
    (args : model_inputs F Img Aux HM EM) :
  ill_specified args ->
  exists msg,
    model_forward self args = (Err (ValueError msg), [])
    /\ outcome (model_forward self args) = Err (ValueError msg)
    /\ trace (model_forward self args) = [].
Proof.
  intros H. destruct (forward_ill_specified self args H) as [msg Hmsg].
  exists msg. rewrite Hmsg. repeat split.
Qed.

(** The wrapper rejects the same calls, before the LM head or the loss. *)
Lemma lm_forward_ill_specified (self : CausalLM) (args : lm_inputs F Img Aux) :
  (lm_input_ids args <> None /\ lm_inputs_embeds args <> None)
  \/ (lm_input_ids args = None /\ lm_inputs_embeds args = None) ->
  exists msg, causal_lm_forward self args = (Err (ValueError msg), []).
Proof.
  intros H. unfold lm_forward.
  match goal with
  | |- context [forward _ _ _ _ _ _ ?s ?a] =>
      destruct (forward_ill_specified s a) as [msg Hmsg]; [exact H|]
  end.
  rewrite Hmsg. exists msg. reflexivity.
Qed.

(** With a cache supplied the vision encoder part is skipped, whatever
    [pixel_values] is. *)
Lemma encode_visual_with_past (self : Model)
    (pixel_values : option (pixel_tensor Img)) (pkv : list Aux) :
  encode_visual fadd self pixel_values (Some pkv) = ret None.
Proof. destruct pixel_values; reflexivity. Qed.

Lemma visual_block_absent (inputs_embeds : T3 F) :
  0 < bsz3 inputs_embeds ->
  exists blk,
    visual_block fzero inputs_embeds None = ret blk
    /\ bsz3 blk = bsz3 inputs_embeds /\ len3 blk = 0
    /\ hid3 blk = hid3 inputs_embeds.
Proof.
  intros HB. unfold visual_block. cbn [zeros3 bsz3].
  rewrite (proj2 (Nat.eqb_neq _ 0)) by lia.
  eexists. split; [reflexivity|]. cbn.
  rewrite Nat.div_same by lia. repeat split; lia.
Qed.

(** C9.  In a call of the wrapper with [past_key_values] supplied:
    the vision encoder part yields nothing and logs nothing, the visual
    block fused with the text embeddings has sequence length 0, and two
    calls that differ only in [pixel_values] (any tensor, or none) have the
    same outcome (the same logits, loss, cache and other outputs, or the
    same exception) and the same log. *)
Theorem C9_pixel_values_ignored_with_cache (self : CausalLM)
    (args : lm_inputs F Img Aux) (pkv : list Aux)
    (pv pv' : option (pixel_tensor Img)) :
  lm_past_key_values args = Some pkv ->
  (forall inputs_embeds, 0 < bsz3 inputs_embeds ->
     exists blk,
       bind (encode_visual fadd (model self) pv (Some pkv))
         (visual_block fzero inputs_embeds) = ret blk
       /\ len3 blk = 0)
  /\ causal_lm_forward self (with_pixel_values args pv)
     = causal_lm_forward self (with_pixel_values args pv').
Proof.
  intros Hpast. split.
  - intros inputs_embeds HB.
    rewrite encode_visual_with_past, bind_ret_l.
    destruct (visual_block_absent inputs_embeds HB) as (blk & Hblk & _ & Hlen & _).
    exists blk. split; assumption.
  - unfold lm_forward, with_pixel_values, forward.
    cbn [lm_input_ids lm_attention_mask lm_position_ids lm_pixel_values
         lm_inputs_embeds lm_labels lm_past_key_values lm_use_cache
         lm_output_attentions lm_output_hidden_states lm_return_dict
         input_ids past_key_values attention_mask token_type_ids position_ids
         pixel_values head_mask inputs_embeds encoder_hidden_states
         encoder_attention_mask use_cache output_attentions
         output_hidden_states return_dict].
    rewrite Hpast, !encode_visual_with_past. reflexivity.
Qed.

Lemma items_cache_tl (items : list (item F Aux L)) :
  items_cache items = None -> items_cache (tl items) = None.
Proof.
  destruct items as [|it rest]; cbn; [trivial|].
  destruct it; cbn; congruence.
Qed.

Lemma items_cache_to_tuple
    (o : BaseModelOutputWithPastAndCrossAttentions F Aux) :
  out_past_key_values o = None -> items_cache (to_tuple L o) = None.
Proof.
  intros H. unfold to_tuple. rewrite H.
  destruct (out_hidden_states o), (out_attentions o), (out_cross_attentions o);
    reflexivity.
Qed.

(** Without [use_cache] no layer adds a cache entry. *)
Lemma run_blocks_no_cache (self : Model)
    (layers : list (Block F Aux HM EM * option Aux)) :
  forall (i : nat) (mask : T4 bool) (head_mask : list (option HM))
         (ehs : option (T3 F)) (eam : option EM) (oa ohs : bool)
         (st : loop_state F Aux),
    ls_presents st = None ->
    post (run_blocks self layers i mask head_mask ehs eam false oa ohs st)
      (fun st' => ls_presents st' = None).
Proof.
  induction layers as [|[block layer_past] rest IH]; intros i mask head_mask ehs
    eam oa ohs st Hst; cbn [run_blocks].
  - apply post_ret. exact Hst.
  - apply post_bind_any; intros head_mask_i.
    apply post_bind_any; intros outputs.
    rewrite bind_ret_l.
    apply post_bind_any; intros attns.
    apply IH. exact Hst.
Qed.

Lemma forward_no_cache (self : Model) (args : model_inputs F Img Aux HM EM) :
  use_cache args = Some false ->
  post (model_forward self args) (fun out => model_cache out = None).
Proof.
  intros Huc. unfold forward. rewrite Huc. cbn [or_default].
  apply post_bind_any; intros [[ids input_shape] batch_size].
  repeat
    match goal with
    | |- post (bind (run_blocks _ _ _ _ _ _ _ _ _ _ _) _) _ =>
        apply post_bind with (R := fun st => ls_presents st = None);
        [ apply run_blocks_no_cache; reflexivity | intros st Hst ]
    | |- post (bind _ _) _ => apply post_bind_any; intros ?
    end.
  apply post_ret. unfold model_result, model_cache.
  destruct (negb _); cbn [out_past_key_values].
  - rewrite Hst. cbn.
    repeat match goal with
           | |- context [match ?x with Some _ => _ | None => _ end] =>
               destruct x; cbn
           | |- context [if ?x then _ else _] => destruct x; cbn
           end; reflexivity.
  - exact Hst.
Qed.

(** C10.  When labels are supplied, the wrapper calls the model with
    [use_cache = False] whatever the caller and the configuration ask for,
    so every result it returns carries no cache: [past_key_values] is [None]
    in the dictionary form, and the tuple form has no cache entry. *)
Theorem C10_labels_disable_cache (self : CausalLM) (args : lm_inputs F Img Aux)
    (labels : T2 Z) (out : lm_output F Aux L) :
  lm_labels args = Some labels ->
  outcome (causal_lm_forward self args) = Ok out ->
  returned_cache out = None.
Proof.
  intros Hlabels Hout.
  assert (Hpost : post (causal_lm_forward self args)
                    (fun out => returned_cache out = None)).
  { unfold lm_forward. rewrite Hlabels.
    apply post_bind with (R := fun o => model_cache o = None);
      [ apply forward_no_cache; reflexivity | intros outputs Hcache ].
    apply post_bind_any; intros sequence_output.
    apply post_bind_any; intros logits.
    apply post_bind_any; intros loss.
    destruct (negb _).
    - apply post_ret. unfold returned_cache.
      assert (Htl : items_cache (tl (output_items outputs)) = None).
      { apply items_cache_tl. destruct outputs as [items|o]; cbn in *;
          [exact Hcache | apply items_cache_to_tuple; exact Hcache]. }
      destruct loss; cbn; exact Htl.
    - destruct outputs as [items|o]; cbn [output_fields lift].
      + exact I.
      + apply post_ret. exact Hcache. }
  unfold post in Hpost. rewrite Hout in Hpost. exact Hpost.
Qed.

Lemma items_loss_to_tuple
    (o : BaseModelOutputWithPastAndCrossAttentions F Aux) :
  items_loss (to_tuple L o) = None.
Proof.
  unfold to_tuple.
  destruct (out_past_key_values o), (out_hidden_states o), (out_attentions o),
    (out_cross_attentions o); reflexivity.
Qed.

(** The model itself never returns a loss. *)
Lemma forward_no_loss (self : Model) (args : model_inputs F Img Aux HM EM) :
  post (model_forward self args)
    (fun out => items_loss (output_items out) = None).
Proof.
  unfold forward.
  apply post_bind_any; intros [[ids input_shape] batch_size].
  repeat (apply post_bind_any; intros ?).
  apply post_ret. unfold model_result.
  destruct (negb _); cbn [output_items].
  - repeat match goal with
           | |- context [match ?x with Some _ => _ | None => _ end] =>
               destruct x; cbn
           end; reflexivity.
  - apply items_loss_to_tuple.
Qed.

Lemma lm_forward_without_labels (self : CausalLM)
    (args : lm_inputs F Img Aux) :
  lm_labels args = None ->
  post (causal_lm_forward self args) (fun out => returned_loss out = None).
Proof.
  intros Hlabels. unfold lm_forward. rewrite Hlabels.
  apply post_bind with (R := fun o => items_loss (output_items o) = None);
    [ apply forward_no_loss | intros outputs Hloss ].
  apply post_bind_any; intros sequence_output.
  apply post_bind_any; intros logits.
  cbn [compute_loss]. rewrite bind_ret_l.
  destruct (negb _).
  - apply post_ret. cbn.
    destruct (output_items outputs) as [|it rest]; cbn in *; [reflexivity|].
    destruct it; cbn in *; congruence.
  - destruct outputs as [items|o]; cbn [output_fields lift].
    + exact I.
    + apply post_ret. reflexivity.
Qed.

Lemma flat_index (V r c : nat) :
  c < V -> r < 4 ->
  (r * V + c) / (4 * V) = 0 /\ (r * V + c) / V mod 4 = r
  /\ (r * V + c) mod V = c.
Proof.
  intros Hc Hr.
  assert (HV : V <> 0) by lia.
  assert (Hdiv : (r * V + c) / V = r).
  { rewrite Nat.div_add_l by exact HV. rewrite (Nat.div_small c V) by exact Hc.
    lia. }
  repeat split.
  - apply Nat.div_small. nia.
  - rewrite Hdiv. apply Nat.mod_small. exact Hr.
  - rewrite Nat.add_comm, Nat.Div0.mod_add. apply Nat.mod_small. exact Hc.
Qed.

(** What the loss function is handed for logits over three visual and five
    text positions of one batch element: the score rows at positions 3 to 6
    and the labels t1 to t4. *)
Lemma compute_loss_five_tokens (self : CausalLM) (logits : T3 F)
    (labels : T2 Z) (V : nat) :
  image_patch_tokens (model self) = 3 ->
  config_vocab_size (config (model self)) = V ->
  0 < V ->
  bsz3 logits = 1 -> len3 logits = 3 + 5 -> hid3 logits = V ->
  rows labels = 1 -> cols labels = 5 ->
  let logit_row i := map (fun v => at3 logits 0 i v) (seq 0 V) in
  let t j := at2 labels 0 j in
  compute_loss self logits (Some labels)
  = bind (lift (loss_fct self
                  [logit_row 3; logit_row 4; logit_row 5; logit_row 6]
                  [t 1; t 2; t 3; t 4]))
      (fun loss => call EvLoss (Some loss)).
Proof.
  intros Hn Hv HV HB HL HH Hr Hc logit_row t.
  unfold compute_loss, view_rows3, shift_logits, shift_labels, flatten2, list2.
  cbn [bsz3 len3 hid3 dtype3 at3 rows cols at2].
  rewrite Hn, Hv, HB, HL, HH, Hr, Hc.
  cbn [Nat.min Nat.sub Nat.add Nat.mul].
  rewrite (proj2 (Nat.eqb_neq V 0)) by lia.
  replace ((V + (V + (V + (V + 0))) + 0)) with (4 * V) by lia.
  replace (V + (V + (V + (V + 0)))) with (4 * V) by lia.
  rewrite Nat.Div0.mod_mul, Nat.eqb_refl, Nat.div_mul by lia.
  cbn [lift bind rows cols at2 seq map concat app].
  assert (Hrow : forall r, r < 4 ->
            map (fun j => at3 logits ((r * V + j) / (4 * V))
                            (S (S (S ((r * V + j) / V mod 4))))
                            ((r * V + j) mod V))
              (seq 0 V)
            = logit_row (3 + r)).
  { intros r Hlt. apply map_seq_ext. intros j Hj.
    destruct (flat_index V r j) as (H1 & H2 & H3); [lia | exact Hlt |].
    rewrite H1, H2, H3. reflexivity. }
  rewrite (Hrow 0), (Hrow 1), (Hrow 2), (Hrow 3) by lia.
  change (loss_fct self
            [logit_row (3 + 0); logit_row (3 + 1); logit_row (3 + 2);
             logit_row (3 + 3)]
            [at2 labels 0 1; at2 labels 0 2; at2 labels 0 3; at2 labels 0 4])
    with (loss_fct self [logit_row 3; logit_row 4; logit_row 5; logit_row 6]
            [t 1; t 2; t 3; t 4]).
  destruct (loss_fct self _ _); reflexivity.
Qed.

(** With labels, a call of the wrapper that returns carries the loss that
    the loss function gives on the arguments [compute_loss] hands it, for
    the logits the call returns. *)
Lemma lm_forward_with_labels (self : CausalLM) (args : lm_inputs F Img Aux)
    (labels : T2 Z) (input : T3 F -> list (list F)) (target : list Z)
    (shaped : T3 F -> Prop) :
  lm_labels args = Some labels ->
  (forall logits, shaped logits ->
     compute_loss self logits (Some labels)
     = bind (lift (loss_fct self (input logits) target))
         (fun loss => call EvLoss (Some loss))) ->
  post (causal_lm_forward self args)
    (fun out =>
       exists logits,
         returned_logits out = Some logits
         /\ (shaped logits ->
             exists loss,
               loss_fct self (input logits) target = Ok loss
               /\ returned_loss out = Some loss)).
Proof.
  intros Hlabels Hloss. unfold lm_forward. rewrite Hlabels.
  apply post_bind_any; intros outputs.
  apply post_bind_any; intros sequence_output.
  apply post_bind_any; intros logits.
  apply post_bind with
    (R := fun loss =>
            shaped logits ->
            exists l, loss_fct self (input logits) target = Ok l
                      /\ loss = Some l).
  { unfold post.
    destruct (outcome (compute_loss self logits (Some labels))) as [o|e] eqn:E;
      [|exact I].
    intros Hs. rewrite (Hloss logits Hs) in E.
    destruct (loss_fct self (input logits) target) as [l|e]; cbn in E;
      [|discriminate].
    injection E as <-. exists l. split; reflexivity. }
  intros loss HR. destruct (negb _).
  - apply post_ret. exists logits. split.
    + destruct loss; reflexivity.
    + intros Hs. destruct (HR Hs) as (l & Hl & ->).
      exists l. split; [exact Hl|reflexivity].
  - destruct outputs as [items|o]; cbn [output_fields lift].
    + exact I.
    + apply post_ret. exists logits. split; [reflexivity|].
      intros Hs. destruct (HR Hs) as (l & Hl & ->).
      exists l. split; [exact Hl|reflexivity].
Qed.

(** C5.  Batch size 1, three visual tokens, five labelled text tokens: a
    call of the wrapper with labels that returns logits over the eight fused
    positions returns as its loss the cross entropy of the logit rows at
    positions 3, 4, 5, 6 against the labels t1, t2, t3, t4, in this order;
    position 7 and label t0 take no part.  These rows and labels are the
    arguments of the one call of the loss function.  Without labels no loss
    is computed and the returned loss is [None]. *)
Theorem C5_loss_alignment (self : CausalLM) (args : lm_inputs F Img Aux)
    (labels : T2 Z) (out : lm_output F Aux L) (logits : T3 F) (V : nat) :
  image_patch_tokens (model self) = 3 ->
  config_vocab_size (config (model self)) = V ->
  0 < V ->
  lm_labels args = Some labels ->
  rows labels = 1 -> cols labels = 5 ->
  outcome (causal_lm_forward self args) = Ok out ->
  returned_logits out = Some logits ->
  bsz3 logits = 1 -> len3 logits = 3 + 5 -> hid3 logits = V ->
  let logit_row i := map (fun v => at3 logits 0 i v) (seq 0 V) in
  let t j := at2 labels 0 j in
  (exists loss,
     loss_fct self [logit_row 3; logit_row 4; logit_row 5; logit_row 6]
       [t 1; t 2; t 3; t 4] = Ok loss
     /\ returned_loss out = Some loss)
  /\ compute_loss self logits (Some labels)
     = bind (lift (loss_fct self
                     [logit_row 3; logit_row 4; logit_row 5; logit_row 6]
                     [t 1; t 2; t 3; t 4]))
         (fun loss => call EvLoss (Some loss))
  /\ compute_loss self logits None = ret None
  /\ (forall args' out',
        lm_labels args' = None ->
        outcome (causal_lm_forward self args') = Ok out' ->
        returned_loss out' = None).
Proof.
  intros Hn Hv HV Hlabels Hr Hc Hout Hlogits HB HL HH logit_row t.
  split; [|split; [|split; [reflexivity|]]].
  - pose proof (lm_forward_with_labels self args labels
                  (fun lg => map (fun i => map (fun v => at3 lg 0 i v) (seq 0 V))
                               [3; 4; 5; 6])
                  [t 1; t 2; t 3; t 4]
                  (fun lg => bsz3 lg = 1 /\ len3 lg = 3 + 5 /\ hid3 lg = V)
                  Hlabels) as Hpost.
    unfold post in Hpost. rewrite Hout in Hpost.
    destruct Hpost as (logits' & Hlogits' & Hloss).
    { intros lg (HB' & HL' & HH').
      apply (compute_loss_five_tokens self lg labels V); assumption. }
    rewrite Hlogits in Hlogits'. injection Hlogits' as <-.
    apply Hloss. repeat split; assumption.
  - apply (compute_loss_five_tokens self logits labels V); assumption.
  - intros args' out' Hnone Hout'.
    pose proof (lm_forward_without_labels self args' Hnone) as Hpost.
    unfold post in Hpost. rewrite Hout' in Hpost. exact Hpost.
Qed.

(* ------------------------------------------------------------------ *)
(** *** The temporal embedding of video frames *)
(* ------------------------------------------------------------------ *)

Lemma cat_seq_list_spec (B P H : nat) (ts : list (T3 F)) :
  ts <> [] ->
  Forall (fun t => has_shape t B P H) ts ->
  exists out,
    cat_seq_list ts = Ok out
    /\ has_shape out B (P * length ts) H
    /\ forall k x b p h,
         nth_error ts k = Some x -> p < P ->
         at3 out b (k * P + p) h = at3 x b p h.
Proof.
  induction ts as [|t rest IH]; intros Hne Hall; [congruence|].
  inversion Hall as [|t' rest' Ht Hrest]; subst.
  destruct Ht as (HtB & HtP & HtH).
  destruct rest as [|t2 rest2].
  - exists t. split; [reflexivity|]. split.
    + unfold has_shape. cbn. repeat split; lia.
    + intros k x b p h Hk Hp. destruct k as [|k]; cbn in Hk.
      * injection Hk as <-. reflexivity.
      * destruct k; discriminate.
  - destruct IH as (r & Hr & (HrB & HrP & HrH) & Hat); [congruence|exact Hrest|].
    change (cat_seq_list (t :: t2 :: rest2))
      with (rbind (cat_seq_list (t2 :: rest2)) (fun r => cat_seq t r)).
    rewrite Hr. cbn [rbind]. unfold cat_seq.
    rewrite HtB, HrB, HtH, HrH, !Nat.eqb_refl. cbn [andb].
    eexists. split; [reflexivity|]. split.
    + unfold has_shape. cbn [bsz3 len3 hid3]. rewrite HtP, HrP.
      cbn [length]. repeat split; lia.
    + intros k x b p h Hk Hp. cbn [at3]. rewrite HtP.
      destruct k as [|k]; cbn in Hk.
      * injection Hk as <-. cbn [Nat.mul Nat.add].
        rewrite (proj2 (Nat.ltb_lt p P)) by lia. reflexivity.
      * rewrite (proj2 (Nat.ltb_ge (S k * P + p) P)) by (cbn; lia).
        replace (S k * P + p - P) with (k * P + p) by (cbn; lia).
        apply Hat; assumption.
Qed.

Lemma encode_frames_spec (self : Model) (offsets : list (T3 F))
    (B P H : nat) (frames : list Img) :
  img_temporal_embedding self = Some offsets ->
  Forall (fun frame => has_shape (image_encoder self frame) B P H) frames ->
  Forall (fun o => has_shape o 1 1 H) offsets ->
  forall idx,
    idx + length frames <= length offsets ->
    exists fs,
      outcome (encode_frames fadd self frames idx) = Ok fs
      /\ length fs = length frames
      /\ Forall (fun t => has_shape t B P H) fs
      /\ forall k frame o x b p h,
           nth_error frames k = Some frame ->
           nth_error offsets (idx + k) = Some o ->
           nth_error fs k = Some x ->
           b < B -> p < P ->
           at3 x b p h = fadd (at3 (image_encoder self frame) b p h) (at3 o 0 0 h).
Proof.
  intros Hemb Hframes Hoffs.
  induction frames as [|frame rest IH]; intros idx Hlen.
  - exists []. cbn. repeat split; auto.
    intros k ? ? ? ? ? ? Hk. destruct k; discriminate.
  - inversion Hframes as [|f r Hf Hr]; subst.
    destruct Hf as (HfB & HfP & HfH).
    destruct (nth_error offsets idx) as [o|] eqn:Ho;
      [| apply nth_error_None in Ho; cbn in Hlen; lia ].
    assert (Hos : has_shape o 1 1 H).
    { rewrite List.Forall_forall in Hoffs. apply Hoffs.
      eapply nth_error_In; eassumption. }
    destruct Hos as (HoB & HoP & HoH).
    destruct (IH Hr (S idx)) as (fs & Hfs & Hfl & Hfshape & Hfat);
      [cbn in Hlen; lia|].
    cbn [encode_frames].
    unfold outcome in *. unfold bind at 1. cbn [call].
    rewrite Hemb. cbn [ret bind]. rewrite Ho. cbn [ret bind].
    unfold iadd3, bcast_ok.
    rewrite HfB, HfP, HfH, HoB, HoP, HoH, !Nat.eqb_refl, !orb_true_r.
    cbn [andb lift bind call ret app].
    destruct (encode_frames fadd self rest (S idx)) as [[fs'|e] tr];
      cbn in Hfs; [|discriminate].
    inversion Hfs; subst fs'. cbn.
    eexists. split; [reflexivity|]. split; [cbn; lia|]. split.
    + constructor; [|exact Hfshape]. unfold has_shape. cbn. auto.
    + intros k frame' o' x b p h Hk Hok Hx Hb Hp.
      destruct k as [|k]; cbn in Hk, Hx.
      * injection Hk as <-. injection Hx as <-.
        rewrite Nat.add_0_r in Hok. rewrite Ho in Hok.
        injection Hok as <-. cbn [at3]. unfold bidx.
        rewrite Nat.eqb_refl.
        assert (Hb0 : (if 1 =? B then b else 0) = 0)
          by (destruct (Nat.eqb_spec 1 B); lia).
        assert (Hp0 : (if 1 =? P then p else 0) = 0)
          by (destruct (Nat.eqb_spec 1 P); lia).
        rewrite Hb0, Hp0. reflexivity.
      * eapply Hfat; eauto.
        replace (S idx + k) with (idx + S k) by lia. exact Hok.
Qed.

(** In an arithmetic whose sums cancel, two sums over the same base differ
    by the difference of what was added. *)
Lemma temporal_offset_delta (fsub : F -> F -> F) (base o0 o1 x0 x1 : F) :
  (forall x a b, fsub (fadd x b) (fadd x a) = fsub b a) ->
  x0 = fadd base o0 -> x1 = fadd base o1 -> fsub x1 x0 = fsub o1 o0.
Proof. intros Hcancel -> ->. apply Hcancel. Qed.

(** C6 (amended: at least one frame, and the offset delta only where the
    sums are exact).  Given the features of one or more frames, each
    [[batch, P, H]], and as many learned offsets, each [[1, 1, H]], the
    temporal embedder returns a tensor of shape [[batch, P * numFrames, H]]
    whose block of frame [f] is the frame's features plus [offset[f]],
    element by element.  When frames 0 and 1 have the same features, their
    two output blocks are that common base plus offset 0 and plus offset 1
    respectively; and for every subtraction under which the sums cancel
    (exact arithmetic), the block of frame 1 minus the block of frame 0 is
    exactly offset 1 minus offset 0. *)
Theorem C6_temporal_embedder (self : Model) (frames : list Img)
    (offsets : list (T3 F)) (B P H : nat) :
  frames <> [] ->
  img_temporal_embedding self = Some offsets ->
  length offsets = length frames ->
  Forall (fun frame => has_shape (image_encoder self frame) B P H) frames ->
  Forall (fun o => has_shape o 1 1 H) offsets ->
  exists out,
    outcome (encode_video fadd self frames) = Ok out
    /\ has_shape out B (P * length frames) H
    /\ (forall f frame o b p h,
          nth_error frames f = Some frame -> nth_error offsets f = Some o ->
          b < B -> p < P ->
          at3 out b (f * P + p) h
          = fadd (at3 (image_encoder self frame) b p h) (at3 o 0 0 h))
    /\ (forall frame0 frame1 o0 o1 b p h,
          nth_error frames 0 = Some frame0 -> nth_error frames 1 = Some frame1 ->
          nth_error offsets 0 = Some o0 -> nth_error offsets 1 = Some o1 ->
          b < B -> p < P ->
          at3 (image_encoder self frame1) b p h
          = at3 (image_encoder self frame0) b p h ->
          exists base,
            at3 out b p h = fadd base (at3 o0 0 0 h)
            /\ at3 out b (P + p) h = fadd base (at3 o1 0 0 h))
    /\ (forall fsub : F -> F -> F,
          (forall x a b, fsub (fadd x b) (fadd x a) = fsub b a) ->
          forall frame0 frame1 o0 o1 b p h,
            nth_error frames 0 = Some frame0 ->
            nth_error frames 1 = Some frame1 ->
            nth_error offsets 0 = Some o0 -> nth_error offsets 1 = Some o1 ->
            b < B -> p < P ->
            at3 (image_encoder self frame1) b p h
            = at3 (image_encoder self frame0) b p h ->
            fsub (at3 out b (P + p) h) (at3 out b p h)
            = fsub (at3 o1 0 0 h) (at3 o0 0 0 h)).
Proof.
  intros Hne Hemb Hlen Hframes Hoffs.
  destruct (encode_frames_spec self offsets B P H frames Hemb Hframes Hoffs 0)
    as (fs & Hfs & Hfl & Hshape & Hfat); [lia|].
  assert (Hfne : fs <> []).
  { destruct fs; [|congruence]. destruct frames; [congruence|discriminate]. }
  destruct (cat_seq_list_spec B P H fs Hfne Hshape) as (out & Hout & Hos & Hat).
  assert (Hblock : forall f frame o b p h,
            nth_error frames f = Some frame -> nth_error offsets f = Some o ->
            b < B -> p < P ->
            at3 out b (f * P + p) h
            = fadd (at3 (image_encoder self frame) b p h) (at3 o 0 0 h)).
  { intros f frame o b p h Hf Ho Hb Hp.
    destruct (nth_error fs f) as [x|] eqn:Hx.
    - rewrite (Hat f x b p h Hx Hp). eapply Hfat; eauto.
    - apply nth_error_None in Hx.
      assert (f < length frames) by (apply nth_error_Some; congruence). lia. }
  assert (Hpair : forall frame0 frame1 o0 o1 b p h,
            nth_error frames 0 = Some frame0 ->
            nth_error frames 1 = Some frame1 ->
            nth_error offsets 0 = Some o0 -> nth_error offsets 1 = Some o1 ->
            b < B -> p < P ->
            at3 (image_encoder self frame1) b p h
            = at3 (image_encoder self frame0) b p h ->
            at3 out b p h
            = fadd (at3 (image_encoder self frame0) b p h) (at3 o0 0 0 h)
            /\ at3 out b (P + p) h
               = fadd (at3 (image_encoder self frame0) b p h) (at3 o1 0 0 h)).
  { intros frame0 frame1 o0 o1 b p h Hf0 Hf1 Ho0 Ho1 Hb Hp Hsame. split.
    - rewrite <- (Hblock 0 frame0 o0 b p h Hf0 Ho0 Hb Hp). reflexivity.
    - rewrite <- Hsame, <- (Hblock 1 frame1 o1 b p h Hf1 Ho1 Hb Hp).
      cbn [Nat.mul]. rewrite Nat.add_0_r. reflexivity. }
  exists out. split; [|split; [|split; [|split]]].
  - unfold encode_video, outcome, bind in *.
    destruct (encode_frames fadd self frames 0) as [[fs'|e] tr]; cbn in Hfs;
      [|discriminate].
    injection Hfs as ->. cbn. rewrite Hout. reflexivity.
  - rewrite <- Hfl. exact Hos.
  - exact Hblock.
  - intros frame0 frame1 o0 o1 b p h Hf0 Hf1 Ho0 Ho1 Hb Hp Hsame.
    exists (at3 (image_encoder self frame0) b p h).
    exact (Hpair frame0 frame1 o0 o1 b p h Hf0 Hf1 Ho0 Ho1 Hb Hp Hsame).
  - intros fsub Hcancel frame0 frame1 o0 o1 b p h Hf0 Hf1 Ho0 Ho1 Hb Hp Hsame.
    destruct (Hpair frame0 frame1 o0 o1 b p h Hf0 Hf1 Ho0 Ho1 Hb Hp Hsame)
      as [H0 H1].
    exact (temporal_offset_delta fsub _ _ _ _ _ Hcancel H0 H1).
Qed.

(** Without any frame, [torch.cat] is given an empty list and raises. *)
Lemma encode_video_no_frames (self : Model) :
  encode_video fadd self []
  = (Err (RuntimeError "torch.cat(): expected a non-empty list of Tensors"), []).
Proof. reflexivity. Qed.

End ModelFacts.

(* ================================================================== *)
(** ** Properties of the configuration *)
(* ================================================================== *)

Section ConfigFacts.

Local Open Scope string_scope.

Variable VisionConfig : Type.
Variable vision_to_dict : VisionConfig -> gmap string (value VisionConfig).
Variable default_vision_config : VisionConfig.
Variable from_pretrained : value VisionConfig -> result VisionConfig.
Variable super_init :
  gmap string (value VisionConfig) -> gmap string (value VisionConfig).

(** Every instance the constructor returns holds a vision configuration
    object in its [vision_config] attribute. *)
Lemma config_init_vision_config (cls : config_class)
    (kwargs : gmap string (value VisionConfig))
    (self : config_instance VisionConfig) :
  config_init default_vision_config from_pretrained super_init cls kwargs
  = Ok self ->
  class_of self = cls
  /\ exists vc, dict_of self !! "vision_config" = Some (VVisionConfig vc).
Proof.
  unfold config_init, set_vision_configs. cbn [dict_of class_of].
  destruct (super_init kwargs !! "vision_model_name") as [name|].
  - destruct (super_init kwargs !! "num_image_with_embedding") as [n|];
      [|discriminate].
    destruct (from_pretrained name) as [vc|e]; cbn [rbind]; [|discriminate].
    intros Hself. injection Hself as <-. cbn [dict_of class_of].
    split; [reflexivity|]. exists vc. apply lookup_insert_eq.
  - intros Hself. injection Hself as <-. cbn [dict_of class_of].
    split; [reflexivity|]. exists default_vision_config.
    rewrite lookup_insert_ne by discriminate. apply lookup_insert_eq.
Qed.

(** C8.  Serialising a configuration instance whose [vision_config]
    attribute holds a vision configuration yields a dictionary in which
    [vision_config] is the dictionary form of that vision configuration (not
    the object), [model_type] is the [model_type] of the instance's own
    class, and every other attribute is copied unchanged. *)
Theorem C8_to_dict_nested_vision_and_model_type
    (self : config_instance VisionConfig) (vc : VisionConfig) :
  dict_of self !! "vision_config" = Some (VVisionConfig vc) ->
  exists output,
    to_dict vision_to_dict self = Ok output
    /\ output !! "vision_config" = Some (VDict (vision_to_dict vc))
    /\ output !! "vision_config" <> Some (VVisionConfig vc)
    /\ output !! "model_type" = Some (VStr (model_type (class_of self)))
    /\ forall k, k <> "vision_config" -> k <> "model_type" ->
         output !! k = dict_of self !! k.
Proof.
  intros Hvc. unfold to_dict, deepcopy. rewrite Hvc.
  eexists. split; [reflexivity|].
  assert (Hlook :
    <["model_type" := VStr (model_type (class_of self))]>
      (<["vision_config" := VDict (vision_to_dict vc)]> (dict_of self))
      !! "vision_config" = Some (VDict (vision_to_dict vc))).
  { rewrite lookup_insert_ne by discriminate. apply lookup_insert_eq. }
  split; [exact Hlook|]. split; [rewrite Hlook; discriminate|]. split.
  - apply lookup_insert_eq.
  - intros k Hk1 Hk2.
    rewrite lookup_insert_ne by congruence.
    rewrite lookup_insert_ne by congruence. reflexivity.
Qed.

End ConfigFacts.

(* ================================================================== *)
(** ** The theorems at concrete inputs *)
(* ================================================================== *)

Lemma C5_witness :
  exists out logits,
    outcome (Toy.run_causal_lm ToyLM.causal_lm ToyLM.training_call) = Ok out
    /\ returned_logits out = Some logits
    /\ (bsz3 logits = 1 /\ len3 logits = 3 + 5 /\ hid3 logits = 8)
    /\ (exists loss,
          ToyLM.loss
            [[400; 401; 402; 403; 404; 405; 406; 407];
             [600; 601; 602; 603; 604; 605; 606; 607];
             [800; 801; 802; 803; 804; 805; 806; 807];
             [1000; 1001; 1002; 1003; 1004; 1005; 1006; 1007]]%Z
            [2; 3; 4; 5]%Z = Ok loss
          /\ returned_loss out = Some loss)
    /\ returned_loss out = Some 2814%Z.
Proof.
  assert (Hrun : exists out logits,
            outcome (Toy.run_causal_lm ToyLM.causal_lm ToyLM.training_call)
            = Ok out
            /\ returned_logits out = Some logits
            /\ bsz3 logits = 1 /\ len3 logits = 3 + 5 /\ hid3 logits = 8
            /\ map (fun i => map (fun v => at3 logits 0 i v) (seq 0 8))
                 [3; 4; 5; 6]
               = [[400; 401; 402; 403; 404; 405; 406; 407];
                  [600; 601; 602; 603; 604; 605; 606; 607];
                  [800; 801; 802; 803; 804; 805; 806; 807];
                  [1000; 1001; 1002; 1003; 1004; 1005; 1006; 1007]]%Z
            /\ returned_loss out = Some 2814%Z)
    by (vm_compute; do 2 eexists; repeat split; reflexivity).
  destruct Hrun as (out & logits & Hout & Hlog & HB & HL & HH & Hrows & Hloss).
  exists out, logits.
  split; [exact Hout|]. split; [exact Hlog|]. split; [auto|].
  split; [|exact Hloss].
  rewrite <- Hrows.
  exact (proj1 (C5_loss_alignment Z Z.add 0%Z Toy.image nat (fun n => n)
                  unit unit (fun _ => 3) (fun _ m => m) Z ToyLM.causal_lm
                  ToyLM.training_call (Toy.tokens 5) out logits 8
                  eq_refl eq_refl ltac:(lia) eq_refl eq_refl eq_refl
                  Hout Hlog HB HL HH)).
Defined.

Lemma C6_witness :
  exists out,
    outcome (encode_video Z.add (Toy.git_model (Some Toy.offsets) 8)
               [(4, 0%Z); (4, 0%Z)]) = Ok out
    /\ has_shape out 1 (4 * 2) 2
    /\ (forall f frame o b p h,
          nth_error [(4, 0%Z); (4, 0%Z)] f = Some frame ->
          nth_error Toy.offsets f = Some o ->
          b < 1 -> p < 4 ->
          at3 out b (f * 4 + p) h
          = (at3 (Toy.encoder frame) b p h + at3 o 0 0 h)%Z)
    /\ (forall b p h, b < 1 -> p < 4 ->
          (at3 out b (4 + p) h - at3 out b p h
           = (200 + 2 * Z.of_nat h) - (100 + Z.of_nat h))%Z).
Proof.
  destruct (C6_temporal_embedder Z Z.add Toy.image nat unit unit
              (Toy.git_model (Some Toy.offsets) 8) [(4, 0%Z); (4, 0%Z)]
              Toy.offsets 1 4 2)
    as (out & Hout & Hshape & Hblock & _ & Hdelta).
  - discriminate.
  - reflexivity.
  - reflexivity.
  - repeat constructor.
  - repeat constructor.
  - exists out. split; [exact Hout|]. split; [exact Hshape|].
    split; [exact Hblock|].
    intros b p h Hb Hp.
    exact (Hdelta Z.sub (fun x a b => ltac:(lia)) (4, 0%Z) (4, 0%Z) _ _ b p h
             eq_refl eq_refl eq_refl eq_refl Hb Hp eq_refl).
Defined.

(** C6 as stated fails in two ways.  At zero frames with zero offsets the
    list of offsets matches the list of frames and every frame's features
    have the required shape, yet no tensor of shape [[1, 4 * 0, 2]] (nor any
    other) is returned.  And in single precision, with two frames whose base
    features are identical (16777216.0) and the offsets 0.0 and 1.0, the
    embedder returns [[1, 8, 1]] features whose frame-1 block minus frame-0
    block is 0.0, while offset 1 minus offset 0 is 1.0: the sum
    16777216.0 + 1.0 rounds to 16777216.0. *)
Lemma C6_counterexample :
  (let self := Toy.git_model (Some []) 0 in
   let frames : list Toy.image := [] in
   img_temporal_embedding self = Some []
   /\ length (@nil (T3 Z)) = length frames
   /\ Forall (fun frame => has_shape (image_encoder self frame) 1 4 2) frames
   /\ ~ (exists out, outcome (encode_video Z.add self frames) = Ok out))
  /\ (let self := Float32.video_model in
      let frames := [0; 1] in
      img_temporal_embedding self = Some Float32.offsets
      /\ length Float32.offsets = length frames
      /\ Forall (fun frame => has_shape (image_encoder self frame) 1 4 1) frames
      /\ Forall (fun o => has_shape o 1 1 1) Float32.offsets
      /\ (forall b p h,
            at3 (image_encoder self 1) b p h = at3 (image_encoder self 0) b p h)
      /\ exists out o0 o1,
           outcome (encode_video Float32.add self frames) = Ok out
           /\ has_shape out 1 (4 * 2) 1
           /\ nth_error Float32.offsets 0 = Some o0
           /\ nth_error Float32.offsets 1 = Some o1
           /\ forall p, p < 4 ->
                Float32.sub (at3 out 0 (4 + p) 0) (at3 out 0 p 0) = Float32.zero
                /\ Float32.sub (at3 o1 0 0 0) (at3 o0 0 0 0) = Float32.one
                /\ Float32.sub (at3 out 0 (4 + p) 0) (at3 out 0 p 0)
                   <> Float32.sub (at3 o1 0 0 0) (at3 o0 0 0 0)).
Proof.
  split.
  - cbv zeta. split; [reflexivity|]. split; [reflexivity|].
    split; [constructor|]. intros [out Hout]. discriminate Hout.
  - cbv zeta. split; [reflexivity|]. split; [reflexivity|].
    split; [repeat constructor|]. split; [repeat constructor|].
    split; [reflexivity|].
    eexists. eexists. eexists.
    split; [vm_compute; reflexivity|].
    split; [repeat split|]. split; [reflexivity|]. split; [reflexivity|].
    intros p Hp.
    destruct p as [|[|[|[|p]]]]; [| | | |lia];
      (split; [vm_compute; reflexivity|]);
      (split; [vm_compute; reflexivity|]);
      vm_compute; discriminate.
Qed.

Lemma C7_witness :
  exists msg,
    Toy.run_model (Toy.git_model None 3)
      {| input_ids := Some (Toy.tokens 2); past_key_values := None;
         attention_mask := None; token_type_ids := None; position_ids := None;
         pixel_values := Some (Rank4 (3, 0%Z)); head_mask := None;
         inputs_embeds := Some (Toy.embed (Toy.tokens 2));
         encoder_hidden_states := None; encoder_attention_mask := None;
         use_cache := None; output_attentions := None;
         output_hidden_states := None; return_dict := None |}
    = (Err (ValueError msg), [])
    /\ outcome (Toy.run_model (Toy.git_model None 3)
                  {| input_ids := Some (Toy.tokens 2); past_key_values := None;
                     attention_mask := None; token_type_ids := None;
                     position_ids := None;
                     pixel_values := Some (Rank4 (3, 0%Z)); head_mask := None;
                     inputs_embeds := Some (Toy.embed (Toy.tokens 2));
                     encoder_hidden_states := None;
                     encoder_attention_mask := None;
                     use_cache := None; output_attentions := None;
                     output_hidden_states := None; return_dict := None |})
       = Err (ValueError msg)
    /\ trace (Toy.run_model (Toy.git_model None 3)
                {| input_ids := Some (Toy.tokens 2); past_key_values := None;
                   attention_mask := None; token_type_ids := None;
                   position_ids := None;
                   pixel_values := Some (Rank4 (3, 0%Z)); head_mask := None;
                   inputs_embeds := Some (Toy.embed (Toy.tokens 2));
                   encoder_hidden_states := None;
                   encoder_attention_mask := None;
                   use_cache := None; output_attentions := None;
                   output_hidden_states := None; return_dict := None |})
       = [].
Proof.
  apply (C7_ill_specified_inputs_rejected Z Z.add 0%Z Toy.image nat
           (fun n => n) unit unit (fun _ => 3) (fun _ m => m) Z).
  left. split; discriminate.
Defined.

Lemma C8_witness :
  exists output,
    to_dict Toy.vision_dict Toy.config_object = Ok output
    /\ output !! "vision_config"%string = Some (VDict (Toy.vision_dict 768))
    /\ output !! "vision_config"%string <> Some (VVisionConfig 768%Z)
    /\ output !! "model_type"%string = Some (VStr "git_llama")
    /\ forall k, k <> "vision_config"%string -> k <> "model_type"%string ->
         output !! k = dict_of Toy.config_object !! k.
Proof.
  apply (C8_to_dict_nested_vision_and_model_type Z Toy.vision_dict
           Toy.config_object 768%Z).
  vm_compute. reflexivity.
Defined.

Lemma C9_witness :
  (forall inputs_embeds : T3 Z, 0 < bsz3 inputs_embeds ->
     exists blk,
       bind (encode_visual Z.add (Toy.git_model None 3)
               (Some (Rank4 (3, 0%Z))) (Some [7; 7]))
         (visual_block 0%Z inputs_embeds) = ret blk
       /\ len3 blk = 0)
  /\ Toy.run_causal_lm (Toy.causal_lm None 3)
       (with_pixel_values
          (Toy.lm_call (Some (Toy.tokens 1)) None None (Some [7; 7])
             (Some true) None)
          (Some (Rank4 (3, 0%Z))))
     = Toy.run_causal_lm (Toy.causal_lm None 3)
         (with_pixel_values
            (Toy.lm_call (Some (Toy.tokens 1)) None None (Some [7; 7])
               (Some true) None)
            None).
Proof.
  apply (C9_pixel_values_ignored_with_cache Z Z.add 0%Z Toy.image nat
           (fun n => n) unit unit (fun _ => 3) (fun _ m => m) Z
           (Toy.causal_lm None 3)
           (Toy.lm_call (Some (Toy.tokens 1)) None None (Some [7; 7])
              (Some true) None)
           [7; 7] (Some (Rank4 (3, 0%Z))) None).
  reflexivity.
Defined.

Lemma C10_witness :
  exists out,
    outcome (Toy.run_causal_lm (Toy.causal_lm None 3)
               (Toy.lm_call (Some (Toy.tokens 5)) (Some (Rank4 (3, 0%Z)))
                  (Some (Toy.tokens 5)) None (Some true) None)) = Ok out
    /\ returned_cache out = None.
Proof.
  assert (Hrun : exists out,
            outcome (Toy.run_causal_lm (Toy.causal_lm None 3)
                       (Toy.lm_call (Some (Toy.tokens 5))
                          (Some (Rank4 (3, 0%Z))) (Some (Toy.tokens 5)) None
                          (Some true) None)) = Ok out)
    by (vm_compute; eexists; reflexivity).
  destruct Hrun as [out Hout]. exists out. split; [exact Hout|].
  exact (C10_labels_disable_cache Z Z.add 0%Z Toy.image nat (fun n => n) unit
           unit (fun _ => 3) (fun _ m => m) Z (Toy.causal_lm None 3)
           (Toy.lm_call (Some (Toy.tokens 5)) (Some (Rank4 (3, 0%Z)))
              (Some (Toy.tokens 5)) None (Some true) None)
           (Toy.tokens 5) out eq_refl Hout).
Defined.

(** The same call without labels does return the cache it was asked for. *)
Example cache_returned_without_labels :
  exists out,
    outcome (Toy.run_causal_lm (Toy.causal_lm None 3)
               (Toy.lm_call (Some (Toy.tokens 5)) (Some (Rank4 (3, 0%Z)))
                  None None (Some true) None)) = Ok out
    /\ returned_cache out = Some [8; 8].
Proof. vm_compute. eexists. split; reflexivity. Qed.

(** On a first call (no cache) the image does reach the logits: three more
    positions than without it. *)
Example pixel_values_used_on_first_call :
  exists o o',
    outcome (Toy.run_causal_lm (Toy.causal_lm None 3)
               (Toy.lm_call (Some (Toy.tokens 5)) (Some (Rank4 (3, 0%Z)))
                  None None None None)) = Ok (LMDict o)
    /\ outcome (Toy.run_causal_lm (Toy.causal_lm None 3)
                  (Toy.lm_call (Some (Toy.tokens 5)) None None None None None))
       = Ok (LMDict o')
    /\ len3 (lm_logits o) = 3 + 5 /\ len3 (lm_logits o') = 5.
Proof. vm_compute. do 2 eexists. repeat split; reflexivity. Qed.

(** A two-frame video of four patches per frame: eight visual positions,
    and the second frame's block exceeds the first by the offsets'
    difference. *)
Example two_frames_of_four_patches :
  exists out,
    outcome (encode_video Z.add (Toy.git_model (Some Toy.offsets) 8)
               [(4, 0%Z); (4, 0%Z)]) = Ok out
    /\ len3 out = 8
    /\ map (fun p => map (fun h => (at3 out 0 (4 + p) h - at3 out 0 p h)%Z)
                        (seq 0 2)) (seq 0 4)
       = repeat [100; 101]%Z 4.
Proof. vm_compute. eexists. repeat split; reflexivity. Qed.

(* ================================================================== *)
(** ** Reordering the cache during beam search *)
(* ================================================================== *)

Lemma index_select_ok {Row : Type} (t : past_state Row) (index : list Z) :
  in_range (length t) index ->
  exists r, index_select t index = Ok r /\ selects index t r.
Proof.
  induction index as [|i rest IH]; intros Hin.
  - exists []. split; [reflexivity|]. split; [reflexivity|].
    intros k i Hk. destruct k; discriminate.
  - inversion Hin as [|i' rest' Hi Hrest]; subst.
    destruct (IH Hrest) as (r & Hr & Hlen & Hsel).
    cbn [index_select].
    rewrite (proj2 (Z.ltb_ge i 0)) by lia.
    destruct (nth_error t (Z.to_nat i)) as [x|] eqn:Hx;
      [| apply nth_error_None in Hx; lia ].
    rewrite Hr. cbn [rbind]. eexists. split; [reflexivity|]. split.
    + cbn. lia.
    + intros k j Hk. destruct k as [|k]; cbn in Hk |- *.
      * injection Hk as <-. symmetry. exact Hx.
      * apply Hsel. exact Hk.
Qed.

Lemma index_select_error_kind {Row : Type} (t : past_state Row) (index : list Z) (e : error) :
  index_select t index = Err e -> e = IndexError.
Proof.
  revert e. induction index as [|i rest IH]; intros e; cbn [index_select].
  - discriminate.
  - destruct (i <? 0)%Z; [congruence|].
    destruct (nth_error t (Z.to_nat i)) as [x|]; [|congruence].
    destruct (index_select t rest) as [r|e'] eqn:Hr; cbn [rbind]; [discriminate|].
    intros H. injection H as <-. apply IH. reflexivity.
Qed.

Lemma selects_unique {Row : Type} (index : list Z) (s r r' : past_state Row) :
  selects index s r -> selects index s r' -> r = r'.
Proof.
  intros [Hl Hs] [Hl' Hs'].
  apply nth_error_ext. intros k.
  destruct (nth_error index k) as [i|] eqn:Hk.
  - rewrite (Hs k i Hk), (Hs' k i Hk). reflexivity.
  - apply nth_error_None in Hk.
    rewrite (proj2 (nth_error_None r k)) by lia.
    rewrite (proj2 (nth_error_None r' k)) by lia. reflexivity.
Qed.

Lemma reorder_layer_ok {Row : Type} (layer : list (past_state Row)) (index : list Z) :
  Forall (fun s => in_range (length s) index) layer ->
  exists l, reorder_layer layer index = Ok l /\ Forall2 (selects index) layer l.
Proof.
  induction layer as [|s rest IH]; intros Hall.
  - exists []. split; [reflexivity|constructor].
  - inversion Hall as [|s' rest' Hs Hrest]; subst.
    destruct (index_select_ok s index Hs) as (r & Hr & Hsel).
    destruct (IH Hrest) as (l & Hl & Hf).
    cbn [reorder_layer]. rewrite Hr, Hl. cbn [rbind].
    eexists. split; [reflexivity|]. constructor; assumption.
Qed.

Lemma reorder_cache_ok {Row : Type} (pkv : list (list (past_state Row))) (index : list Z) :
  Forall (Forall (fun s => in_range (length s) index)) pkv ->
  exists out,
    _reorder_cache pkv index = Ok out
    /\ Forall2 (Forall2 (selects index)) pkv out.
Proof.
  induction pkv as [|layer rest IH]; intros Hall.
  - exists []. split; [reflexivity|constructor].
  - inversion Hall as [|l' rest' Hl Hrest]; subst.
    destruct (reorder_layer_ok layer index Hl) as (l & Hlr & Hf).
    destruct (IH Hrest) as (out & Hout & Hf2).
    cbn [_reorder_cache]. rewrite Hlr, Hout. cbn [rbind].
    eexists. split; [reflexivity|]. constructor; assumption.
Qed.

Lemma index_select_in_range {Row : Type} (t r : past_state Row) (index : list Z) :
  index_select t index = Ok r -> in_range (length t) index.
Proof.
  revert r. induction index as [|i rest IH]; intros r; cbn [index_select].
  - intros _. constructor.
  - destruct (Z.ltb_spec i 0) as [Hneg|Hpos]; [discriminate|].
    destruct (nth_error t (Z.to_nat i)) as [x|] eqn:Hx; [|discriminate].
    destruct (index_select t rest) as [r'|e] eqn:Hr; cbn [rbind]; [|discriminate].
    intros _. constructor; [|eapply IH; reflexivity].
    assert (Z.to_nat i < length t) by (apply nth_error_Some; congruence). lia.
Qed.

Lemma selects_arange {Row : Type} (s : past_state Row) : selects (arange (length s)) s s.
Proof.
  split.
  - unfold arange. rewrite length_map, length_seq. reflexivity.
  - intros k i Hk. unfold arange in Hk.
    rewrite nth_error_map in Hk.
    destruct (nth_error (seq 0 (length s)) k) as [j|] eqn:Hj; [|discriminate].
    injection Hk as <-.
    assert (Hlt : k < length (seq 0 (length s)))
      by (apply nth_error_Some; congruence).
    rewrite length_seq in Hlt.
    rewrite nth_error_nth' with (d := 0) in Hj by (rewrite length_seq; exact Hlt).
    rewrite seq_nth in Hj by exact Hlt. injection Hj as <-.
    cbn. rewrite Nat2Z.id. reflexivity.
Qed.

Lemma in_range_arange (n : nat) : in_range n (arange n).
Proof.
  unfold in_range, arange. apply List.Forall_forall. intros i Hi.
  apply in_map_iff in Hi. destruct Hi as (k & <- & Hk).
  apply in_seq in Hk. lia.
Qed.

Lemma index_select_arange {Row : Type} (s : past_state Row) :
  index_select s (arange (length s)) = Ok s.
Proof.
  destruct (index_select_ok s (arange (length s)) (in_range_arange _))
    as (r & Hr & Hsel).
  rewrite Hr. f_equal. eapply selects_unique; [exact Hsel|apply selects_arange].
Qed.

(** Selecting by [b] what was selected by [a] selects by [a] read at [b]. *)
Lemma index_select_compose {Row : Type} (s s1 : past_state Row) (a b c : list Z) :
  index_select s a = Ok s1 ->
  index_select a b = Ok c ->
  index_select s1 b = index_select s c.
Proof.
  intros Hs1 Hc.
  pose proof (index_select_in_range _ _ _ Hs1) as Ha.
  pose proof (index_select_in_range _ _ _ Hc) as Hb.
  destruct (index_select_ok s a Ha) as (s1' & Hs1' & Hl1 & Hsel1).
  rewrite Hs1 in Hs1'. injection Hs1' as <-.
  destruct (index_select_ok a b Hb) as (c' & Hc' & Hlc & Hselc).
  rewrite Hc in Hc'. injection Hc' as <-.
  assert (Hb1 : in_range (length s1) b) by (rewrite Hl1; exact Hb).
  destruct (index_select_ok s1 b Hb1) as (r & Hr & Hlr & Hselr).
  assert (Hcr : in_range (length s) c).
  { unfold in_range. apply List.Forall_forall. intros j Hj.
    apply In_nth_error in Hj. destruct Hj as [k Hk].
    assert (Hkb : k < length b)
      by (rewrite <- Hlc; apply nth_error_Some; congruence).
    destruct (nth_error b k) as [i|] eqn:Hi;
      [| apply nth_error_None in Hi; lia ].
    rewrite (Hselc k i Hi) in Hk.
    unfold in_range in Ha. rewrite List.Forall_forall in Ha.
    apply Ha. eapply nth_error_In. exact Hk. }
  destruct (index_select_ok s c Hcr) as (r' & Hr' & Hlr' & Hselr').
  rewrite Hr, Hr'. f_equal. apply nth_error_ext. intros k.
  destruct (nth_error b k) as [i|] eqn:Hi.
  - rewrite (Hselr k i Hi).
    assert (Hirange : (0 <= i < Z.of_nat (length a))%Z).
    { unfold in_range in Hb. rewrite List.Forall_forall in Hb.
      apply Hb. eapply nth_error_In. exact Hi. }
    destruct (nth_error a (Z.to_nat i)) as [j|] eqn:Hj;
      [| apply nth_error_None in Hj; lia ].
    rewrite (Hsel1 (Z.to_nat i) j Hj).
    assert (Hck : nth_error c k = Some j) by (rewrite (Hselc k i Hi); exact Hj).
    rewrite (Hselr' k j Hck). reflexivity.
  - apply nth_error_None in Hi.
    rewrite (proj2 (nth_error_None r k)) by lia.
    rewrite (proj2 (nth_error_None r' k)) by lia. reflexivity.
Qed.

Lemma reorder_layer_compose {Row : Type} (layer l1 : list (past_state Row)) (a b c : list Z) :
  reorder_layer layer a = Ok l1 ->
  index_select a b = Ok c ->
  reorder_layer l1 b = reorder_layer layer c.
Proof.
  revert l1. induction layer as [|s rest IH]; intros l1 Hl1 Hc;
    cbn [reorder_layer] in *.
  - injection Hl1 as <-. reflexivity.
  - destruct (index_select s a) as [s1|e] eqn:Hs; cbn [rbind] in Hl1;
      [|discriminate].
    destruct (reorder_layer rest a) as [r1|e] eqn:Hr; cbn [rbind] in Hl1;
      [|discriminate].
    injection Hl1 as <-. cbn [reorder_layer].
    rewrite (index_select_compose s s1 a b c Hs Hc).
    rewrite (IH r1 eq_refl Hc). reflexivity.
Qed.

Lemma reorder_layer_in_range {Row : Type} (layer l : list (past_state Row)) (index : list Z) :
  reorder_layer layer index = Ok l ->
  Forall (fun s => in_range (length s) index) layer.
Proof.
  revert l. induction layer as [|s rest IH]; intros l; cbn [reorder_layer].
  - constructor.
  - destruct (index_select s index) as [s1|e] eqn:Hs; cbn [rbind]; [|discriminate].
    destruct (reorder_layer rest index) as [r1|e] eqn:Hr; cbn [rbind];
      [|discriminate].
    intros _. constructor; [eapply index_select_in_range; exact Hs|].
    eapply IH. reflexivity.
Qed.

Lemma reorder_layer_error_kind {Row : Type} (layer : list (past_state Row)) (index : list Z)
    (e : error) :
  reorder_layer layer index = Err e -> e = IndexError.
Proof.
  revert e. induction layer as [|s rest IH]; intros e; cbn [reorder_layer].
  - discriminate.
  - destruct (index_select s index) as [s1|e1] eqn:Hs; cbn [rbind].
    + destruct (reorder_layer rest index) as [r1|e2] eqn:Hr; cbn [rbind];
        [discriminate|].
      intros H. injection H as <-. apply IH. reflexivity.
    + intros H. injection H as <-. eapply index_select_error_kind. exact Hs.
Qed.

(** X1.  After beam search reorders the cache by [beam_idx], every layer still
    has its cached tensors, each with one entry per beam, the entry of beam
    [k] being the former entry of beam [beam_idx[k]]. *)
Theorem reorder_cache_selects_beams {Row : Type} (past_key_values : list (list (past_state Row)))
    (beam_idx : list Z) :
  Forall (Forall (fun s => in_range (length s) beam_idx)) past_key_values ->
  exists reordered,
    _reorder_cache past_key_values beam_idx = Ok reordered
    /\ length reordered = length past_key_values
    /\ Forall2 (fun layer layer' => length layer' = length layer)
         past_key_values reordered
    /\ Forall2 (Forall2 (selects beam_idx)) past_key_values reordered.
Proof.
  intros Hall.
  destruct (reorder_cache_ok past_key_values beam_idx Hall) as (out & Hout & Hf).
  exists out. split; [exact Hout|]. split; [|split; [|exact Hf]].
  - symmetry. eapply Forall2_length. exact Hf.
  - eapply Forall2_impl; [exact Hf|]. intros l l' Hl. symmetry.
    eapply Forall2_length. exact Hl.
Qed.

(** X2.  A beam index outside [0, beams) for any cached tensor makes the whole
    reordering raise [IndexError]. *)
Theorem reorder_cache_index_error {Row : Type} (past_key_values : list (list (past_state Row)))
    (beam_idx : list Z) :
  Exists (Exists (fun s => ~ in_range (length s) beam_idx)) past_key_values ->
  _reorder_cache past_key_values beam_idx = Err IndexError.
Proof.
  induction past_key_values as [|layer rest IH]; intros Hex.
  - inversion Hex.
  - cbn [_reorder_cache].
    destruct (reorder_layer layer beam_idx) as [l|e] eqn:Hl; cbn [rbind].
    + pose proof (reorder_layer_in_range _ _ _ Hl) as Hin.
      inversion Hex as [? ? Hbad|? ? Hbad]; subst.
      * exfalso. apply List.Exists_exists in Hbad. destruct Hbad as (s & Hs & Hn).
        rewrite List.Forall_forall in Hin. exact (Hn (Hin s Hs)).
      * rewrite (IH Hbad). reflexivity.
    + rewrite (reorder_layer_error_kind _ _ _ Hl). reflexivity.
Qed.

(** X3.  Reordering by the identity index [0, 1, ..., beams-1] leaves the cache
    as it is. *)
Theorem reorder_cache_identity {Row : Type} (past_key_values : list (list (past_state Row)))
    (beams : nat) :
  Forall (Forall (fun s => length s = beams)) past_key_values ->
  _reorder_cache past_key_values (arange beams) = Ok past_key_values.
Proof.
  induction past_key_values as [|layer rest IH]; intros Hall; [reflexivity|].
  inversion Hall as [|l' rest' Hl Hrest]; subst.
  cbn [_reorder_cache].
  assert (Hlayer : reorder_layer layer (arange beams) = Ok layer).
  { clear -Hl. induction layer as [|s more IHl]; [reflexivity|].
    inversion Hl as [|s' more' Hs Hmore]; subst.
    cbn [reorder_layer]. rewrite index_select_arange, (IHl Hmore).
    reflexivity. }
  rewrite Hlayer, (IH Hrest). reflexivity.
Qed.

Lemma reorder_cache_compose_ok {Row : Type}
    (past_key_values once : list (list (past_state Row))) (a b c : list Z) :
  _reorder_cache past_key_values a = Ok once ->
  index_select a b = Ok c ->
  _reorder_cache once b = _reorder_cache past_key_values c.
Proof.
  revert once. induction past_key_values as [|layer rest IH]; intros once Ha Hc;
    cbn [_reorder_cache] in *.
  - injection Ha as <-. reflexivity.
  - destruct (reorder_layer layer a) as [l1|e] eqn:Hl; cbn [rbind] in Ha;
      [|discriminate].
    destruct (_reorder_cache rest a) as [r1|e] eqn:Hr; cbn [rbind] in Ha;
      [|discriminate].
    injection Ha as <-. cbn [_reorder_cache].
    rewrite (reorder_layer_compose layer l1 a b c Hl Hc).
    rewrite (IH r1 eq_refl Hc). reflexivity.
Qed.

Lemma reorder_cache_in_range {Row : Type}
    (pkv out : list (list (past_state Row))) (index : list Z) :
  _reorder_cache pkv index = Ok out ->
  Forall (Forall (fun s => in_range (length s) index)) pkv.
Proof.
  revert out. induction pkv as [|layer rest IH]; intros out;
    cbn [_reorder_cache].
  - constructor.
  - destruct (reorder_layer layer index) as [l|e] eqn:Hl; cbn [rbind];
      [|discriminate].
    destruct (_reorder_cache rest index) as [r|e] eqn:Hr; cbn [rbind];
      [|discriminate].
    intros _. constructor; [eapply reorder_layer_in_range; exact Hl|].
    eapply IH. reflexivity.
Qed.

Lemma reorder_cache_error_kind {Row : Type}
    (pkv : list (list (past_state Row))) (index : list Z) (e : error) :
  _reorder_cache pkv index = Err e -> e = IndexError.
Proof.
  revert e. induction pkv as [|layer rest IH]; intros e; cbn [_reorder_cache].
  - discriminate.
  - destruct (reorder_layer layer index) as [l|e1] eqn:Hl; cbn [rbind].
    + destruct (_reorder_cache rest index) as [r|e2] eqn:Hr; cbn [rbind];
        [discriminate|].
      intros H. injection H as <-. apply IH. reflexivity.
    + intros H. injection H as <-. eapply reorder_layer_error_kind. exact Hl.
Qed.

Lemma Forall2_In_l {A B} (R : A -> B -> Prop) (l : list A) (l' : list B)
    (x : A) :
  Forall2 R l l' -> In x l -> exists y, In y l' /\ R x y.
Proof.
  intros Hf. induction Hf as [|a b l l' Hab Hrest IH]; intros Hin.
  - destruct Hin.
  - destruct Hin as [<-|Hin].
    + exists b. split; [left; reflexivity|exact Hab].
    + destruct (IH Hin) as (y & Hy & Hxy). exists y. split; [right|]; assumption.
Qed.

(** Every tensor of a cache reordered by [a] has one entry per index of
    [a]. *)
Lemma reordered_tensor_length {Row : Type}
    (pkv once : list (list (past_state Row))) (a : list Z)
    (layer : list (past_state Row)) (s : past_state Row) :
  _reorder_cache pkv a = Ok once ->
  In layer pkv -> In s layer ->
  exists layer' s', In layer' once /\ In s' layer' /\ length s' = length a.
Proof.
  intros Ha Hlayer Hs.
  destruct (reorder_cache_ok pkv a (reorder_cache_in_range _ _ _ Ha))
    as (once' & Ha' & Hf).
  rewrite Ha in Ha'. injection Ha' as <-.
  destruct (Forall2_In_l _ _ _ _ Hf Hlayer) as (layer' & Hl' & Hf').
  destruct (Forall2_In_l _ _ _ _ Hf' Hs) as (s' & Hs' & Hlen & _).
  exists layer', s'. auto.
Qed.

(** X4.  Once a first reordering by [a] has succeeded: when
    [a.index_select(0, b)] succeeds with [c], reordering the result by [b]
    succeeds too and gives the cache that one reordering of the original by
    [c] gives; when [a.index_select(0, b)] raises, it raises [IndexError], and
    so does reordering the result by [b], provided the cache holds at least
    one tensor. *)
Theorem reorder_cache_compose {Row : Type}
    (past_key_values once : list (list (past_state Row))) (a b : list Z) :
  _reorder_cache past_key_values a = Ok once ->
  (forall c, index_select a b = Ok c ->
     exists twice,
       _reorder_cache once b = Ok twice
       /\ _reorder_cache past_key_values c = Ok twice)
  /\ (forall e, index_select a b = Err e ->
        e = IndexError
        /\ ((exists layer s, In layer past_key_values /\ In s layer) ->
            _reorder_cache once b = Err IndexError)).
Proof.
  intros Ha. split.
  - intros c Hc.
    pose proof (index_select_in_range _ _ _ Hc) as Hb.
    assert (Hall : Forall (Forall (fun s => in_range (length s) b)) once).
    { destruct (reorder_cache_ok past_key_values a
                  (reorder_cache_in_range _ _ _ Ha)) as (once' & Ha' & Hf).
      rewrite Ha in Ha'. injection Ha' as <-.
      apply List.Forall_forall. intros layer' Hl'.
      apply List.Forall_forall. intros s' Hs'.
      apply List.Forall2_flip in Hf.
      destruct (Forall2_In_l _ _ _ _ Hf Hl') as (layer & _ & Hf').
      apply List.Forall2_flip in Hf'.
      destruct (Forall2_In_l _ _ _ _ Hf' Hs') as (s & _ & Hlen & _).
      rewrite Hlen. exact Hb. }
    destruct (reorder_cache_ok once b Hall) as (twice & Htwice & _).
    exists twice. split; [exact Htwice|].
    rewrite <- (reorder_cache_compose_ok past_key_values once a b c Ha Hc).
    exact Htwice.
  - intros e He. split; [eapply index_select_error_kind; exact He|].
    intros (layer & s & Hlayer & Hs).
    destruct (reordered_tensor_length _ _ _ _ _ Ha Hlayer Hs)
      as (layer' & s' & Hl' & Hs' & Hlen).
    destruct (_reorder_cache once b) as [twice|e'] eqn:Hb.
    + exfalso.
      pose proof (reorder_cache_in_range _ _ _ Hb) as Hall.
      rewrite List.Forall_forall in Hall. specialize (Hall layer' Hl').
      rewrite List.Forall_forall in Hall. specialize (Hall s' Hs').
      rewrite Hlen in Hall.
      destruct (index_select_ok a b Hall) as (c & Hc & _). congruence.
    + rewrite (reorder_cache_error_kind _ _ _ Hb). reflexivity.
Qed.

(* ================================================================== *)
(** ** Calls that raise, and what a call logs *)
(* ================================================================== *)

Lemma fails_bind_l {A B} (m : Eff A) (k : A -> Eff B) :
  fails m -> fails (bind m k).
Proof.
  intros [e He]. exists e. unfold outcome, bind in *.
  destruct m as [[a|e'] l]; cbn in *; [discriminate|]. congruence.
Qed.

Lemma fails_bind_r {A B} (m : Eff A) (k : A -> Eff B) :
  (forall a, fails (k a)) -> fails (bind m k).
Proof.
  intros Hk. unfold fails, outcome, bind in *.
  destruct m as [[a|e] l]; cbn; [|eauto].
  destruct (Hk a) as [e He]. destruct (k a) as [r l']. cbn in *. eauto.
Qed.

Lemma logs_only_bind {A B} (P : event -> bool) (m : Eff A) (k : A -> Eff B) :
  logs_only P m -> (forall a, logs_only P (k a)) -> logs_only P (bind m k).
Proof.
  unfold logs_only, trace, bind. intros Hm Hk.
  destruct m as [[a|e] l]; cbn in *; [|exact Hm].
  specialize (Hk a). destruct (k a) as [r l']. cbn in *.
  apply Forall_app. split; assumption.
Qed.

Lemma logs_only_nil {A} (P : event -> bool) (r : result A) :
  logs_only P (r, []).
Proof. constructor. Qed.

Lemma logs_only_call {A} (P : event -> bool) (ev : event) (a : A) :
  P ev = true -> logs_only P (call ev a).
Proof. intros H. constructor; [exact H|constructor]. Qed.

(** One step of a proof that a computation logs only events of a kind:
    split a bind, close a primitive, or case on what the code cases on. *)
Ltac logs_step :=
  first
    [ apply logs_only_nil
    | apply logs_only_call; reflexivity
    | apply logs_only_bind; [|intros ?]
    | match goal with
      | |- logs_only _ (let '(_, _) := ?x in _) => destruct x
      | |- logs_only _ (match ?x with _ => _ end) => destruct x
      end ].

(* ================================================================== *)
(** ** Error and edge behaviour of the forward pass *)
(* ================================================================== *)

Section ForwardFacts.

Variable F : Type.
Variable fadd : F -> F -> F.
Variable fzero : F.
Variable Img : Type.
Variable Aux : Type.
Variable kv_len : Aux -> nat.
Variable HM : Type.
Variable EM : Type.
Variable em_dim : EM -> nat.
Variable em_bool_unsqueeze : nat -> EM -> EM.
Variable L : Type.

Local Abbreviation Model := (GitGPTBigCodeModel F Img Aux HM EM).
Local Abbreviation CausalLM := (GitGPTBigCodeForCausalLM F Img Aux HM EM L).
Local Abbreviation Inputs := (model_inputs F Img Aux HM EM).
Local Abbreviation model_forward :=
  (forward fadd fzero kv_len em_dim em_bool_unsqueeze L).
Local Abbreviation causal_lm_forward :=
  (lm_forward fadd fzero kv_len em_dim em_bool_unsqueeze).

(** X5.  On a first call (no cache), [pixel_values] of a rank other than 4
    or 5 make the call raise, whatever the other arguments are; when the
    call passes embeddings of a non-empty batch and neither token types nor
    position ids, the exception is the [ValueError] of line 281, raised
    before any collaborator has been invoked. *)
Theorem forward_rejects_pixel_rank (self : Model) (args : Inputs) (ndim : nat) :
  pixel_values args = Some (OtherRank Img ndim) ->
  past_key_values args = None ->
  fails (model_forward self args)
  /\ (forall e,
        input_ids args = None -> inputs_embeds args = Some e ->
        0 < bsz3 e ->
        token_type_ids args = None -> position_ids args = None ->
        model_forward self args
        = (Err (ValueError "pixel_values must be of rank 4 or 5"), [])).
Proof.
  intros Hpv Hpast. split.
  - unfold forward. rewrite Hpv, Hpast.
    apply fails_bind_r; intros [[ids input_shape] batch_size].
    do 4 (apply fails_bind_r; intros ?).
    apply fails_bind_l. eexists. reflexivity.
  - intros e Hids Hemb HB Htt Hpos.
    unfold forward. rewrite Hpv, Hpast, Hids, Hemb, Htt, Hpos.
    destruct (bsz3 e) as [|n]; [lia|]. reflexivity.
Qed.

(** X6.  A cache given as an empty list makes the call raise (reading
    [past_key_values[0]]); with embeddings of a non-empty batch and neither
    token types nor position ids the exception is [IndexError], raised
    before any collaborator has been invoked. *)
Theorem forward_rejects_empty_cache (self : Model) (args : Inputs) :
  past_key_values args = Some [] ->
  fails (model_forward self args)
  /\ (forall e,
        input_ids args = None -> inputs_embeds args = Some e ->
        0 < bsz3 e ->
        token_type_ids args = None -> position_ids args = None ->
        model_forward self args = (Err IndexError, [])).
Proof.
  intros Hpast. split.
  - unfold forward. rewrite Hpast.
    apply fails_bind_r; intros [[ids input_shape] batch_size].
    do 3 (apply fails_bind_r; intros ?).
    apply fails_bind_l. eexists. reflexivity.
  - intros e Hids Hemb HB Htt Hpos.
    unfold forward. rewrite Hpast, Hids, Hemb, Htt, Hpos.
    destruct (bsz3 e) as [|n]; [lia|]. reflexivity.
Qed.

(** X7.  An empty batch (embeddings [[0, N, H]], or token ids [[0, N]] with
    [N > 0]) is rejected with [ValueError]: at once for embeddings, after
    the padding check for token ids; no other collaborator is reached. *)
Theorem forward_rejects_empty_batch (self : Model) (args : Inputs) :
  match input_ids args, inputs_embeds args with
  | None, Some e => bsz3 e = 0
  | Some ids, None => rows ids = 0 /\ 0 < cols ids
  | _, _ => False
  end ->
  outcome (model_forward self args)
  = Err (ValueError "batch_size has to be defined and > 0")
  /\ trace (model_forward self args)
     = match input_ids args with
       | Some _ => [EvWarnPadding]
       | None => []
       end.
Proof.
  unfold forward.
  destruct (input_ids args) as [ids|], (inputs_embeds args) as [e|];
    try contradiction.
  - intros [HB HN]. unfold view2. cbn [snd]. rewrite HB.
    rewrite (proj2 (Nat.eqb_neq (cols ids) 0)) by lia.
    cbn [Nat.mul]. rewrite Nat.Div0.mod_0_l, Nat.Div0.div_0_l.
    split; reflexivity.
  - intros HB. rewrite HB. split; reflexivity.
Qed.

(** X8.  With cross-attention configured and encoder states given, an
    encoder attention mask whose rank is not 3 makes the call raise: the
    rank-2 mask that line 321 unsqueezes is rejected too, the unsqueezed
    tensor being dropped. *)
Theorem forward_rejects_encoder_mask_rank (self : Model) (args : Inputs)
    (ehs : T3 F) (em : EM) :
  config_add_cross_attention (config self) = true ->
  encoder_hidden_states args = Some ehs ->
  encoder_attention_mask args = Some em ->
  em_dim em <> 3 ->
  fails (model_forward self args).
Proof.
  intros Hcross Hehs Hem Hdim. unfold forward. rewrite Hcross, Hehs, Hem.
  rewrite (proj2 (Nat.eqb_neq (em_dim em) 3) Hdim).
  apply fails_bind_r; intros [[ids input_shape] batch_size].
  do 6 (apply fails_bind_r; intros ?).
  apply fails_bind_l. eexists. reflexivity.
Qed.

(* ------------------------------------------------------------------ *)
(** *** Which collaborators a call reaches *)
(* ------------------------------------------------------------------ *)

Lemma run_blocks_logs (P : event -> bool) (self : Model)
    (layers : list (Block F Aux HM EM * option Aux)) :
  (forall i, P (EvBlock i) = true) ->
  forall (i : nat) (mask : T4 bool) (head_mask : list (option HM))
         (ehs : option (T3 F)) (eam : option EM) (uc oa ohs : bool)
         (st : loop_state F Aux),
    logs_only P (run_blocks self layers i mask head_mask ehs eam uc oa ohs st).
Proof.
  intros HP.
  induction layers as [|[block layer_past] rest IH];
    intros i msk hmask ehs eam uc oa ohs st; cbn [run_blocks].
  - apply logs_only_nil.
  - apply logs_only_bind; [destruct (nth_error hmask i); apply logs_only_nil|].
    intros head_mask_i.
    apply logs_only_bind; [apply logs_only_call; apply HP|]. intros outputs.
    apply logs_only_bind.
    { destruct uc; [|apply logs_only_nil].
      destruct (block_get outputs 1); apply logs_only_nil. }
    intros presents.
    apply logs_only_bind; [|intros attns; apply IH].
    destruct oa; [|apply logs_only_nil].
    destruct (block_get outputs _); [|apply logs_only_nil].
    destruct (config_add_cross_attention (config self)); [|apply logs_only_nil].
    destruct (block_get outputs _); apply logs_only_nil.
Qed.

Lemma encode_frames_logs (P : event -> bool) (self : Model) (frames : list Img) :
  (forall ev, vision_event ev = true -> P ev = true) ->
  forall idx, logs_only P (encode_frames fadd self frames idx).
Proof.
  intros HP. induction frames as [|frame rest IH]; intros idx; cbn [encode_frames].
  - apply logs_only_nil.
  - apply logs_only_bind; [apply logs_only_call; apply HP; reflexivity|].
    intros x.
    apply logs_only_bind;
      [destruct (img_temporal_embedding self); apply logs_only_nil|].
    intros embeddings.
    apply logs_only_bind;
      [destruct (nth_error embeddings idx); apply logs_only_nil|].
    intros offset.
    apply logs_only_bind; [apply logs_only_nil|]. intros summed.
    apply logs_only_bind; [apply logs_only_call; apply HP; reflexivity|].
    intros y.
    apply logs_only_bind; [apply IH|]. intros others. apply logs_only_nil.
Qed.

Lemma encode_visual_logs (P : event -> bool) (self : Model)
    (pv : option (pixel_tensor Img)) (past : option (list Aux)) :
  (forall ev, vision_event ev = true -> P ev = true) ->
  logs_only P (encode_visual fadd self pv past).
Proof.
  intros HP. unfold encode_visual.
  destruct pv as [pv|]; [|apply logs_only_nil].
  destruct past; [apply logs_only_nil|].
  apply logs_only_bind.
  - destruct pv as [image|frames|n].
    + apply logs_only_call. apply HP. reflexivity.
    + unfold encode_video. apply logs_only_bind;
        [apply encode_frames_logs; exact HP|intros; apply logs_only_nil].
    + apply logs_only_nil.
  - intros visual_features.
    apply logs_only_bind;
      [apply logs_only_call; apply HP; reflexivity|intros; apply logs_only_nil].
Qed.

(** Apart from the vision encoder part, [forward] logs neither vision
    events nor events of the wrapper. *)
Lemma forward_logs (P : event -> bool) (self : Model) (args : Inputs) :
  (forall ev, vision_event ev = false -> wrapper_event ev = false ->
     P ev = true) ->
  logs_only P (encode_visual fadd self (pixel_values args)
                 (past_key_values args)) ->
  logs_only P (model_forward self args).
Proof.
  intros HP Hvis. unfold forward.
  assert (Hcall : forall A (ev : event) (a : A),
            vision_event ev = false -> wrapper_event ev = false ->
            logs_only P (call ev a)).
  { intros. apply logs_only_call. apply HP; assumption. }
  apply logs_only_bind.
  { destruct (input_ids args), (inputs_embeds args); try apply logs_only_nil.
    apply logs_only_bind; [apply Hcall; reflexivity|]. intros w.
    apply logs_only_bind; [apply logs_only_nil|intros; apply logs_only_nil]. }
  intros [[ids input_shape] batch_size].
  apply logs_only_bind; [destruct (batch_size <=? 0); apply logs_only_nil|].
  intros _b.
  apply logs_only_bind.
  { unfold view2_opt. destruct (token_type_ids args); [|apply logs_only_nil].
    apply logs_only_bind; [apply logs_only_nil|intros; apply logs_only_nil]. }
  intros tt_ids.
  apply logs_only_bind.
  { unfold view2_opt. destruct (position_ids args); [|apply logs_only_nil].
    apply logs_only_bind; [apply logs_only_nil|intros; apply logs_only_nil]. }
  intros pos_ids.
  apply logs_only_bind.
  { destruct (past_key_values args) as [[|x l]|]; apply logs_only_nil. }
  intros past_length.
  apply logs_only_bind; [exact Hvis|]. intros pvf.
  apply logs_only_bind.
  { destruct (inputs_embeds args); [apply logs_only_nil|].
    destruct ids; [apply Hcall; reflexivity|apply logs_only_nil]. }
  intros embeds.
  apply logs_only_bind.
  { destruct (encoder_hidden_states args); [|apply logs_only_nil].
    destruct (encoder_attention_mask args); [|apply logs_only_nil].
    destruct (config_add_cross_attention (config self)); [|apply logs_only_nil].
    destruct (em_dim _ =? 3); apply logs_only_nil. }
  intros eam.
  apply logs_only_bind.
  { unfold visual_block. destruct (bsz3 _ =? 0); apply logs_only_nil. }
  intros vis.
  apply logs_only_bind; [apply logs_only_nil|]. intros fused.
  apply logs_only_bind; [apply Hcall; reflexivity|]. intros hidden.
  apply logs_only_bind; [apply logs_only_nil|]. intros pids.
  apply logs_only_bind; [apply Hcall; reflexivity|]. intros pe.
  apply logs_only_bind; [apply logs_only_nil|]. intros hidden1.
  apply logs_only_bind.
  { destruct tt_ids; [|apply logs_only_nil].
    apply logs_only_bind; [apply Hcall; reflexivity|intros; apply logs_only_nil]. }
  intros hidden2.
  apply logs_only_bind; [apply Hcall; reflexivity|]. intros hidden3.
  apply logs_only_bind; [apply Hcall; reflexivity|]. intros _m.
  apply logs_only_bind; [apply logs_only_nil|]. intros mask.
  apply logs_only_bind;
    [apply run_blocks_logs; intros; apply HP; reflexivity|]. intros st.
  apply logs_only_bind; [apply Hcall; reflexivity|]. intros hidden4.
  apply logs_only_bind; [apply logs_only_nil|]. intros hidden5.
  apply logs_only_nil.
Qed.

(** X9.  Without [pixel_values], or with a cache, a call never reaches the
    image encoder, the temporal embeddings or the visual projection,
    whether it returns or raises. *)
Theorem forward_without_image_skips_vision (self : Model) (args : Inputs) :
  pixel_values args = None \/ past_key_values args <> None ->
  logs_only (fun ev => negb (vision_event ev)) (model_forward self args).
Proof.
  intros Hskip. apply forward_logs.
  - intros ev Hv _. rewrite Hv. reflexivity.
  - destruct Hskip as [Hpv|Hpast].
    + rewrite Hpv. apply logs_only_nil.
    + destruct (past_key_values args) as [pkv|]; [|congruence].
      destruct (pixel_values args); apply logs_only_nil.
Qed.

(** X10.  Without labels the wrapper never invokes the loss function,
    whether it returns or raises. *)
Theorem lm_forward_without_labels_skips_loss (self : CausalLM)
    (args : lm_inputs F Img Aux) :
  lm_labels args = None ->
  logs_only (fun ev => negb (loss_event ev)) (causal_lm_forward self args).
Proof.
  intros Hlabels. unfold lm_forward. rewrite Hlabels.
  apply logs_only_bind.
  { apply forward_logs.
    - intros ev _ Hw. destruct ev; try reflexivity; discriminate.
    - apply encode_visual_logs. intros ev Hv.
      destruct ev; try reflexivity; discriminate. }
  intros outputs.
  apply logs_only_bind; [apply logs_only_nil|]. intros sequence_output.
  apply logs_only_bind; [apply logs_only_call; reflexivity|]. intros logits.
  apply logs_only_bind; [apply logs_only_nil|]. intros loss.
  destruct (negb _); [apply logs_only_nil|].
  apply logs_only_bind; [apply logs_only_nil|intros; apply logs_only_nil].
Qed.

(* ------------------------------------------------------------------ *)
(** *** What the layers leave in the result *)
(* ------------------------------------------------------------------ *)

Lemma post_weaken {A} (m : Eff A) (P Q : A -> Prop) :
  post m P -> (forall a, P a -> Q a) -> post m Q.
Proof. unfold post. destruct (outcome m); auto. Qed.

Lemma length_append {A} (acc : option (list A)) (a : A) (n : nat) :
  option_map (@length A) acc = Some n ->
  option_map (@length A) (append acc a) = Some (n + 1).
Proof.
  destruct acc as [l|]; cbn; [|discriminate].
  intros H. injection H as <-. rewrite length_app. reflexivity.
Qed.

(** Each layer adds one cache entry when caching is on and one hidden state
    when hidden states are asked for. *)
Lemma run_blocks_counts (self : Model)
    (layers : list (Block F Aux HM EM * option Aux)) :
  forall (i : nat) (msk : T4 bool) (hmask : list (option HM))
         (ehs : option (T3 F)) (eam : option EM) (uc oa ohs : bool)
         (st : loop_state F Aux),
    post (run_blocks self layers i msk hmask ehs eam uc oa ohs st)
      (fun st' =>
         (uc = true -> forall n,
            option_map (@length _) (ls_presents st) = Some n ->
            option_map (@length _) (ls_presents st')
            = Some (n + length layers))
         /\ (ohs = true -> forall n,
               option_map (@length _) (ls_all_hidden_states st) = Some n ->
               option_map (@length _) (ls_all_hidden_states st')
               = Some (n + length layers))).
Proof.
  induction layers as [|[block layer_past] rest IH];
    intros i msk hmask ehs eam uc oa ohs st; cbn [run_blocks].
  - apply post_ret. split; intros _ n Hn; rewrite Hn, Nat.add_0_r; reflexivity.
  - apply post_bind_any; intros head_mask_i.
    apply post_bind_any; intros outputs.
    apply post_bind with
      (R := fun presents =>
              uc = true -> forall n,
                option_map (@length _) (ls_presents st) = Some n ->
                option_map (@length _) presents = Some (n + 1)).
    { destruct uc.
      - apply post_bind_any; intros p. apply post_ret.
        intros _ n Hn. apply length_append. exact Hn.
      - apply post_ret. discriminate. }
    intros presents Hpresents.
    apply post_bind_any; intros attns.
    eapply post_weaken; [apply IH|].
    cbn [ls_presents ls_all_hidden_states length].
    intros st' [Hc Hh]. split.
    + intros Huc n Hn.
      rewrite (Hc Huc (n + 1) (Hpresents Huc n Hn)). f_equal. lia.
    + intros Hohs n Hn. subst ohs.
      rewrite (Hh eq_refl (n + 1) (length_append _ _ _ Hn)). f_equal. lia.
Qed.

Lemma layers_run_combine (self : Model) (past : option (list Aux)) :
  length (combine (h self)
            match past with
            | None => repeat None (length (h self))
            | Some pkv => map Some pkv
            end)
  = layers_run (h self) past.
Proof.
  rewrite length_combine. destruct past as [pkv|]; cbn [layers_run].
  - rewrite length_map. reflexivity.
  - rewrite repeat_length. lia.
Qed.

Lemma forward_counts (self : Model) (args : Inputs) :
  post (model_forward self args)
    (fun out =>
       (or_default (use_cache args) (config_use_cache (config self)) = true ->
        option_map (@length _) (model_cache out)
        = Some (layers_run (h self) (past_key_values args)))
       /\ (or_default (output_hidden_states args)
             (config_output_hidden_states (config self)) = true ->
           option_map (@length _) (model_hidden_states out)
           = Some (layers_run (h self) (past_key_values args) + 1))).
Proof.
  unfold forward.
  apply post_bind_any; intros [[ids input_shape] batch_size].
  repeat
    match goal with
    | |- post (bind (run_blocks ?s ?l ?i ?m ?hm ?e1 ?e2 ?uc ?oa ?ohs ?st) _) _ =>
        apply post_bind with (R := fun st' =>
          (uc = true -> forall n,
             option_map (@length _) (ls_presents st) = Some n ->
             option_map (@length _) (ls_presents st') = Some (n + length l))
          /\ (ohs = true -> forall n,
                option_map (@length _) (ls_all_hidden_states st) = Some n ->
                option_map (@length _) (ls_all_hidden_states st')
                = Some (n + length l)));
        [ apply run_blocks_counts | intros st' [Hc Hh] ]
    | |- post (bind _ _) _ => apply post_bind_any; intros ?
    end.
  rewrite layers_run_combine in Hc, Hh.
  cbn [ls_presents ls_all_hidden_states] in Hc, Hh.
  apply post_ret. split.
  - intros Huc. rewrite Huc in Hc. specialize (Hc eq_refl 0 eq_refl).
    cbn [Nat.add] in Hc.
    unfold model_result, model_cache.
    destruct (negb _); cbn [out_past_key_values]; [|exact Hc].
    destruct (ls_presents st') as [p|]; [|discriminate]. exact Hc.
  - intros Hohs. rewrite Hohs in Hh |- *. specialize (Hh eq_refl 0 eq_refl).
    cbn [Nat.add] in Hh.
    assert (Hfinal : forall x,
              option_map (@length _) (append (ls_all_hidden_states st') x)
              = Some (layers_run (h self) (past_key_values args) + 1))
      by (intros x; apply length_append; exact Hh).
    unfold model_result, model_hidden_states.
    destruct (negb _); cbn [out_hidden_states]; [|apply Hfinal].
    match goal with
    | |- context [append (ls_all_hidden_states st') ?x] =>
        specialize (Hfinal x);
        destruct (append (ls_all_hidden_states st') x) as [hs|];
        [|discriminate]
    end.
    destruct (ls_presents st'); exact Hfinal.
Qed.

(** X11.  When caching is on (asked for by the caller, or by the
    configuration when the caller leaves it open), every result carries a
    cache with exactly one entry per layer run; the layers run are all of
    [self.h] without a cache given, and as many as the shorter of [self.h]
    and the given cache otherwise. *)
Theorem forward_cache_has_one_entry_per_layer (self : Model) (args : Inputs)
    (out : model_output F Aux L) :
  or_default (use_cache args) (config_use_cache (config self)) = true ->
  outcome (model_forward self args) = Ok out ->
  exists presents,
    model_cache out = Some presents
    /\ length presents = layers_run (h self) (past_key_values args).
Proof.
  intros Huc Hout. pose proof (forward_counts self args) as Hpost.
  unfold post in Hpost. rewrite Hout in Hpost. destruct Hpost as [Hc _].
  specialize (Hc Huc). destruct (model_cache out) as [p|]; [|discriminate].
  exists p. split; [reflexivity|]. injection Hc as Hc. exact Hc.
Qed.

(** X12.  When hidden states are asked for, every result carries one hidden
    state per layer run plus the final one (after [ln_f]). *)
Theorem forward_hidden_states_count (self : Model) (args : Inputs)
    (out : model_output F Aux L) :
  or_default (output_hidden_states args)
    (config_output_hidden_states (config self)) = true ->
  outcome (model_forward self args) = Ok out ->
  exists hs,
    model_hidden_states out = Some hs
    /\ length hs = layers_run (h self) (past_key_values args) + 1.
Proof.
  intros Hohs Hout. pose proof (forward_counts self args) as Hpost.
  unfold post in Hpost. rewrite Hout in Hpost. destruct Hpost as [_ Hh].
  specialize (Hh Hohs). destruct (model_hidden_states out) as [hs|];
    [|discriminate].
  exists hs. split; [reflexivity|]. injection Hh as Hh. exact Hh.
Qed.

(* ------------------------------------------------------------------ *)
(** *** Videos and temporal embeddings *)
(* ------------------------------------------------------------------ *)

Lemma encode_frames_index_error (self : Model) (offsets : list (T3 F))
    (B P H : nat) (frames : list Img) :
  img_temporal_embedding self = Some offsets ->
  Forall (fun frame => has_shape (image_encoder self frame) B P H) frames ->
  Forall (fun o => has_shape o 1 1 H) offsets ->
  forall idx,
    idx <= length offsets < idx + length frames ->
    outcome (encode_frames fadd self frames idx) = Err IndexError.
Proof.
  intros Hemb Hframes Hoffs.
  induction frames as [|frame rest IH]; intros idx Hlen; [cbn in Hlen; lia|].
  inversion Hframes as [|f r Hf Hr]; subst.
  destruct Hf as (HfB & HfP & HfH).
  cbn [encode_frames]. unfold outcome in *. unfold bind at 1. cbn [call].
  rewrite Hemb. cbn [ret bind].
  destruct (nth_error offsets idx) as [o|] eqn:Ho.
  - assert (Hos : has_shape o 1 1 H).
    { rewrite List.Forall_forall in Hoffs. apply Hoffs.
      eapply nth_error_In; eassumption. }
    destruct Hos as (HoB & HoP & HoH).
    assert (Hidx : idx < length offsets) by (apply nth_error_Some; congruence).
    cbn [ret bind]. unfold iadd3, bcast_ok.
    rewrite HfB, HfP, HfH, HoB, HoP, HoH, !Nat.eqb_refl, !orb_true_r.
    cbn [andb lift bind call ret app].
    specialize (IH Hr (S idx)).
    destruct (encode_frames fadd self rest (S idx)) as [[fs|e] tr]; cbn in IH |- *.
    + assert (H0 : @Ok (list (T3 F)) fs = Err IndexError)
        by (apply IH; cbn in Hlen; lia).
      discriminate H0.
    + apply IH. cbn in Hlen. lia.
  - reflexivity.
Qed.

(** X13.  A video with more frames than the model has temporal embeddings
    raises [IndexError] (frames and embeddings being of matching shapes):
    the frames are processed in order until the list of embeddings runs
    out. *)
Theorem encode_video_too_many_frames (self : Model) (offsets : list (T3 F))
    (B P H : nat) (frames : list Img) :
  img_temporal_embedding self = Some offsets ->
  Forall (fun frame => has_shape (image_encoder self frame) B P H) frames ->
  Forall (fun o => has_shape o 1 1 H) offsets ->
  length offsets < length frames ->
  outcome (encode_video fadd self frames) = Err IndexError.
Proof.
  intros Hemb Hframes Hoffs Hlen.
  pose proof (encode_frames_index_error self offsets B P H frames Hemb Hframes
                Hoffs 0) as Herr.
  unfold encode_video, outcome, bind in *.
  destruct (encode_frames fadd self frames 0) as [[fs|e] tr]; cbn in *.
  - assert (H0 : @Ok (list (T3 F)) fs = Err IndexError) by (apply Herr; lia).
    discriminate H0.
  - assert (H0 : @Err (list (T3 F)) e = Err IndexError) by (apply Herr; lia).
    injection H0 as ->. reflexivity.
Qed.

(** X14.  A model built for single images has no temporal embeddings; a
    first call on a video with at least one frame then never returns: the
    vision stage raises [AttributeError] once the first frame is encoded. *)
Theorem forward_video_without_temporal_embedding (self : Model) (args : Inputs)
    (frame : Img) (frames : list Img) :
  img_temporal_embedding self = None ->
  pixel_values args = Some (Rank5 (frame :: frames)) ->
  past_key_values args = None ->
  fails (model_forward self args)
  /\ encode_visual fadd self (pixel_values args) (past_key_values args)
     = (Err AttributeError, [EvImageEncoder (Some 0)]).
Proof.
  intros Hemb Hpv Hpast.
  assert (Hvis : encode_visual fadd self (Some (Rank5 (frame :: frames))) None
                 = (Err AttributeError, [EvImageEncoder (Some 0)])).
  { unfold encode_visual, encode_video. cbn [encode_frames].
    rewrite Hemb. reflexivity. }
  split.
  - unfold forward. rewrite Hpv, Hpast.
    apply fails_bind_r; intros [[ids input_shape] batch_size].
    do 4 (apply fails_bind_r; intros ?).
    apply fails_bind_l. rewrite Hvis. eexists. reflexivity.
  - rewrite Hpv, Hpast. exact Hvis.
Qed.

(* ------------------------------------------------------------------ *)
(** *** The next-token loss *)
(* ------------------------------------------------------------------ *)

Lemma map_seq_shift {A} (f : nat -> A) (s n : nat) :
  map f (seq s n) = map (fun i => f (s + i)) (seq 0 n).
Proof.
  revert s f. induction n as [|n IH]; intros s f; [reflexivity|].
  cbn [seq map]. rewrite Nat.add_0_r. f_equal.
  rewrite (IH (S s) f), (IH 1 (fun i => f (s + i))).
  apply map_ext. intros i. f_equal. lia.
Qed.

Lemma map_seq_blocks {A} (f : nat -> A) (B n : nat) :
  map f (seq 0 (B * n))
  = flat_map (fun b => map (fun i => f (b * n + i)) (seq 0 n)) (seq 0 B).
Proof.
  induction B as [|B IH]; [reflexivity|].
  replace (S B * n) with (B * n + n) by lia.
  rewrite seq_app, map_app, IH, seq_S, flat_map_app. cbn [flat_map Nat.add].
  rewrite app_nil_r. f_equal. apply map_seq_shift.
Qed.

Lemma flat_map_ext_seq {A} (f g : nat -> list A) (n : nat) :
  (forall b, b < n -> f b = g b) -> flat_map f (seq 0 n) = flat_map g (seq 0 n).
Proof.
  intros Hfg. rewrite !flat_map_concat_map. f_equal.
  apply map_seq_ext. intros b Hb. apply Hfg. lia.
Qed.

Lemma map_flat_map {A B C} (f : B -> C) (g : A -> list B) (l : list A) :
  map f (flat_map g l) = flat_map (fun x => map f (g x)) l.
Proof.
  induction l as [|x l IH]; [reflexivity|].
  cbn [flat_map]. rewrite map_app, IH. reflexivity.
Qed.

Lemma length_flat_map_const {A B} (g : A -> list B) (l : list A) (n : nat) :
  (forall x, length (g x) = n) -> length (flat_map g l) = length l * n.
Proof.
  intros Hg. induction l as [|x l IH]; [reflexivity|].
  cbn [flat_map length]. rewrite length_app, Hg, IH. lia.
Qed.

Lemma flat_index_general (V n b i c : nat) :
  c < V -> i < n ->
  ((b * n + i) * V + c) / (n * V) = b
  /\ ((b * n + i) * V + c) / V mod n = i
  /\ ((b * n + i) * V + c) mod V = c.
Proof.
  intros Hc Hi.
  assert (HV : V <> 0) by lia. assert (Hn : n <> 0) by lia.
  assert (Hdiv : ((b * n + i) * V + c) / V = b * n + i).
  { rewrite Nat.div_add_l by exact HV. rewrite (Nat.div_small c V) by exact Hc.
    lia. }
  repeat split.
  - replace ((b * n + i) * V + c) with (b * (n * V) + (i * V + c)) by lia.
    rewrite Nat.div_add_l by lia. rewrite Nat.div_small by nia. lia.
  - rewrite Hdiv, Nat.add_comm, Nat.Div0.mod_add. apply Nat.mod_small. exact Hi.
  - rewrite Nat.add_comm, Nat.Div0.mod_add. apply Nat.mod_small. exact Hc.
Qed.

(** What the loss function receives: the score rows that remain once the
    first [image_patch_tokens] positions and the last one are dropped, and
    the labels from the second one on. *)
Lemma compute_loss_arguments (self : CausalLM) (logits : T3 F) (labels : T2 Z) :
  hid3 logits = config_vocab_size (config (model self)) ->
  0 < hid3 logits ->
  let start := Nat.min (image_patch_tokens (model self)) (len3 logits) in
  compute_loss self logits (Some labels)
  = bind (lift (loss_fct self
                  (loss_rows logits start (len3 logits - 1 - start))
                  (loss_targets labels)))
      (fun loss => call EvLoss (Some loss)).
Proof.
  intros HV Hpos start.
  unfold compute_loss, view_rows3, shift_logits, shift_labels, flatten2, list2.
  cbn [bsz3 len3 hid3 dtype3 at3 rows cols at2].
  rewrite <- HV. fold start.
  set (n := len3 logits - 1 - start). set (V := hid3 logits) in *.
  rewrite (proj2 (Nat.eqb_neq V 0)) by lia.
  rewrite Nat.Div0.mod_mul, Nat.eqb_refl, Nat.div_mul by lia.
  cbn [lift bind rows cols at2].
  assert (Hrows :
    map (fun r => map (fun c => at3 logits ((r * V + c) / (n * V))
                                  (start + (r * V + c) / V mod n)
                                  ((r * V + c) mod V)) (seq 0 V))
      (seq 0 (bsz3 logits * n))
    = loss_rows logits start n).
  { rewrite map_seq_blocks. unfold loss_rows. apply flat_map_ext_seq.
    intros b Hb. apply map_seq_ext. intros i Hi. unfold logit_row. fold V.
    apply map_seq_ext. intros c Hc.
    destruct (flat_index_general V n b i c) as (H1 & H2 & H3); [lia|lia|].
    rewrite H1, H2, H3. reflexivity. }
  rewrite Hrows.
  assert (Hlabs :
    concat (map (fun i => map (fun j => at2 labels i (1 + j))
                             (seq 0 (cols labels - 1)))
              (seq 0 (rows labels)))
    = loss_targets labels).
  { unfold loss_targets. rewrite flat_map_concat_map. reflexivity. }
  rewrite Hlabs.
  destruct (loss_fct self _ _); reflexivity.
Qed.

(** X15.  When the logits cover [image_patch_tokens] visual positions
    followed by the [N] labelled text positions, the loss is computed, for
    every batch element, on the score row at position
    [image_patch_tokens + i] paired with label [i + 1], for [i] from 0 to
    [N - 2]: neither a visual position, nor the last position, nor the first
    label takes part. *)
Theorem loss_pairs_text_positions_with_next_labels (self : CausalLM)
    (logits : T3 F) (labels : T2 Z) :
  hid3 logits = config_vocab_size (config (model self)) ->
  0 < hid3 logits ->
  rows labels = bsz3 logits ->
  len3 logits = image_patch_tokens (model self) + cols labels ->
  let pairs :=
    loss_pairs logits labels (image_patch_tokens (model self))
      (cols labels - 1) in
  compute_loss self logits (Some labels)
  = bind (lift (loss_fct self (map fst pairs) (map snd pairs)))
      (fun loss => call EvLoss (Some loss)).
Proof.
  intros HV Hpos HB HL pairs.
  rewrite (compute_loss_arguments self logits labels HV Hpos).
  rewrite HL.
  rewrite Nat.min_l by lia.
  replace (image_patch_tokens (model self) + cols labels - 1
           - image_patch_tokens (model self)) with (cols labels - 1) by lia.
  subst pairs. unfold loss_pairs. rewrite !map_flat_map.
  unfold loss_rows, loss_targets. rewrite HB.
  assert (H1 :
    flat_map (fun b => map (fun i => logit_row logits b
                                      (image_patch_tokens (model self) + i))
                          (seq 0 (cols labels - 1))) (seq 0 (bsz3 logits))
    = flat_map (fun x => map fst
                 (map (fun i => (logit_row logits x
                                   (image_patch_tokens (model self) + i),
                                 at2 labels x (1 + i)))
                    (seq 0 (cols labels - 1)))) (seq 0 (bsz3 logits))).
  { apply flat_map_ext_seq. intros b _. rewrite map_map. reflexivity. }
  assert (H2 :
    flat_map (fun b => map (fun j => at2 labels b (1 + j))
                          (seq 0 (cols labels - 1))) (seq 0 (bsz3 logits))
    = flat_map (fun x => map snd
                 (map (fun i => (logit_row logits x
                                   (image_patch_tokens (model self) + i),
                                 at2 labels x (1 + i)))
                    (seq 0 (cols labels - 1)))) (seq 0 (bsz3 logits))).
  { apply flat_map_ext_seq. intros b _. rewrite map_map. reflexivity. }
  rewrite H1, H2. reflexivity.
Qed.

(** X16.  The number of positions dropped in front is the model's
    [image_patch_tokens], whether or not the call had an image.  For logits
    over [N] text positions only, the loss function receives
    [batch * (N - 1 - min(image_patch_tokens, N))] score rows and
    [batch * (N - 1)] labels: fewer rows than labels as soon as the batch is
    not empty, [N >= 2] and [image_patch_tokens >= 1]. *)
Theorem loss_without_image_drops_text_positions (self : CausalLM)
    (logits : T3 F) (labels : T2 Z) :
  hid3 logits = config_vocab_size (config (model self)) ->
  0 < hid3 logits ->
  rows labels = bsz3 logits ->
  len3 logits = cols labels ->
  exists input target,
    compute_loss self logits (Some labels)
    = bind (lift (loss_fct self input target))
        (fun loss => call EvLoss (Some loss))
    /\ length input
       = bsz3 logits
         * (cols labels - 1
            - Nat.min (image_patch_tokens (model self)) (cols labels))
    /\ length target = bsz3 logits * (cols labels - 1)
    /\ (0 < bsz3 logits -> 2 <= cols labels ->
        1 <= image_patch_tokens (model self) ->
        length input < length target).
Proof.
  intros HV Hpos HB HL.
  eexists. eexists. split.
  { apply (compute_loss_arguments self logits labels HV Hpos). }
  assert (Hin : length (loss_rows logits
                          (Nat.min (image_patch_tokens (model self)) (len3 logits))
                          (len3 logits - 1
                           - Nat.min (image_patch_tokens (model self))
                               (len3 logits)))
                = bsz3 logits
                  * (cols labels - 1
                     - Nat.min (image_patch_tokens (model self)) (cols labels))).
  { unfold loss_rows.
    rewrite (length_flat_map_const _ _
               (len3 logits - 1
                - Nat.min (image_patch_tokens (model self)) (len3 logits)))
      by (intros; rewrite length_map, length_seq; reflexivity).
    rewrite length_seq, HL. reflexivity. }
  assert (Htg : length (loss_targets labels) = bsz3 logits * (cols labels - 1)).
  { unfold loss_targets.
    rewrite (length_flat_map_const _ _ (cols labels - 1))
      by (intros; rewrite length_map, length_seq; reflexivity).
    rewrite length_seq, HB. reflexivity. }
  split; [exact Hin|]. split; [exact Htg|].
  intros HB0 HN Hk. rewrite Hin, Htg.
  apply Nat.mul_lt_mono_pos_l; lia.
Qed.

(* ------------------------------------------------------------------ *)
(** *** The tuple form of the wrapper's result *)
(* ------------------------------------------------------------------ *)

(** X17.  Without [return_dict], the wrapper returns a tuple that starts
    with the loss followed by the logits when labels are given, and with
    the logits when they are not. *)
Theorem lm_forward_tuple_layout (self : CausalLM) (args : lm_inputs F Img Aux)
    (out : lm_output F Aux L) :
  or_default (lm_return_dict args)
    (config_use_return_dict (config (model self))) = false ->
  outcome (causal_lm_forward self args) = Ok out ->
  match lm_labels args with
  | Some _ =>
      exists loss logits rest,
        out = LMTuple (ILoss F Aux loss :: ITensor Aux L logits :: rest)
  | None =>
      exists logits rest,
        out = LMTuple (ITensor Aux L logits :: rest)
        /\ returned_loss out = None
  end.
Proof.
  intros Hret Hout.
  assert (Hpost : post (causal_lm_forward self args)
            (fun out =>
               match lm_labels args with
               | Some _ =>
                   exists loss logits rest,
                     out = LMTuple (ILoss F Aux loss :: ITensor Aux L logits :: rest)
               | None =>
                   exists logits rest,
                     out = LMTuple (ITensor Aux L logits :: rest)
                     /\ returned_loss out = None
               end)).
  { unfold lm_forward. rewrite Hret. cbn [negb].
    apply post_bind with (R := fun o => items_loss (output_items o) = None);
      [ apply forward_no_loss | intros outputs Hloss ].
    apply post_bind_any; intros sequence_output.
    apply post_bind_any; intros logits.
    apply post_bind with
      (R := fun loss => match lm_labels args with
                        | Some _ => loss <> None
                        | None => loss = None
                        end).
    { destruct (lm_labels args) as [labels|]; cbn [compute_loss].
      - repeat (apply post_bind_any; intros ?). apply post_ret. discriminate.
      - apply post_ret. reflexivity. }
    intros loss Hl. apply post_ret.
    destruct (lm_labels args) as [labels|].
    - destruct loss as [l|]; [|congruence]. do 3 eexists. reflexivity.
    - subst loss. do 2 eexists. split; [reflexivity|].
      cbn. destruct (output_items outputs) as [|it rest]; cbn in *;
        [reflexivity|].
      destruct it; cbn in *; congruence. }
  unfold post in Hpost. rewrite Hout in Hpost. exact Hpost.
Qed.

End ForwardFacts.

(* ================================================================== *)
(** ** More on the composed mask *)
(* ================================================================== *)

(** X18.  Row [i] of the future mask of [size] positions is [i + 1] ones
    followed by zeros: position [i] sees itself and what precedes it. *)
Theorem future_mask_row (size i : nat) :
  i < size ->
  nth_error (list2 (_generate_future_mask size)) i
  = Some (repeat 1%Z (S i) ++ repeat 0%Z (size - S i)).
Proof.
  intros Hi. unfold list2. cbn [rows cols _generate_future_mask tril ones2 full2].
  rewrite nth_error_map.
  rewrite nth_error_nth' with (d := 0) by (rewrite length_seq; exact Hi).
  rewrite seq_nth by exact Hi. cbn [option_map Nat.add]. f_equal.
  replace size with (S i + (size - S i)) at 1 by lia.
  rewrite seq_app, map_app. f_equal.
  - apply map_seq_const. intros j Hj.
    cbn [at2 _generate_future_mask tril ones2 full2].
    rewrite (proj2 (Nat.leb_le j i)) by lia. reflexivity.
  - apply map_seq_const. intros j Hj.
    cbn [at2 _generate_future_mask tril ones2 full2].
    rewrite (proj2 (Nat.leb_gt j i)) by lia. reflexivity.
Qed.

Section MaskExtras.

Variable F : Type.

(** X19.  On a first call without user mask, entry [(i, j)] of the
    composed mask is true exactly when [j] is a visual column, or [i] is a
    text row and [j <= i]: visual rows see the visual tokens only, text rows
    see every visual token and the text up to themselves. *)
Theorem first_call_mask_entries (multi_query : bool)
    (inputs_embeds memory : T3 F) (query_length : nat) :
  len3 inputs_embeds = query_length ->
  exists m,
    combined_attention_mask multi_query inputs_embeds memory query_length 0
      None = Ok m
    /\ mask_shape multi_query m
       = (bsz3 memory, len3 memory + query_length,
          len3 memory + query_length)
    /\ forall b i j,
         i < len3 memory + query_length -> j < len3 memory + query_length ->
         mask_at multi_query m b i j
         = (j <? len3 memory) || ((len3 memory <=? i) && (j <=? i)).
Proof.
  intros HN. unfold combined_attention_mask.
  destruct (create_attention_mask_spec F inputs_embeds memory
              (_generate_future_mask query_length) 0 None)
    as (m & Hm & H0 & H1 & H2 & H3 & Hat);
    [cbn; lia | intros; cbn; lia | exact I |].
  rewrite Hm. cbn [rbind].
  eexists. split; [reflexivity|]. split.
  - unfold mask_shape; destruct multi_query; cbn;
      rewrite ?H0, ?H1, ?H2, ?H3, ?HN; cbn; f_equal; lia.
  - intros b i j Hi Hj.
    assert (Hcell : nonzero (at4 m b 0 i j)
                    = (j <? len3 memory) || ((len3 memory <=? i) && (j <=? i))).
    { rewrite Hat. unfold base_entry, pad_entry, padded.
      rewrite andb_false_r, Z.add_0_r.
      destruct (Nat.ltb_spec j (len3 memory)) as [Hjm|Hjm]; [reflexivity|].
      cbn [orb].
      destruct (Nat.ltb_spec i (len3 memory)) as [Him|Him].
      - rewrite (proj2 (Nat.leb_gt (len3 memory) i)) by lia. reflexivity.
      - rewrite (proj2 (Nat.leb_le (len3 memory) i)) by lia.
        cbn [Nat.ltb Nat.leb andb _generate_future_mask tril ones2 full2 at2].
        destruct (Nat.leb_spec (j - len3 memory) (i - len3 memory));
          destruct (Nat.leb_spec j i); try lia; reflexivity. }
    unfold mask_at; destruct multi_query; cbn [transpose_1_2 at4 bool4];
      exact Hcell.
Qed.

(** X20.  A padding mask that is not boolean is rejected with
    [ValueError], once the blocks have been assembled. *)
Theorem create_attention_mask_rejects_non_boolean_padding (tgt memory : T3 F)
    (tgt_mask : T2 Z) (past : nat) (pad : T2 Z) :
  rows tgt_mask = len3 tgt ->
  (past = 0 -> cols tgt_mask = len3 tgt) ->
  create_attention_mask tgt memory tgt_mask past (Some (NonBoolPad pad))
  = Err (ValueError "Memory key padding mask must be a boolean tensor.").
Proof.
  intros Hrows Hcols.
  unfold create_attention_mask, cat_dim0, cat_dim1, ones2, full2.
  destruct (Nat.ltb_spec 0 past) as [Hp|Hp]; cbn [rows cols at2 rbind];
    repeat (rewrite (proj2 (Nat.eqb_eq _ _)) by lia; cbn [rows cols at2 rbind]);
    reflexivity.
Qed.

(** X21.  A boolean padding mask whose width is neither the number of
    visual tokens nor 1 cannot be added to the visual columns: the call
    raises [RuntimeError]. *)
Theorem create_attention_mask_rejects_padding_width (tgt memory : T3 F)
    (tgt_mask : T2 Z) (past : nat) (pad : T2 bool) :
  rows tgt_mask = len3 tgt ->
  (past = 0 -> cols tgt_mask = len3 tgt) ->
  cols pad <> len3 memory -> cols pad <> 1 ->
  exists msg,
    create_attention_mask tgt memory tgt_mask past (Some (BoolPad pad))
    = Err (RuntimeError msg).
Proof.
  intros Hrows Hcols Hw H1.
  unfold create_attention_mask, cat_dim0, cat_dim1, ones2, full2, bcast_ok.
  destruct (Nat.ltb_spec 0 past) as [Hp|Hp]; cbn [rows cols at2 rbind];
    repeat (rewrite (proj2 (Nat.eqb_eq _ _)) by lia;
            cbn [rows cols at2 rbind negb andb orb]);
    rewrite Nat.min_l by lia;
    rewrite (proj2 (Nat.eqb_neq (cols pad) (len3 memory)) Hw);
    rewrite (proj2 (Nat.eqb_neq (cols pad) 1) H1);
    cbn [negb orb]; eexists; reflexivity.
Qed.

End MaskExtras.

(* ================================================================== *)
(** ** Inputs prepared for generation *)
(* ================================================================== *)

Section GenerationFacts.

Variable F : Type.
Variable Img : Type.
Variable Aux : Type.

(** X22.  On the first step of generation (no cache) the caller's prompt
    is passed on whole and, when the caller gives no attention mask, the
    all-ones mask built for it leaves no true entry in the text block of
    the composed mask: no text position sees any text position. *)
Theorem default_generation_mask_blanks_text_block (multi_query : bool)
    (input_ids : T2 Z) (use_cache : option bool)
    (kwargs : gmap string (option (pixel_tensor Img)))
    (inputs_embeds memory : T3 F) :
  0 < cols input_ids ->
  len3 inputs_embeds = cols input_ids ->
  bsz3 memory = rows input_ids ->
  let prepared :=
    prepare_inputs_for_generation (Aux := Aux) input_ids None None use_cache
      kwargs in
  gen_input_ids prepared = input_ids
  /\ exists m,
       combined_attention_mask multi_query inputs_embeds memory
         (cols (gen_input_ids prepared)) 0
         (Some (gen_attention_mask prepared)) = Ok m
       /\ forall b i j,
            i < cols input_ids -> j < cols input_ids ->
            mask_at multi_query m b (len3 memory + i) (len3 memory + j) = false.
Proof.
  intros HN Hlen HB prepared. split; [reflexivity|].
  subst prepared.
  cbn [prepare_inputs_for_generation gen_input_ids gen_attention_mask].
  destruct (combined_attention_mask_first_call F multi_query inputs_embeds
              memory (cols input_ids)
              (new_ones (rows input_ids, cols input_ids)))
    as (m & Hm & _ & Hat); [exact HN | exact Hlen | cbn; lia | reflexivity |].
  exists m. split; [exact Hm|].
  intros b i j Hi Hj. rewrite (Hat b i j Hi Hj).
  cbn [new_ones at2 negb]. apply andb_false_r.
Qed.

(** X23.  On a later step (cache given, prompt not empty) only the last
    token of every row is passed on, the caller's attention mask is passed
    on unchanged, and in the composed mask that single token sees every
    cached and current position, whatever that attention mask holds. *)
Theorem generation_step_keeps_last_token (multi_query : bool)
    (input_ids : T2 Z) (pkv : list Aux)
    (attention_mask : option (T2 bool)) (use_cache : option bool)
    (kwargs : gmap string (option (pixel_tensor Img)))
    (inputs_embeds memory : T3 F) (past_length : nat) :
  0 < cols input_ids ->
  0 < past_length ->
  len3 inputs_embeds = 1 ->
  let prepared :=
    prepare_inputs_for_generation input_ids (Some pkv) attention_mask
      use_cache kwargs in
  rows (gen_input_ids prepared) = rows input_ids
  /\ cols (gen_input_ids prepared) = 1
  /\ (forall b, at2 (gen_input_ids prepared) b 0
               = at2 input_ids b (cols input_ids - 1))
  /\ (forall mask, attention_mask = Some mask ->
        gen_attention_mask prepared = mask)
  /\ exists m,
       combined_attention_mask multi_query inputs_embeds memory
         (cols (gen_input_ids prepared)) past_length
         (Some (gen_attention_mask prepared)) = Ok m
       /\ forall b j,
            j < past_length + 1 ->
            mask_at multi_query m b (len3 memory + 0) (len3 memory + j) = true.
Proof.
  intros HN Hpast Hlen prepared. subst prepared.
  cbn [prepare_inputs_for_generation gen_input_ids gen_attention_mask
       last_column rows cols at2].
  unfold neg_slice_start. cbn [Nat.eqb].
  assert (Hone : cols input_ids - (cols input_ids - 1) = 1) by lia.
  split; [reflexivity|]. split; [exact Hone|]. split.
  { intros b. rewrite Nat.add_0_r. reflexivity. }
  split.
  { intros mask ->. reflexivity. }
  rewrite Hone.
  destruct (combined_attention_mask_past F multi_query inputs_embeds memory 1
              past_length
              (Some match attention_mask with
                    | Some m => m
                    | None => new_ones (rows input_ids, 1)
                    end) Hpast Hlen) as (m & Hm & _ & Hat).
  exists m. split; [exact Hm|].
  intros b j Hj. rewrite Hat. unfold base_entry.
  rewrite (proj2 (Nat.ltb_ge (len3 memory + j) (len3 memory))) by lia.
  rewrite (proj2 (Nat.ltb_ge (len3 memory + 0) (len3 memory))) by lia.
  rewrite (proj2 (Nat.ltb_lt 0 past_length) Hpast). reflexivity.
Qed.

End GenerationFacts.

(* ================================================================== *)
(** ** Building and serialising a configuration *)
(* ================================================================== *)

Section ConfigExtras.

Local Open Scope string_scope.

Variable VisionConfig : Type.
Variable vision_to_dict : VisionConfig -> gmap string (value VisionConfig).
Variable default_vision_config : VisionConfig.
Variable from_pretrained : value VisionConfig -> result VisionConfig.
Variable super_init :
  gmap string (value VisionConfig) -> gmap string (value VisionConfig).

(** X24.  A configuration built without [vision_model_name] serialises
    with the dictionary of the default vision configuration, with
    [num_image_with_embedding] set to [None], and with the class's
    [model_type]. *)
Theorem default_config_serialisation (cls : config_class)
    (kwargs : gmap string (value VisionConfig)) :
  super_init kwargs !! "vision_model_name" = None ->
  exists self output,
    config_init default_vision_config from_pretrained super_init cls kwargs
    = Ok self
    /\ to_dict vision_to_dict self = Ok output
    /\ output !! "vision_config"
       = Some (VDict (vision_to_dict default_vision_config))
    /\ output !! "num_image_with_embedding" = Some VNone
    /\ output !! "model_type" = Some (VStr (model_type cls)).
Proof.
  intros Hname. unfold config_init. cbn [dict_of]. rewrite Hname.
  eexists. eexists. split; [reflexivity|].
  unfold to_dict, deepcopy. cbn [dict_of class_of].
  rewrite lookup_insert_ne by discriminate. rewrite lookup_insert_eq.
  split; [reflexivity|]. split; [|split].
  - rewrite lookup_insert_ne by discriminate. apply lookup_insert_eq.
  - rewrite lookup_insert_ne by discriminate.
    rewrite lookup_insert_ne by discriminate. apply lookup_insert_eq.
  - apply lookup_insert_eq.
Qed.

(** X25.  A configuration built with [vision_model_name] and
    [num_image_with_embedding] serialises with the dictionary of the vision
    configuration loaded under that name, keeps the name, and records
    [num_image_with_embedding] as [None] when it equals 1 and as given
    otherwise. *)
Theorem named_config_serialisation (cls : config_class)
    (kwargs : gmap string (value VisionConfig))
    (name n : value VisionConfig) (vc : VisionConfig) :
  super_init kwargs !! "vision_model_name" = Some name ->
  super_init kwargs !! "num_image_with_embedding" = Some n ->
  from_pretrained name = Ok vc ->
  exists self output,
    config_init default_vision_config from_pretrained super_init cls kwargs
    = Ok self
    /\ to_dict vision_to_dict self = Ok output
    /\ output !! "vision_config" = Some (VDict (vision_to_dict vc))
    /\ output !! "vision_model_name" = Some name
    /\ output !! "num_image_with_embedding"
       = Some (if equals_one n then VNone else n)
    /\ output !! "model_type" = Some (VStr (model_type cls)).
Proof.
  intros Hname Hn Hvc. unfold config_init, set_vision_configs.
  cbn [dict_of class_of]. rewrite Hname, Hn, Hvc. cbn [rbind].
  eexists. eexists. split; [reflexivity|].
  unfold to_dict, deepcopy. cbn [dict_of class_of].
  rewrite lookup_insert_eq.
  split; [reflexivity|]. split; [|split; [|split]].
  - rewrite lookup_insert_ne by discriminate. apply lookup_insert_eq.
  - do 3 (rewrite lookup_insert_ne by discriminate). apply lookup_insert_eq.
  - do 4 (rewrite lookup_insert_ne by discriminate). apply lookup_insert_eq.
  - apply lookup_insert_eq.
Qed.

End ConfigExtras.

(* ================================================================== *)
(** ** Caching switched off, and the fused sequence *)
(* ================================================================== *)

Section MoreForwardFacts.

Variable F : Type.
Variable fadd : F -> F -> F.
Variable fzero : F.
Variable Img : Type.
Variable Aux : Type.
Variable kv_len : Aux -> nat.
Variable HM : Type.
Variable EM : Type.
Variable em_dim : EM -> nat.
Variable em_bool_unsqueeze : nat -> EM -> EM.
Variable L : Type.

Local Abbreviation Model := (GitGPTBigCodeModel F Img Aux HM EM).
Local Abbreviation Inputs := (model_inputs F Img Aux HM EM).
Local Abbreviation model_forward :=
  (forward fadd fzero kv_len em_dim em_bool_unsqueeze L).

(** X26.  When caching is off (asked off by the caller, or left open with
    the configuration saying off), no result of the model carries a cache,
    in the tuple form or in the dictionary form. *)
Theorem forward_without_cache (self : Model) (args : Inputs)
    (out : model_output F Aux L) :
  or_default (use_cache args) (config_use_cache (config self)) = false ->
  outcome (model_forward self args) = Ok out ->
  model_cache out = None.
Proof.
  intros Huc Hout.
  assert (Hpost : post (model_forward self args)
                    (fun out => model_cache out = None)).
  { unfold forward. rewrite Huc.
    apply post_bind_any; intros [[ids input_shape] batch_size].
    repeat
      match goal with
      | |- post (bind (run_blocks _ _ _ _ _ _ _ _ _ _ _) _) _ =>
          apply post_bind with (R := fun st => ls_presents st = None);
          [ apply run_blocks_no_cache; reflexivity | intros st Hst ]
      | |- post (bind _ _) _ => apply post_bind_any; intros ?
      end.
    apply post_ret. unfold model_result, model_cache.
    destruct (negb _); cbn [out_past_key_values]; [|exact Hst].
    rewrite Hst. cbn.
    repeat match goal with
           | |- context [match ?x with Some _ => _ | None => _ end] =>
               destruct x; cbn
           | |- context [if ?x then _ else _] => destruct x; cbn
           end; reflexivity. }
  unfold post in Hpost. rewrite Hout in Hpost. exact Hpost.
Qed.

(** The visual block as [forward] fuses it with the text embeddings
    (lines 329-341). *)
Lemma fuse_unfold (inputs_embeds p : T3 F) :
  0 < bsz3 p ->
  visual_block fzero inputs_embeds (Some p)
  = ret (repeat3 p (bsz3 inputs_embeds / bsz3 p)).
Proof.
  intros HB. unfold visual_block.
  rewrite (proj2 (Nat.eqb_neq (bsz3 p) 0)) by lia. reflexivity.
Qed.

(** X27.  Visual features of batch [Bv] are repeated to the batch [B] of
    the text embeddings when [B] is a multiple of [Bv] (one image serving
    several candidate sequences): the fused sequence has shape
    [[B, M + N, H]], its first [M] positions are the visual features of row
    [b mod Bv] and the remaining [N] the text embeddings of row [b]. *)
Theorem fused_sequence_repeats_visual_features (inputs_embeds p : T3 F) :
  0 < bsz3 p ->
  bsz3 inputs_embeds mod bsz3 p = 0 ->
  hid3 p = hid3 inputs_embeds ->
  exists visual fused,
    visual_block fzero inputs_embeds (Some p) = ret visual
    /\ cat_seq visual inputs_embeds = Ok fused
    /\ has_shape fused (bsz3 inputs_embeds) (len3 p + len3 inputs_embeds)
         (hid3 inputs_embeds)
    /\ forall b i h,
         at3 fused b i h
         = if i <? len3 p then at3 p (b mod bsz3 p) i h
           else at3 inputs_embeds b (i - len3 p) h.
Proof.
  intros HB Hmod HH.
  assert (Hk : bsz3 inputs_embeds / bsz3 p * bsz3 p = bsz3 inputs_embeds).
  { pose proof (Nat.div_mod_eq (bsz3 inputs_embeds) (bsz3 p)) as Hdm.
    rewrite Hmod in Hdm. lia. }
  eexists. eexists. split; [apply fuse_unfold; exact HB|].
  unfold cat_seq, repeat3. cbn [bsz3 len3 hid3 dtype3 at3].
  rewrite Hk, HH, !Nat.eqb_refl. cbn [andb].
  split; [reflexivity|]. split.
  - unfold has_shape. cbn. auto.
  - intros b i h. reflexivity.
Qed.

(** X28.  When the batch of the text embeddings is not a multiple of the
    batch of the visual features, the repeated visual block does not fit
    and the concatenation raises [RuntimeError]. *)
Theorem fused_sequence_rejects_batch_mismatch (inputs_embeds p : T3 F) :
  0 < bsz3 p ->
  bsz3 inputs_embeds mod bsz3 p <> 0 ->
  exists visual msg,
    visual_block fzero inputs_embeds (Some p) = ret visual
    /\ cat_seq visual inputs_embeds = Err (RuntimeError msg).
Proof.
  intros HB Hmod.
  assert (Hk : bsz3 inputs_embeds / bsz3 p * bsz3 p <> bsz3 inputs_embeds).
  { pose proof (Nat.div_mod_eq (bsz3 inputs_embeds) (bsz3 p)) as Hdm. lia. }
  eexists. eexists. split; [apply fuse_unfold; exact HB|].
  unfold cat_seq, repeat3. cbn [bsz3 len3 hid3 dtype3 at3].
  rewrite (proj2 (Nat.eqb_neq _ _) Hk). cbn [andb]. reflexivity.
Qed.

(* ------------------------------------------------------------------ *)
(** *** The decoder layers a successful call has run *)
(* ------------------------------------------------------------------ *)

Lemma bind_ok_inv {A B} (m : Eff A) (k : A -> Eff B) (b : B) :
  outcome (bind m k) = Ok b ->
  exists a,
    outcome m = Ok a /\ outcome (k a) = Ok b
    /\ trace (bind m k) = trace m ++ trace (k a).
Proof.
  unfold outcome, trace, bind. destruct m as [[a|e] l]; cbn; [|discriminate].
  intros Hb. exists a. destruct (k a) as [r l']. cbn in *. auto.
Qed.

Lemma quiet_blocks {A} (m : Eff A) :
  logs_only (fun ev => negb (block_event ev)) m ->
  List.filter block_event (trace m) = [].
Proof.
  unfold logs_only. induction (trace m) as [|ev t IH]; intros Hall;
    [reflexivity|].
  inversion Hall as [|ev' t' Hev Ht]; subst. cbn [List.filter].
  destruct (block_event ev); [discriminate|]. apply IH. exact Ht.
Qed.

Lemma filter_block_events (i n : nat) :
  List.filter block_event (map EvBlock (seq i n)) = map EvBlock (seq i n).
Proof.
  revert i. induction n as [|n IH]; intros i; [reflexivity|].
  cbn [seq map List.filter block_event]. rewrite IH. reflexivity.
Qed.

(** A run of the loop that completes has invoked each of its layers once,
    in order. *)
Lemma run_blocks_trace (self : Model)
    (layers : list (Block F Aux HM EM * option Aux)) :
  forall (i : nat) (msk : T4 bool) (hmask : list (option HM))
         (ehs : option (T3 F)) (eam : option EM) (uc oa ohs : bool)
         (st st' : loop_state F Aux),
    outcome (run_blocks self layers i msk hmask ehs eam uc oa ohs st) = Ok st' ->
    trace (run_blocks self layers i msk hmask ehs eam uc oa ohs st)
    = map EvBlock (seq i (length layers)).
Proof.
  induction layers as [|[block layer_past] rest IH];
    intros i msk hmask ehs eam uc oa ohs st st' Hok; [reflexivity|].
  cbn [run_blocks] in *.
  apply bind_ok_inv in Hok. destruct Hok as (hm & Hhm & Hok & Ht).
  rewrite Ht. clear Ht.
  assert (Hq0 : trace (match nth_error hmask i with
                       | Some m => ret m
                       | None => raise IndexError
                       end) = [])
    by (destruct (nth_error hmask i); reflexivity).
  rewrite Hq0. cbn [app].
  apply bind_ok_inv in Hok. destruct Hok as (outputs & Hout & Hok & Ht).
  rewrite Ht. clear Ht. cbn [call trace snd app length seq map]. f_equal.
  apply bind_ok_inv in Hok. destruct Hok as (presents & Hp & Hok & Ht).
  rewrite Ht. clear Ht.
  match goal with
  | |- trace ?m ++ _ = _ =>
      assert (Hq1 : trace m = [])
  end.
  { clear. destruct uc; [|reflexivity].
    destruct (block_get outputs 1); reflexivity. }
  rewrite Hq1. cbn [app].
  apply bind_ok_inv in Hok. destruct Hok as (attns & Ha & Hok & Ht).
  rewrite Ht. clear Ht.
  match goal with
  | |- trace ?m ++ _ = _ =>
      assert (Hq2 : trace m = [])
  end.
  { clear. destruct oa; [|reflexivity].
    destruct (block_get outputs (if uc then 2 else 1)); [|reflexivity].
    destruct (config_add_cross_attention (config self)); [|reflexivity].
    destruct (block_get outputs (if uc then 3 else 2)); reflexivity. }
  rewrite Hq2. cbn [app].
  eapply IH. exact Hok.
Qed.

(** Peels the first step off a computation known to return. *)
Ltac peel H Hm :=
  let a := fresh "a" in
  let Ht := fresh "Ht" in
  apply bind_ok_inv in H; destruct H as (a & Hm & H & Ht);
  rewrite Ht, List.filter_app; clear Ht.

(** Closes the claim that a step of [forward] other than the loop logs no
    block event. *)
Ltac quiet :=
  first
    [ apply encode_visual_logs;
      let ev := fresh "ev" in
      intros ev ?; destruct ev; try reflexivity; discriminate
    | unfold view2_opt, visual_block; repeat logs_step ].

(** X29.  A call that returns has invoked every layer it runs exactly
    once, in order: the block events of its log are those of layers
    0, 1, ..., n-1, [n] being the number of layers run. *)
Theorem forward_runs_each_layer_once (self : Model) (args : Inputs)
    (out : model_output F Aux L) :
  outcome (model_forward self args) = Ok out ->
  List.filter block_event (trace (model_forward self args))
  = map EvBlock (seq 0 (layers_run (h self) (past_key_values args))).
Proof.
  intros Hout. unfold forward in *.
  peel Hout Hm. clear Hm.
  rewrite quiet_blocks by quiet. cbn [app].
  destruct a as [[ids input_shape] batch_size].
  do 17 (let Hm := fresh "Hm" in
         peel Hout Hm; clear Hm; rewrite quiet_blocks by quiet; cbn [app]).
  peel Hout Hrun.
  rewrite (run_blocks_trace _ _ _ _ _ _ _ _ _ _ _ _ Hrun), filter_block_events.
  rewrite layers_run_combine.
  do 2 (let Hm := fresh "Hm" in
        peel Hout Hm; clear Hm; rewrite quiet_blocks by quiet; cbn [app]).
  cbn [ret trace snd List.filter]. apply app_nil_r.
Qed.

End MoreForwardFacts.

(* ================================================================== *)
(** ** The further properties at concrete inputs *)
(* ================================================================== *)

Lemma X1_witness :
  exists reordered,
    _reorder_cache ToyCalls.beam_cache [2; 0; 0]%Z = Ok reordered
    /\ length reordered = length ToyCalls.beam_cache
    /\ Forall2 (fun layer layer' => length layer' = length layer)
         ToyCalls.beam_cache reordered
    /\ Forall2 (Forall2 (selects [2; 0; 0]%Z)) ToyCalls.beam_cache reordered.
Proof.
  apply (reorder_cache_selects_beams ToyCalls.beam_cache [2; 0; 0]%Z).
  repeat constructor; cbn; lia.
Defined.

Lemma X2_witness :
  _reorder_cache ToyCalls.beam_cache [1; 3]%Z = Err IndexError.
Proof.
  apply (reorder_cache_index_error ToyCalls.beam_cache [1; 3]%Z).
  apply Exists_cons_hd. apply Exists_cons_hd.
  intros Hin. inversion Hin as [|i l Hi Hrest]; subst.
  inversion Hrest as [|i' l' Hi' Hrest']; subst. cbn in Hi'. lia.
Defined.

Lemma X3_witness :
  _reorder_cache ToyCalls.beam_cache (arange 3) = Ok ToyCalls.beam_cache.
Proof.
  apply (reorder_cache_identity ToyCalls.beam_cache 3).
  repeat constructor.
Defined.

Lemma X4_witness :
  (exists twice,
     _reorder_cache
       [[[12; 10; 10]; [22; 20; 20]]; [[32; 30; 30]; [42; 40; 40]]] [1; 1; 0]%Z
     = Ok twice
     /\ _reorder_cache ToyCalls.beam_cache [0; 0; 2]%Z = Ok twice)
  /\ _reorder_cache
       [[[12; 10; 10]; [22; 20; 20]]; [[32; 30; 30]; [42; 40; 40]]] [1; 3]%Z
     = Err IndexError.
Proof.
  split.
  - apply (proj1 (reorder_cache_compose ToyCalls.beam_cache
                    [[[12; 10; 10]; [22; 20; 20]]; [[32; 30; 30]; [42; 40; 40]]]
                    [2; 0; 0]%Z [1; 1; 0]%Z eq_refl) [0; 0; 2]%Z).
    reflexivity.
  - apply (proj2 (reorder_cache_compose ToyCalls.beam_cache
                    [[[12; 10; 10]; [22; 20; 20]]; [[32; 30; 30]; [42; 40; 40]]]
                    [2; 0; 0]%Z [1; 3]%Z eq_refl) IndexError eq_refl).
    exists [[10; 11; 12]; [20; 21; 22]], [10; 11; 12].
    split; [left; reflexivity | left; reflexivity].
Defined.

Lemma X5_witness :
  fails (Toy.run_model (Toy.git_model None 3)
           (ToyCalls.embeds_call (Toy.embed (Toy.tokens 2))
              (Some (OtherRank Toy.image 3)) None))
  /\ (forall e,
        input_ids (ToyCalls.embeds_call (Toy.embed (Toy.tokens 2))
                     (Some (OtherRank Toy.image 3)) None) = None ->
        inputs_embeds (ToyCalls.embeds_call (Toy.embed (Toy.tokens 2))
                         (Some (OtherRank Toy.image 3)) None) = Some e ->
        0 < bsz3 e ->
        token_type_ids (ToyCalls.embeds_call (Toy.embed (Toy.tokens 2))
                          (Some (OtherRank Toy.image 3)) None) = None ->
        position_ids (ToyCalls.embeds_call (Toy.embed (Toy.tokens 2))
                        (Some (OtherRank Toy.image 3)) None) = None ->
        Toy.run_model (Toy.git_model None 3)
          (ToyCalls.embeds_call (Toy.embed (Toy.tokens 2))
             (Some (OtherRank Toy.image 3)) None)
        = (Err (ValueError "pixel_values must be of rank 4 or 5"), [])).
Proof.
  apply (forward_rejects_pixel_rank Z Z.add 0%Z Toy.image nat (fun n => n)
           unit unit (fun _ => 3) (fun _ m => m) Z (Toy.git_model None 3)
           (ToyCalls.embeds_call (Toy.embed (Toy.tokens 2))
              (Some (OtherRank Toy.image 3)) None) 3); reflexivity.
Defined.

Lemma X6_witness :
  fails (Toy.run_model (Toy.git_model None 3)
           (ToyCalls.embeds_call (Toy.embed (Toy.tokens 1)) None (Some [])))
  /\ (forall e,
        input_ids (ToyCalls.embeds_call (Toy.embed (Toy.tokens 1)) None
                     (Some [])) = None ->
        inputs_embeds (ToyCalls.embeds_call (Toy.embed (Toy.tokens 1)) None
                         (Some [])) = Some e ->
        0 < bsz3 e ->
        token_type_ids (ToyCalls.embeds_call (Toy.embed (Toy.tokens 1)) None
                          (Some [])) = None ->
        position_ids (ToyCalls.embeds_call (Toy.embed (Toy.tokens 1)) None
                        (Some [])) = None ->
        Toy.run_model (Toy.git_model None 3)
          (ToyCalls.embeds_call (Toy.embed (Toy.tokens 1)) None (Some []))
        = (Err IndexError, [])).
Proof.
  apply (forward_rejects_empty_cache Z Z.add 0%Z Toy.image nat (fun n => n)
           unit unit (fun _ => 3) (fun _ m => m) Z (Toy.git_model None 3)
           (ToyCalls.embeds_call (Toy.embed (Toy.tokens 1)) None (Some [])));
    reflexivity.
Defined.

Lemma X7_witness :
  outcome (Toy.run_model (Toy.git_model None 3)
             (ToyCalls.model_call (Some (mkT2 0 4 (fun _ _ => 0%Z))) None None
                None None None))
  = Err (ValueError "batch_size has to be defined and > 0")
  /\ trace (Toy.run_model (Toy.git_model None 3)
              (ToyCalls.model_call (Some (mkT2 0 4 (fun _ _ => 0%Z))) None
                 None None None None))
     = [EvWarnPadding].
Proof.
  apply (forward_rejects_empty_batch Z Z.add 0%Z Toy.image nat (fun n => n)
           unit unit (fun _ => 3) (fun _ m => m) Z (Toy.git_model None 3)
           (ToyCalls.model_call (Some (mkT2 0 4 (fun _ _ => 0%Z))) None None
              None None None)).
  cbn. lia.
Defined.

Lemma X8_witness :
  fails (forward Z.add 0%Z (fun n : nat => n) (fun _ : unit => 2)
           (fun _ (m : unit) => m) Z ToyCalls.cross_model
           (ToyCalls.cross_call (Toy.embed (Toy.tokens 2))
              (Toy.embed (Toy.tokens 4)))).
Proof.
  apply (forward_rejects_encoder_mask_rank Z Z.add 0%Z Toy.image nat
           (fun n => n) unit unit (fun _ => 2) (fun _ m => m) Z
           ToyCalls.cross_model
           (ToyCalls.cross_call (Toy.embed (Toy.tokens 2))
              (Toy.embed (Toy.tokens 4)))
           (Toy.embed (Toy.tokens 4)) tt); [reflexivity .. | lia].
Defined.

Lemma X9_witness :
  logs_only (fun ev => negb (vision_event ev))
    (Toy.run_model (Toy.git_model None 3)
       (ToyCalls.model_call (Some (Toy.tokens 1)) (Some (Rank4 (3, 0%Z)))
          (Some [7; 7]) None None None)).
Proof.
  apply (forward_without_image_skips_vision Z Z.add 0%Z Toy.image nat
           (fun n => n) unit unit (fun _ => 3) (fun _ m => m) Z
           (Toy.git_model None 3)
           (ToyCalls.model_call (Some (Toy.tokens 1)) (Some (Rank4 (3, 0%Z)))
              (Some [7; 7]) None None None)).
  right. discriminate.
Defined.

Lemma X10_witness :
  logs_only (fun ev => negb (loss_event ev))
    (Toy.run_causal_lm (Toy.causal_lm None 3)
       (Toy.lm_call (Some (Toy.tokens 5)) (Some (Rank4 (3, 0%Z))) None None
          None None)).
Proof.
  apply (lm_forward_without_labels_skips_loss Z Z.add 0%Z Toy.image nat
           (fun n => n) unit unit (fun _ => 3) (fun _ m => m) Z
           (Toy.causal_lm None 3)
           (Toy.lm_call (Some (Toy.tokens 5)) (Some (Rank4 (3, 0%Z))) None None
              None None)).
  reflexivity.
Defined.

Lemma X11_witness :
  exists out presents,
    outcome (Toy.run_model (Toy.git_model None 3)
               (ToyCalls.model_call (Some (Toy.tokens 1)) None (Some [7])
                  (Some true) None None)) = Ok out
    /\ model_cache out = Some presents
    /\ length presents = 1.
Proof.
  assert (Hrun : exists out,
            outcome (Toy.run_model (Toy.git_model None 3)
                       (ToyCalls.model_call (Some (Toy.tokens 1)) None
                          (Some [7]) (Some true) None None)) = Ok out)
    by (vm_compute; eexists; reflexivity).
  destruct Hrun as [out Hout]. exists out.
  destruct (forward_cache_has_one_entry_per_layer Z Z.add 0%Z Toy.image nat
              (fun n => n) unit unit (fun _ => 3) (fun _ m => m) Z
              (Toy.git_model None 3)
              (ToyCalls.model_call (Some (Toy.tokens 1)) None (Some [7])
                 (Some true) None None) out eq_refl Hout)
    as (presents & Hp & Hl).
  exists presents. split; [exact Hout|]. split; [exact Hp|exact Hl].
Defined.

Lemma X12_witness :
  exists out hs,
    outcome (Toy.run_model (Toy.git_model None 3)
               (ToyCalls.model_call (Some (Toy.tokens 2)) None None None
                  (Some true) (Some false))) = Ok out
    /\ model_hidden_states out = Some hs
    /\ length hs = 3.
Proof.
  assert (Hrun : exists out,
            outcome (Toy.run_model (Toy.git_model None 3)
                       (ToyCalls.model_call (Some (Toy.tokens 2)) None None
                          None (Some true) (Some false))) = Ok out)
    by (vm_compute; eexists; reflexivity).
  destruct Hrun as [out Hout]. exists out.
  destruct (forward_hidden_states_count Z Z.add 0%Z Toy.image nat
              (fun n => n) unit unit (fun _ => 3) (fun _ m => m) Z
              (Toy.git_model None 3)
              (ToyCalls.model_call (Some (Toy.tokens 2)) None None None
                 (Some true) (Some false)) out eq_refl Hout)
    as (hs & Hh & Hl).
  exists hs. split; [exact Hout|]. split; [exact Hh|exact Hl].
Defined.

Lemma X13_witness :
  outcome (encode_video Z.add (Toy.git_model (Some Toy.offsets) 8)
             [(4, 0%Z); (4, 1%Z); (4, 2%Z)]) = Err IndexError.
Proof.
  apply (encode_video_too_many_frames Z Z.add Toy.image nat unit unit
           (Toy.git_model (Some Toy.offsets) 8) Toy.offsets 1 4 2
           [(4, 0%Z); (4, 1%Z); (4, 2%Z)]).
  - reflexivity.
  - repeat constructor.
  - repeat constructor.
  - cbn. lia.
Defined.

Lemma X14_witness :
  fails (Toy.run_model (Toy.git_model None 3)
           (ToyCalls.model_call (Some (Toy.tokens 2))
              (Some (Rank5 [(4, 0%Z); (4, 1%Z)])) None None None None))
  /\ encode_visual Z.add (Toy.git_model None 3)
       (pixel_values
          (ToyCalls.model_call (Some (Toy.tokens 2))
             (Some (Rank5 [(4, 0%Z); (4, 1%Z)])) None None None None))
       (past_key_values
          (ToyCalls.model_call (Some (Toy.tokens 2))
             (Some (Rank5 [(4, 0%Z); (4, 1%Z)])) None None None None))
     = (Err AttributeError, [EvImageEncoder (Some 0)]).
Proof.
  apply (forward_video_without_temporal_embedding Z Z.add 0%Z Toy.image nat
           (fun n => n) unit unit (fun _ => 3) (fun _ m => m) Z
           (Toy.git_model None 3)
           (ToyCalls.model_call (Some (Toy.tokens 2))
              (Some (Rank5 [(4, 0%Z); (4, 1%Z)])) None None None None)
           (4, 0%Z) [(4, 1%Z)]); reflexivity.
Defined.

Lemma X15_witness :
  compute_loss (Toy.causal_lm None 3) (Toy.logits_of 8) (Some (Toy.tokens 5))
  = bind (lift (loss_fct (Toy.causal_lm None 3)
                  (map fst (loss_pairs (Toy.logits_of 8) (Toy.tokens 5) 3 (5 - 1)))
                  (map snd (loss_pairs (Toy.logits_of 8) (Toy.tokens 5) 3 (5 - 1)))))
      (fun loss => call EvLoss (Some loss)).
Proof.
  apply (loss_pairs_text_positions_with_next_labels Z Toy.image nat unit unit Z
           (Toy.causal_lm None 3) (Toy.logits_of 8) (Toy.tokens 5));
    solve [reflexivity | cbn; lia].
Defined.

Lemma X16_witness :
  exists input target,
    compute_loss (Toy.causal_lm None 3) (Toy.logits_of 5) (Some (Toy.tokens 5))
    = bind (lift (loss_fct (Toy.causal_lm None 3) input target))
        (fun loss => call EvLoss (Some loss))
    /\ length input = 1 * (5 - 1 - Nat.min 3 5)
    /\ length target = 1 * (5 - 1)
    /\ (0 < 1 -> 2 <= 5 -> 1 <= 3 -> length input < length target).
Proof.
  apply (loss_without_image_drops_text_positions Z Toy.image nat unit unit Z
           (Toy.causal_lm None 3) (Toy.logits_of 5) (Toy.tokens 5));
    solve [reflexivity | cbn; lia].
Defined.

Lemma X17_witness :
  exists out,
    outcome (Toy.run_causal_lm (Toy.causal_lm None 3)
               (Toy.lm_call (Some (Toy.tokens 5)) (Some (Rank4 (3, 0%Z)))
                  (Some (Toy.tokens 5)) None None (Some false))) = Ok out
    /\ exists loss logits rest,
         out = LMTuple (ILoss Z nat loss :: ITensor nat Z logits :: rest).
Proof.
  assert (Hrun : exists out,
            outcome (Toy.run_causal_lm (Toy.causal_lm None 3)
                       (Toy.lm_call (Some (Toy.tokens 5))
                          (Some (Rank4 (3, 0%Z))) (Some (Toy.tokens 5)) None
                          None (Some false))) = Ok out)
    by (vm_compute; eexists; reflexivity).
  destruct Hrun as [out Hout]. exists out. split; [exact Hout|].
  exact (lm_forward_tuple_layout Z Z.add 0%Z Toy.image nat (fun n => n) unit
           unit (fun _ => 3) (fun _ m => m) Z (Toy.causal_lm None 3)
           (Toy.lm_call (Some (Toy.tokens 5)) (Some (Rank4 (3, 0%Z)))
              (Some (Toy.tokens 5)) None None (Some false))
           out eq_refl Hout).
Defined.

Lemma X18_witness :
  nth_error (list2 (_generate_future_mask 4)) 1
  = Some (repeat 1%Z 2 ++ repeat 0%Z (4 - 2)).
Proof. apply (future_mask_row 4 1). lia. Defined.

Lemma X19_witness :
  exists m,
    combined_attention_mask false (mkT3 float32 2 3 4 (fun _ _ _ => tt))
      (mkT3 float32 2 2 4 (fun _ _ _ => tt)) 3 0 None = Ok m
    /\ mask_shape false m = (2, 2 + 3, 2 + 3)
    /\ forall b i j,
         i < 2 + 3 -> j < 2 + 3 ->
         mask_at false m b i j = (j <? 2) || ((2 <=? i) && (j <=? i)).
Proof.
  apply (first_call_mask_entries unit false
           (mkT3 float32 2 3 4 (fun _ _ _ => tt))
           (mkT3 float32 2 2 4 (fun _ _ _ => tt)) 3).
  reflexivity.
Defined.

Lemma X20_witness :
  create_attention_mask (mkT3 float32 1 2 4 (fun _ _ _ => tt))
    (mkT3 float32 1 3 4 (fun _ _ _ => tt)) (_generate_future_mask 2) 0
    (Some (NonBoolPad (mkT2 1 3 (fun _ _ => 0%Z))))
  = Err (ValueError "Memory key padding mask must be a boolean tensor.").
Proof.
  apply (create_attention_mask_rejects_non_boolean_padding unit
           (mkT3 float32 1 2 4 (fun _ _ _ => tt))
           (mkT3 float32 1 3 4 (fun _ _ _ => tt)) (_generate_future_mask 2) 0
           (mkT2 1 3 (fun _ _ => 0%Z))); reflexivity.
Defined.

Lemma X21_witness :
  exists msg,
    create_attention_mask (mkT3 float32 1 2 4 (fun _ _ _ => tt))
      (mkT3 float32 1 3 4 (fun _ _ _ => tt)) (_generate_future_mask 2) 0
      (Some (BoolPad (mkT2 1 2 (fun _ _ => false))))
    = Err (RuntimeError msg).
Proof.
  apply (create_attention_mask_rejects_padding_width unit
           (mkT3 float32 1 2 4 (fun _ _ _ => tt))
           (mkT3 float32 1 3 4 (fun _ _ _ => tt)) (_generate_future_mask 2) 0
           (mkT2 1 2 (fun _ _ => false)));
    solve [reflexivity | cbn; lia].
Defined.

Lemma X22_witness :
  gen_input_ids
    (prepare_inputs_for_generation (Aux := nat) (Toy.tokens 3) None None None
       ToyCalls.generation_kwargs) = Toy.tokens 3
  /\ exists m,
       combined_attention_mask true (Toy.embed (Toy.tokens 3))
         (Toy.encoder (3, 0%Z))
         (cols (gen_input_ids
                  (prepare_inputs_for_generation (Aux := nat) (Toy.tokens 3)
                     None None None ToyCalls.generation_kwargs))) 0
         (Some (gen_attention_mask
                  (prepare_inputs_for_generation (Aux := nat) (Toy.tokens 3)
                     None None None ToyCalls.generation_kwargs))) = Ok m
       /\ forall b i j,
            i < cols (Toy.tokens 3) -> j < cols (Toy.tokens 3) ->
            mask_at true m b (len3 (Toy.encoder (3, 0%Z)) + i)
              (len3 (Toy.encoder (3, 0%Z)) + j) = false.
Proof.
  apply (default_generation_mask_blanks_text_block Z Toy.image nat true
           (Toy.tokens 3) None ToyCalls.generation_kwargs
           (Toy.embed (Toy.tokens 3)) (Toy.encoder (3, 0%Z)));
    solve [reflexivity | cbn; lia].
Defined.

Lemma X23_witness :
  rows (gen_input_ids
          (prepare_inputs_for_generation (Toy.tokens 4) (Some [7; 7])
             (Some (new_ones (1, 4))) None ToyCalls.generation_kwargs))
  = rows (Toy.tokens 4)
  /\ cols (gen_input_ids
             (prepare_inputs_for_generation (Toy.tokens 4) (Some [7; 7])
                (Some (new_ones (1, 4))) None ToyCalls.generation_kwargs)) = 1
  /\ (forall b,
        at2 (gen_input_ids
               (prepare_inputs_for_generation (Toy.tokens 4) (Some [7; 7])
                  (Some (new_ones (1, 4))) None ToyCalls.generation_kwargs))
          b 0
        = at2 (Toy.tokens 4) b (cols (Toy.tokens 4) - 1))
  /\ (forall mask, Some (new_ones (1, 4)) = Some mask ->
        gen_attention_mask
          (prepare_inputs_for_generation (Toy.tokens 4) (Some [7; 7])
             (Some (new_ones (1, 4))) None ToyCalls.generation_kwargs) = mask)
  /\ exists m,
       combined_attention_mask true (Toy.embed (Toy.tokens 1))
         (mkT3 float32 1 0 2 (fun _ _ _ => 0%Z))
         (cols (gen_input_ids
                  (prepare_inputs_for_generation (Toy.tokens 4) (Some [7; 7])
                     (Some (new_ones (1, 4))) None
                     ToyCalls.generation_kwargs))) 7
         (Some (gen_attention_mask
                  (prepare_inputs_for_generation (Toy.tokens 4) (Some [7; 7])
                     (Some (new_ones (1, 4))) None
                     ToyCalls.generation_kwargs))) = Ok m
       /\ forall b j,
            j < 7 + 1 ->
            mask_at true m b
              (len3 (mkT3 float32 1 0 2 (fun _ _ _ => 0%Z)) + 0)
              (len3 (mkT3 float32 1 0 2 (fun _ _ _ => 0%Z)) + j) = true.
Proof.
  apply (generation_step_keeps_last_token Z Toy.image nat true (Toy.tokens 4)
           [7; 7] (Some (new_ones (1, 4))) None ToyCalls.generation_kwargs
           (Toy.embed (Toy.tokens 1)) (mkT3 float32 1 0 2 (fun _ _ _ => 0%Z))
           7);
    solve [reflexivity | cbn; lia].
Defined.

Lemma X24_witness :
  exists self output,
    config_init 512%Z ToyCalls.toy_from_pretrained ToyCalls.toy_super_init
      GitGPTBigCodeConfig ∅ = Ok self
    /\ to_dict Toy.vision_dict self = Ok output
    /\ output !! "vision_config"%string = Some (VDict (Toy.vision_dict 512))
    /\ output !! "num_image_with_embedding"%string = Some VNone
    /\ output !! "model_type"%string
       = Some (VStr (model_type GitGPTBigCodeConfig)).
Proof.
  apply (default_config_serialisation Z Toy.vision_dict 512%Z
           ToyCalls.toy_from_pretrained ToyCalls.toy_super_init
           GitGPTBigCodeConfig ∅).
  vm_compute. reflexivity.
Defined.

Lemma X25_witness :
  exists self output,
    config_init 512%Z ToyCalls.toy_from_pretrained ToyCalls.toy_super_init
      GitGPTBigCodeConfig
      {[ "vision_model_name"%string := VStr "clip";
         "num_image_with_embedding"%string := VInt 1 ]} = Ok self
    /\ to_dict Toy.vision_dict self = Ok output
    /\ output !! "vision_config"%string = Some (VDict (Toy.vision_dict 4))
    /\ output !! "vision_model_name"%string = Some (VStr "clip")
    /\ output !! "num_image_with_embedding"%string
       = Some (if equals_one (VInt 1 : value Z) then VNone else VInt 1)
    /\ output !! "model_type"%string
       = Some (VStr (model_type GitGPTBigCodeConfig)).
Proof.
  apply (named_config_serialisation Z Toy.vision_dict 512%Z
           ToyCalls.toy_from_pretrained ToyCalls.toy_super_init
           GitGPTBigCodeConfig
           {[ "vision_model_name"%string := VStr "clip";
              "num_image_with_embedding"%string := VInt 1 ]}
           (VStr "clip") (VInt 1) 4%Z);
    vm_compute; reflexivity.
Defined.

Lemma X26_witness :
  exists out,
    outcome (Toy.run_model (Toy.git_model None 3)
               (ToyCalls.model_call (Some (Toy.tokens 2)) None None
                  (Some false) None (Some false))) = Ok out
    /\ model_cache out = None.
Proof.
  assert (Hrun : exists out,
            outcome (Toy.run_model (Toy.git_model None 3)
                       (ToyCalls.model_call (Some (Toy.tokens 2)) None None
                          (Some false) None (Some false))) = Ok out)
    by (vm_compute; eexists; reflexivity).
  destruct Hrun as [out Hout]. exists out. split; [exact Hout|].
  exact (forward_without_cache Z Z.add 0%Z Toy.image nat (fun n => n) unit
           unit (fun _ => 3) (fun _ m => m) Z (Toy.git_model None 3)
           (ToyCalls.model_call (Some (Toy.tokens 2)) None None (Some false)
              None (Some false)) out eq_refl Hout).
Defined.

Lemma X27_witness :
  exists visual fused,
    visual_block 0%Z (Toy.embed (mkT2 2 2 (fun b j => Z.of_nat (b + j))))
      (Some (Toy.encoder (3, 0%Z))) = ret visual
    /\ cat_seq visual (Toy.embed (mkT2 2 2 (fun b j => Z.of_nat (b + j))))
       = Ok fused
    /\ has_shape fused 2 (3 + 2) 2
    /\ forall b i h,
         at3 fused b i h
         = if i <? 3 then at3 (Toy.encoder (3, 0%Z)) (b mod 1) i h
           else at3 (Toy.embed (mkT2 2 2 (fun b j => Z.of_nat (b + j)))) b
                  (i - 3) h.
Proof.
  apply (fused_sequence_repeats_visual_features Z 0%Z
           (Toy.embed (mkT2 2 2 (fun b j => Z.of_nat (b + j))))
           (Toy.encoder (3, 0%Z)));
    solve [reflexivity | cbn; lia].
Defined.

Lemma X28_witness :
  exists visual msg,
    visual_block 0%Z (Toy.embed (mkT2 3 2 (fun b j => Z.of_nat (b + j))))
      (Some (Toy.embed (mkT2 2 4 (fun b j => Z.of_nat (b + j))))) = ret visual
    /\ cat_seq visual (Toy.embed (mkT2 3 2 (fun b j => Z.of_nat (b + j))))
       = Err (RuntimeError msg).
Proof.
  apply (fused_sequence_rejects_batch_mismatch Z 0%Z
           (Toy.embed (mkT2 3 2 (fun b j => Z.of_nat (b + j))))
           (Toy.embed (mkT2 2 4 (fun b j => Z.of_nat (b + j)))));
    cbn; [lia | discriminate].
Defined.

Lemma X29_witness :
  exists out,
    outcome (Toy.run_model (Toy.git_model None 3)
               (ToyCalls.model_call (Some (Toy.tokens 2))
                  (Some (Rank4 (3, 0%Z))) None None None None)) = Ok out
    /\ List.filter block_event
         (trace (Toy.run_model (Toy.git_model None 3)
                   (ToyCalls.model_call (Some (Toy.tokens 2))
                      (Some (Rank4 (3, 0%Z))) None None None None)))
       = map EvBlock (seq 0 2).
Proof.
  assert (Hrun : exists out,
            outcome (Toy.run_model (Toy.git_model None 3)
                       (ToyCalls.model_call (Some (Toy.tokens 2))
                          (Some (Rank4 (3, 0%Z))) None None None None))
            = Ok out)
    by (vm_compute; eexists; reflexivity).
  destruct Hrun as [out Hout]. exists out. split; [exact Hout|].
  exact (forward_runs_each_layer_once Z Z.add 0%Z Toy.image nat (fun n => n)
           unit unit (fun _ => 3) (fun _ m => m) Z (Toy.git_model None 3)
           (ToyCalls.model_call (Some (Toy.tokens 2)) (Some (Rank4 (3, 0%Z)))
              None None None None) out Hout).
Defined.
